(** * hnscraper: a shallow embedding of the Hacker News scraper

    The development follows [hnscraper.go].  (The repository holds a second
    copy of the program after its README; its extractors, its row loop and
    its range loop are the same text, its [ScrapePage] reads the clock
    before the fetch instead of after it, and its multi-page fetcher is
    named [ScrapePages].)  Go values are modelled as the
    code has them: [int] is a 64-bit integer carried by [Z], a [string] is a
    sequence of bytes ([string] of [ascii]), a multiple return [(v, err)] is
    a pair whose second component is [option error] ([None] is [nil]), a
    [*html.Node] is an [option] of a node ([None] is the nil pointer) and a
    run-time panic is an outcome of its own.

    The HTML layer (package [htmlquery]), the clock and the time parser are
    collaborators outside the repository: they are the fields of the class
    [Collaborators], and every theorem of the generic part holds for all of
    them.  A small document model instantiates the class for the examples. *)

From Stdlib Require Import ZArith List String Ascii Bool Lia.
From Stdlib Require Import DecimalString DecimalPos DecimalZ.
Import ListNotations.

Local Open Scope Z_scope.

(* ================================================================= *)
(** ** Go's [int] *)

Module GoInt.

Definition maxInt : Z := 2 ^ 63 - 1.
Definition minInt : Z := - 2 ^ 63.

(** Two's complement wrap-around of a mathematical integer. *)
Definition wrap (z : Z) : Z := (z + 2 ^ 63) mod 2 ^ 64 - 2 ^ 63.

(** [i++] *)
Definition incr (i : Z) : Z := wrap (i + 1).

Definition inRange (z : Z) : Prop := minInt <= z <= maxInt.

End GoInt.

(* ================================================================= *)
(** ** Errors and panics *)

Inductive numErr : Type := ErrSyntax | ErrRange.

(** The error values that reach the caller: [errors.New(text)],
    [*strconv.NumError], and the errors made by the collaborators (a failed
    fetch, a rejected timestamp), which the program passes on untouched. *)
Inductive error : Type :=
| errors_New (text : string)
| NumError (Func Num : string) (Err : numErr)
| ExternalError (text : string).

Inductive panic : Type :=
| SliceBoundsOutOfRange (high : Z) (len : Z)
| IndexOutOfRange (index : Z) (len : Z)
| NilPointerDereference.

(** How a call ends: it returns, it panics, or the model's loop bound was
    too small (shown below never to happen). *)
Inductive outcome (A : Type) : Type :=
| Returned (a : A)
| Panicked (p : panic)
| OutOfFuel.

Arguments Returned {A} a.
Arguments Panicked {A} p.
Arguments OutOfFuel {A}.

Definition outcome_bind {A B} (c : outcome A) (k : A -> outcome B) : outcome B :=
  match c with
  | Returned a => k a
  | Panicked p => Panicked p
  | OutOfFuel => OutOfFuel
  end.

(* ================================================================= *)
(** ** Package [strings] *)

Module strings.

Local Open Scope string_scope.

Definition len (s : string) : Z := Z.of_nat (String.length s).

Fixpoint drop (n : nat) (s : string) : string :=
  match n, s with
  | O, _ => s
  | S _, EmptyString => EmptyString
  | S k, String _ s' => drop k s'
  end.

Fixpoint rev (s : string) : string :=
  match s with
  | EmptyString => EmptyString
  | String c s' => rev s' ++ String c EmptyString
  end.

Definition HasPrefix (s pre : string) : bool := String.prefix pre s.

(** [strings.Contains(s, substr)] *)
Fixpoint Contains (s substr : string) : bool :=
  HasPrefix s substr ||
  match s with
  | EmptyString => false
  | String _ s' => Contains s' substr
  end.

(** [strings.ReplaceAll(s, old, new)] for a non-empty [old]: the
    occurrences of [old] are replaced from left to right, without
    overlap.  [skip] counts the bytes of a matched occurrence still to
    be passed over. *)
Fixpoint replaceFrom (old new : string) (skip : nat) (s : string) : string :=
  match s with
  | EmptyString => EmptyString
  | String c s' =>
      match skip with
      | S k => replaceFrom old new k s'
      | O =>
          if HasPrefix s old
          then new ++ replaceFrom old new (String.length old - 1) s'
          else String c (replaceFrom old new 0 s')
      end
  end.

Definition ReplaceAll (s old new : string) : string := replaceFrom old new 0 s.

Definition bytes (l : list nat) : string :=
  fold_right (fun b s => String (ascii_of_nat b) s) EmptyString l.

(** The UTF-8 encodings of the code points with Unicode's White Space
    property, which is what [unicode.IsSpace] tests. *)
Definition whiteSpace : list string :=
  map bytes
    [ [9]; [10]; [11]; [12]; [13]; [32];
      [194; 133]; [194; 160]; [225; 154; 128];
      [226; 128; 128]; [226; 128; 129]; [226; 128; 130]; [226; 128; 131];
      [226; 128; 132]; [226; 128; 133]; [226; 128; 134]; [226; 128; 135];
      [226; 128; 136]; [226; 128; 137]; [226; 128; 138];
      [226; 128; 168]; [226; 128; 169]; [226; 128; 175];
      [226; 129; 159]; [227; 128; 128] ]%nat.

(** The length of the white space [s] starts with, from the table [ws]. *)
Definition leading (ws : list string) (s : string) : option nat :=
  option_map String.length (find (HasPrefix s) ws).

Fixpoint trimLeading (ws : list string) (fuel : nat) (s : string) : string :=
  match fuel with
  | O => s
  | S fuel' =>
      match leading ws s with
      | Some k => trimLeading ws fuel' (drop k s)
      | None => s
      end
  end.

Definition TrimLeft (s : string) : string :=
  trimLeading whiteSpace (String.length s) s.

Definition TrimRight (s : string) : string :=
  rev (trimLeading (map rev whiteSpace) (String.length s) (rev s)).

(** [strings.TrimSpace(s)] *)
Definition TrimSpace (s : string) : string := TrimRight (TrimLeft s).

End strings.

(* ================================================================= *)
(** ** Package [strconv] *)

Module strconv.

Local Open Scope string_scope.
Local Open Scope Z_scope.

Definition isDigit (c : ascii) : bool :=
  let n := nat_of_ascii c in (48 <=? n)%nat && (n <=? 57)%nat.

Definition digitVal (c : ascii) : Z := Z.of_nat (nat_of_ascii c) - 48.

Fixpoint allDigits (s : string) : bool :=
  match s with
  | EmptyString => true
  | String c s' => isDigit c && allDigits s'
  end.

(** The number a string of decimal digits denotes, from [acc] on. *)
Fixpoint digitsValue (acc : Z) (s : string) : Z :=
  match s with
  | EmptyString => acc
  | String c s' => digitsValue (acc * 10 + digitVal c) s'
  end.

Definition syntaxError (fn s : string) : error := NumError fn s ErrSyntax.
Definition rangeError (fn s : string) : error := NumError fn s ErrRange.

(** *** [ParseUint], [ParseInt] and [Atoi], for base 10 and [int] *)

Definition maxUint64 : Z := 2 ^ 64 - 1.

(** The smallest number whose tenfold is above [maxUint64]. *)
Definition cutoff : Z := maxUint64 / 10 + 1.

(** The loop of [ParseUint]: a byte that is no digit ends it with the
    syntax error; a digit that takes the number above 64 bits ends it with
    the range error and the largest value, and the bytes after it are not
    read.  ([n1 < n || n1 > maxVal] in unsigned arithmetic is [n1] above
    [maxUint64] here.) *)
Fixpoint parseUintLoop (n : Z) (s : string) : Z * option numErr :=
  match s with
  | EmptyString => (n, None)
  | String c s' =>
      if isDigit c then
        if cutoff <=? n then (maxUint64, Some ErrRange)
        else
          let n1 := n * 10 + digitVal c in
          if maxUint64 <? n1 then (maxUint64, Some ErrRange)
          else parseUintLoop n1 s'
      else (0, Some ErrSyntax)
  end.

(** [strconv.ParseUint(s, 10, 0)] *)
Definition ParseUint (s : string) : Z * option numErr :=
  match s with
  | EmptyString => (0, Some ErrSyntax)
  | _ => parseUintLoop 0 s
  end.

(** [strconv.ParseInt(s, 10, 0)] *)
Definition ParseInt (s : string) : Z * option numErr :=
  match s with
  | EmptyString => (0, Some ErrSyntax)
  | String c r =>
      let '(neg, body) :=
        if Ascii.eqb c "+" then (false, r)
        else if Ascii.eqb c "-" then (true, r)
        else (false, s) in
      let '(un, err) := ParseUint body in
      match err with
      | Some ErrSyntax => (0, Some ErrSyntax)
      | _ =>
          let cutoff := 2 ^ 63 in
          if negb neg && (cutoff <=? un) then (cutoff - 1, Some ErrRange)
          else if neg && (cutoff <? un) then (- cutoff, Some ErrRange)
          else (if neg then - un else un, None)
      end
  end.

(** The loop of the fast path of [Atoi]; [None] is its syntax error. *)
Fixpoint atoiLoop (n : Z) (s : string) : option Z :=
  match s with
  | EmptyString => Some n
  | String ch s' =>
      if isDigit ch then atoiLoop (n * 10 + digitVal ch) s' else None
  end.

(** [strconv.Atoi(s)]: the fast path for strings shorter than 19 bytes,
    [ParseInt] for the others, its error renamed. *)
Definition Atoi (s : string) : Z * option error :=
  let sLen := String.length s in
  if ((0 <? sLen) && (sLen <? 19))%nat then
    match s with
    | EmptyString => (0, Some (syntaxError "Atoi" s))
    | String c r =>
        let signed := Ascii.eqb c "-" || Ascii.eqb c "+" in
        let body := if signed then r else s in
        if signed && (String.length body <? 1)%nat
        then (0, Some (syntaxError "Atoi" s))
        else
          match atoiLoop 0 body with
          | None => (0, Some (syntaxError "Atoi" s))
          | Some n => (if Ascii.eqb c "-" then - n else n, None)
          end
    end
  else
    let '(i64, err) := ParseInt s in
    (i64, option_map (NumError "Atoi" s) err).

(** The part of a string after its sign, the digits it starts with, and
    what follows them. *)
Definition unsigned (s : string) : string :=
  match s with
  | String c r => if Ascii.eqb c "-" || Ascii.eqb c "+" then r else s
  | EmptyString => s
  end.

Definition negative (s : string) : bool :=
  match s with
  | String c _ => Ascii.eqb c "-"
  | EmptyString => false
  end.

Fixpoint leadingDigits (s : string) : string :=
  match s with
  | EmptyString => EmptyString
  | String c s' => if isDigit c then String c (leadingDigits s') else EmptyString
  end.

Fixpoint afterDigits (s : string) : string :=
  match s with
  | EmptyString => EmptyString
  | String c s' => if isDigit c then afterDigits s' else s
  end.

(** What [Atoi] takes for a number: an optional sign and at least one
    digit, nothing else. *)
Definition numeric (s : string) : bool :=
  let body :=
    match s with
    | String c r =>
        if Ascii.eqb c "-" || Ascii.eqb c "+" then r else s
    | EmptyString => s
    end in
  negb (String.eqb body "") && strconv.allDigits body.

(** [strconv.Itoa(i)] *)
Definition Itoa (i : Z) : string := NilZero.string_of_int (Z.to_int i).

End strconv.

(* ================================================================= *)
(** ** Package [regexp], as far as the program uses it *)

Module regexp.

(** [reg.ReplaceAllLiteralString(src, "")] for [reg] compiled from
    ["[^0-9]+"]: every run of bytes other than the ten digits goes. *)
Fixpoint deleteNonDigits (src : string) : string :=
  match src with
  | EmptyString => EmptyString
  | String c s' =>
      if strconv.isDigit c then String c (deleteNonDigits s')
      else deleteNonDigits s'
  end.

End regexp.

(* ================================================================= *)
(** ** The collaborators *)

(** What the program asks of the packages it imports.  [Find] is
    [htmlquery.Find] on a node that is not nil; the library panics on an
    expression it cannot compile, and the program only passes the nine
    constant expressions below, which it compiles (the one of
    [getNumComments], ["/a]"], is read as ["/a"]).  [LoadURL] returns a
    document or an error, never both.  The network and the clock are a
    [World] that every call may change. *)
Class Collaborators : Type := {
  Node : Type;
  Time : Type;
  World : Type;
  zeroTime : Time;
  LoadURL : string -> World -> (Node + error) * World;
  Find : Node -> string -> list Node;
  InnerText : Node -> string;
  SelectAttr : Node -> string -> string;
  Now : World -> Time * World;
  Parse : string -> string -> Time * option error
}.

(** What the program does to the world, oldest first. *)
Inductive event : Type :=
| Fetched (url : string)
| ClockRead.

(* ================================================================= *)
(** ** The program *)

Local Open Scope string_scope.
Local Open Scope list_scope.
Local Open Scope Z_scope.

Notation "x <- c ;; k" := (outcome_bind c (fun x => k))
  (at level 61, c at next level, right associativity).
Notation "' pat <- c ;; k" := (outcome_bind c (fun x => match x with pat => k end))
  (at level 61, pat pattern, c at next level, right associativity).

Section Program.

Context {C : Collaborators}.

(** A [*html.Node]. *)
Definition ptr : Type := option Node.

Record Post : Type := mkPost {
  Rank : Z;
  Title : string;
  Score : Z;
  By : string;
  URL : string;
  NumComments : Z;
  TimePosted : Time
}.

Record Page : Type := mkPage {
  Posts : list Post;
  Num : Z;
  Retrieved : Time
}.

(** [var post Post] and [var page Page] *)
Definition zeroPost : Post := mkPost 0 "" 0 "" "" 0 zeroTime.
Definition zeroPage : Page := mkPage [] 0 zeroTime.

Definition hackernewsURL : string := "https://news.ycombinator.com/news?p=".

Definition errorMsg : string := "could not process: page formatted unexpectedly".

(** *** Go's built-ins *)

Definition len {A} (l : list A) : Z := Z.of_nat (List.length l).

(** [l[i]] *)
Definition index {A} (l : list A) (i : Z) : outcome A :=
  if (i <? 0) || (len l <=? i) then Panicked (IndexOutOfRange i (len l))
  else match nth_error l (Z.to_nat i) with
       | Some a => Returned a
       | None => Panicked (IndexOutOfRange i (len l))
       end.

(** [s[:high]] *)
Definition sliceTo (s : string) (high : Z) : outcome string :=
  if (high <? 0) || (strings.len s <? high)
  then Panicked (SliceBoundsOutOfRange high (strings.len s))
  else Returned (String.substring 0 (Z.to_nat high) s).

(** *** [htmlquery], called on pointers *)

Definition htmlquery_Find (top : ptr) (expr : string) : outcome (list Node) :=
  match top with
  | None => Panicked NilPointerDereference
  | Some n => Returned (Find n expr)
  end.

(** [htmlquery.FindOne]: the first match, or nil. *)
Definition htmlquery_FindOne (top : ptr) (expr : string) : outcome ptr :=
  nodes <- htmlquery_Find top expr ;;
  Returned (hd_error nodes).

(** *** The field extractors *)

Definition getTitle (node : ptr) : outcome (string * option error) :=
  let title := "" in
  titleQuery <- htmlquery_Find node "/td/a" ;;
  if negb (len titleQuery =? 1) then Returned (title, Some (errors_New errorMsg))
  else
    q0 <- index titleQuery 0 ;;
    let title := InnerText q0 in
    Returned (title, None).

Definition getRank (node : ptr) : outcome (Z * option error) :=
  let rank := 0 in
  rankQuery <- htmlquery_Find node "/td/span[contains(@class, 'rank')]" ;;
  if negb (len rankQuery =? 1) then Returned (rank, Some (errors_New errorMsg))
  else
    q0 <- index rankQuery 0 ;;
    let rankStr := InnerText q0 in
    digits <- sliceTo rankStr (strings.len rankStr - 1) ;;
    let '(rank, err) := strconv.Atoi digits in
    match err with
    | Some e => Returned (rank, Some e)
    | None => Returned (rank, None)
    end.

Definition getURL (node : ptr) : outcome (string * option error) :=
  let url := "" in
  urlQuery <- htmlquery_Find node "/td/a[contains(@class, 'titlelink')]" ;;
  if negb (len urlQuery =? 1) then Returned (url, Some (errors_New errorMsg))
  else
    q0 <- index urlQuery 0 ;;
    let url := SelectAttr q0 "href" in
    Returned (url, None).

Definition getAuthor (node : ptr) : outcome (string * option error) :=
  let author := "" in
  authorQuery <- htmlquery_Find node "/a[contains(@class, 'hnuser')]" ;;
  if len authorQuery =? 1 then
    q0 <- index authorQuery 0 ;;
    let author := InnerText q0 in
    Returned (author, None)
  else Returned (author, None).

Definition getPoints (node : ptr) : outcome (Z * option error) :=
  let points := 0 in
  pointsQuery <- htmlquery_Find node "/span[contains(@class, 'score')]" ;;
  if negb (len pointsQuery =? 1) then Returned (points, Some (errors_New errorMsg))
  else
    q0 <- index pointsQuery 0 ;;
    let pointsStr := InnerText q0 in
    let '(points, err) :=
      strconv.Atoi (strings.TrimSpace (strings.ReplaceAll pointsStr "points" "")) in
    match err with
    | Some e => Returned (points, Some e)
    | None => Returned (points, None)
    end.

(** The [range] loop of [getNumComments] over the anchors still to be
    visited: [inl] is the [return 0, nil] inside the loop, [inr] the
    value of [commentsStr] when the loop ends. *)
Fixpoint commentsLoop (commentsQuery : list Node) (commentsStr : string)
  : (Z * option error) + string :=
  match commentsQuery with
  | [] => inr commentsStr
  | query :: rest =>
      let linkStr := InnerText query in
      if strings.Contains linkStr "discuss" then inl (0, None)
      else if strings.Contains linkStr "comment"
      then commentsLoop rest (regexp.deleteNonDigits linkStr)
      else commentsLoop rest commentsStr
  end.

(** [regexp.Compile] succeeds on the constant ["[^0-9]+"], so the return of
    its error is not a path of the call. *)
Definition getNumComments (node : ptr) : outcome (Z * option error) :=
  let num := 0 in
  let commentsStr := "" in
  commentsQuery <- htmlquery_Find node "/a]" ;;
  match commentsLoop commentsQuery commentsStr with
  | inl r => Returned r
  | inr commentsStr =>
      if String.eqb commentsStr "" then Returned (num, Some (errors_New errorMsg))
      else
        let '(num, err) := strconv.Atoi commentsStr in
        match err with
        | Some e => Returned (num, Some e)
        | None => Returned (num, None)
        end
  end.

Definition getTimePosted (node : ptr) : outcome (Time * option error) :=
  let posted := zeroTime in
  timeQuery <- htmlquery_Find node "/span[contains(@class, 'age')]" ;;
  if negb (len timeQuery =? 1) then Returned (posted, Some (errors_New errorMsg))
  else
    q0 <- index timeQuery 0 ;;
    let timeStr := SelectAttr q0 "title" in
    let '(posted, err) := Parse "2006-01-02T15:04:05" timeStr in
    match err with
    | Some e => Returned (posted, Some e)
    | None => Returned (posted, None)
    end.

(** *** The row extractor *)

Definition getPost (titleNode subtextNode : ptr) : outcome (Post * option error) :=
  let post := zeroPost in
  '(title, err) <- getTitle titleNode ;;
  match err with Some e => Returned (post, Some e) | None =>
  '(rank, err) <- getRank titleNode ;;
  match err with Some e => Returned (post, Some e) | None =>
  '(url, err) <- getURL titleNode ;;
  match err with Some e => Returned (post, Some e) | None =>
  '(author, err) <- getAuthor subtextNode ;;
  match err with Some e => Returned (post, Some e) | None =>
  '(points, err) <- getPoints subtextNode ;;
  match err with Some e => Returned (post, Some e) | None =>
  '(numComments, err) <- getNumComments subtextNode ;;
  match err with Some e => Returned (post, Some e) | None =>
  '(timePosted, err) <- getTimePosted subtextNode ;;
  match err with Some e => Returned (post, Some e) | None =>
  let post := {| Title := title; Score := points; Rank := rank; By := author;
                 URL := url; NumComments := numComments;
                 TimePosted := timePosted |} in
  Returned (post, None)
  end end end end end end end.

(** *** The page fetcher *)

(** The state the two public operations run in: the world outside and
    the record of what was asked of it. *)
Record state : Type := mkState {
  world : World;
  trace : list event
}.

Definition M (A : Type) : Type := state -> outcome A * state.

Definition M_ret {A} (a : A) : M A := fun s => (Returned a, s).

Definition M_bind {A B} (c : M A) (k : A -> M B) : M B :=
  fun s =>
    match c s with
    | (Returned a, s') => k a s'
    | (Panicked p, s') => (Panicked p, s')
    | (OutOfFuel, s') => (OutOfFuel, s')
    end.

Definition lift {A} (o : outcome A) : M A := fun s => (o, s).

(** [htmlquery.LoadURL(url)] *)
Definition htmlquery_LoadURL (url : string) : M (Node + error) :=
  fun s =>
    let '(r, w) := LoadURL url (world s) in
    (Returned r, mkState w (trace s ++ [Fetched url])).

(** [time.Now()] *)
Definition time_Now : M Time :=
  fun s =>
    let '(t, w) := Now (world s) in
    (Returned t, mkState w (trace s ++ [ClockRead])).

(** The loop over the rows, three at a time.  [i] stays below
    [len(listNodes)], so [i += 3] cannot overflow; [fuel] bounds the
    number of iterations left. *)
Fixpoint rowsLoop (fuel : nat) (listNodes : list Node) (i : Z) (posts : list Post)
  : outcome (list Post * option error) :=
  if i <? len listNodes - 2 then
    match fuel with
    | O => OutOfFuel
    | S fuel' =>
        row1 <- index listNodes (i + 1) ;;
        subtext <- htmlquery_FindOne (Some row1) "/td[contains(@class, 'subtext')]" ;;
        row0 <- index listNodes i ;;
        '(post, err) <- getPost (Some row0) subtext ;;
        match err with
        | Some e => Returned (posts, Some e)
        | None => rowsLoop fuel' listNodes (i + 3) (posts ++ [post])
        end
    end
  else Returned (posts, None).

(** [ScrapePage] from the query for the rows to its end. *)
Definition extractPage (doc : Node) (pageNum : Z) (retrievedTime : Time)
  : outcome (Page * option error) :=
  let page := zeroPage in
  let posts := [] in
  listNodes <- htmlquery_Find (Some doc)
                 "//table[contains(@class, 'itemlist')]/tbody/tr" ;;
  '(posts, err) <- rowsLoop (List.length listNodes) listNodes 0 posts ;;
  match err with
  | Some e => Returned (page, Some e)
  | None =>
      let page := {| Posts := posts; Num := pageNum; Retrieved := retrievedTime |} in
      Returned (page, None)
  end.

Definition ScrapePage (pageNum : Z) : M (Page * option error) :=
  let page := zeroPage in
  if pageNum <? 1
  then M_ret (page, Some (errors_New "page number must be a positive integer"))
  else
    M_bind (htmlquery_LoadURL (hackernewsURL ++ strconv.Itoa pageNum)) (fun r =>
    M_bind time_Now (fun retrievedTime =>
    match r with
    | inr err => M_ret (page, Some err)
    | inl doc => lift (extractPage doc pageNum retrievedTime)
    end)).

(** *** The multi-page fetcher *)

Fixpoint pagesLoop (fuel : nat) (i endPage : Z) (pages : list Page)
  : M (list Page * option error) :=
  if i <=? endPage then
    match fuel with
    | O => lift OutOfFuel
    | S fuel' =>
        M_bind (ScrapePage i) (fun '(page, err) =>
        match err with
        | Some e => M_ret (pages, Some e)
        | None => pagesLoop fuel' (GoInt.incr i) endPage (pages ++ [page])
        end)
    end
  else M_ret (pages, None).

Definition ScrapeMultPages (startPage endPage : Z) : M (list Page * option error) :=
  let pages := [] in
  if (startPage <? 1) || (endPage <? 1)
  then M_ret (pages, Some (errors_New "page numbers must be positive integers"))
  else if startPage >? endPage
  then M_ret (pages, Some (errors_New
         "starting page number cannot be larger than ending page number"))
  else pagesLoop (Z.to_nat (endPage - startPage) + 2) startPage endPage pages.

End Program.


(* ================================================================= *)
(** ** A document model *)

(** A small instance of the collaborators, for the examples: HTML trees,
    the nine path expressions of the program evaluated on them, a site
    that maps URLs to documents, a clock that ticks at each reading, and
    times counted in seconds from January 1 of year 1. *)
Module Doc.

#[warning="-register-all"]
Inductive node : Type :=
| Element (tag : string) (attrs : list (string * string)) (children : list node)
| Text (data : string).

Definition children (n : node) : list node :=
  match n with
  | Element _ _ kids => kids
  | Text _ => []
  end.

Fixpoint attr (attrs : list (string * string)) (name : string) : string :=
  match attrs with
  | [] => ""
  | (k, v) :: rest => if String.eqb k name then v else attr rest name
  end.

Definition selectAttr (n : node) (name : string) : string :=
  match n with
  | Element _ attrs _ => attr attrs name
  | Text _ => ""
  end.

Fixpoint innerText (n : node) : string :=
  match n with
  | Text data => data
  | Element _ _ kids =>
      (fix all (l : list node) : string :=
         match l with
         | [] => ""
         | k :: rest => (innerText k ++ all rest)%string
         end) kids
  end.

Fixpoint descendantsOrSelf (n : node) : list node :=
  n :: match n with
       | Text _ => []
       | Element _ _ kids =>
           (fix all (l : list node) : list node :=
              match l with
              | [] => []
              | k :: rest => descendantsOrSelf k ++ all rest
              end) kids
       end.

(** One step [tag] or [tag[contains(@class, 'c')]] along the child axis. *)
Record step : Type := mkStep {
  stepTag : string;
  stepClass : option string
}.

Definition matches (st : step) (n : node) : bool :=
  match n with
  | Text _ => false
  | Element tag attrs _ =>
      String.eqb tag (stepTag st) &&
      match stepClass st with
      | None => true
      | Some c => strings.Contains (attr attrs "class") c
      end
  end.

Definition childStep (from : list node) (st : step) : list node :=
  flat_map (fun n => filter (matches st) (children n)) from.

(** The expressions of the program: whether the path starts with [//],
    and its steps. *)
Definition compile (expr : string) : option (bool * list step) :=
  if String.eqb expr "/td/a"
  then Some (false, [mkStep "td" None; mkStep "a" None])
  else if String.eqb expr "/td/span[contains(@class, 'rank')]"
  then Some (false, [mkStep "td" None; mkStep "span" (Some "rank")])
  else if String.eqb expr "/td/a[contains(@class, 'titlelink')]"
  then Some (false, [mkStep "td" None; mkStep "a" (Some "titlelink")])
  else if String.eqb expr "/a[contains(@class, 'hnuser')]"
  then Some (false, [mkStep "a" (Some "hnuser")])
  else if String.eqb expr "/span[contains(@class, 'score')]"
  then Some (false, [mkStep "span" (Some "score")])
  else if String.eqb expr "/a]"
  then Some (false, [mkStep "a" None])
  else if String.eqb expr "/span[contains(@class, 'age')]"
  then Some (false, [mkStep "span" (Some "age")])
  else if String.eqb expr "/td[contains(@class, 'subtext')]"
  then Some (false, [mkStep "td" (Some "subtext")])
  else if String.eqb expr "//table[contains(@class, 'itemlist')]/tbody/tr"
  then Some (true, [mkStep "table" (Some "itemlist"); mkStep "tbody" None;
                    mkStep "tr" None])
  else None.

Definition find (top : node) (expr : string) : list node :=
  match compile expr with
  | None => []
  | Some (anywhere, steps) =>
      fold_left childStep steps
        (if anywhere then descendantsOrSelf top else [top])
  end.

(** *** Time *)

Definition isLeap (y : Z) : bool :=
  (y mod 4 =? 0) && (negb (y mod 100 =? 0) || (y mod 400 =? 0)).

Definition daysIn (y m : Z) : Z :=
  if m =? 2 then (if isLeap y then 29 else 28)
  else if (m =? 4) || (m =? 6) || (m =? 9) || (m =? 11) then 30
  else 31.

Definition daysBefore (y m : Z) : Z :=
  let p := y - 1 in
  365 * p + p / 4 - p / 100 + p / 400 +
  fold_right (fun k acc => daysIn y (Z.of_nat k) + acc) 0
             (seq 1 (Z.to_nat m - 1)).

(** A field of [n] decimal digits at [pos]. *)
Definition field (value : string) (pos n : nat) : option Z :=
  let f := String.substring pos n value in
  if (String.length f =? n)%nat && strconv.allDigits f
  then Some (strconv.digitsValue 0 f) else None.

Definition sepAt (value : string) (pos : nat) (c : ascii) : bool :=
  match String.get pos value with
  | Some c' => Ascii.eqb c c'
  | None => false
  end.

(** [time.Parse] on the layout of the program, for values written with
    every field at full width and nothing after the seconds. *)
Definition parse (layout value : string) : Z * option error :=
  let bad := (0, Some (ExternalError "parsing time: cannot parse")) in
  if negb (String.eqb layout "2006-01-02T15:04:05") then bad
  else if negb ((String.length value =? 19)%nat &&
                sepAt value 4 "-" && sepAt value 7 "-" && sepAt value 10 "T" &&
                sepAt value 13 ":" && sepAt value 16 ":") then bad
  else
    match field value 0 4, field value 5 2, field value 8 2,
          field value 11 2, field value 14 2, field value 17 2 with
    | Some y, Some mo, Some d, Some h, Some mi, Some sec =>
        if (1 <=? mo) && (mo <=? 12) && (1 <=? d) && (d <=? daysIn y mo) &&
           (h <? 24) && (mi <? 60) && (sec <? 60)
        then ((((daysBefore y mo + d - 1) * 24 + h) * 60 + mi) * 60 + sec, None)
        else bad
    | _, _, _, _, _, _ => bad
    end.

(** *** The world *)

Record world : Type := mkWorld {
  site : list (string * node);
  clock : Z
}.

Fixpoint lookup (pages : list (string * node)) (url : string) : node + error :=
  match pages with
  | [] => inr (ExternalError "Not Found")
  | (u, doc) :: rest => if String.eqb u url then inl doc else lookup rest url
  end.

#[export] Instance collaborators : Collaborators := {|
  Node := node;
  Time := Z;
  World := world;
  zeroTime := 0;
  LoadURL := fun url w => (lookup (site w) url, w);
  Find := find;
  InnerText := innerText;
  SelectAttr := selectAttr;
  Now := fun w => (clock w, mkWorld (site w) (clock w + 1));
  Parse := parse
|}.

(** *** Building listing pages *)

Definition span (class text : string) : node :=
  Element "span" [("class", class)] [Text text].

Definition anchor (class href text : string) : node :=
  Element "a" [("class", class); ("href", href)] [Text text].

(** The title row of a post. *)
Definition titleRow (rank title href : string) : node :=
  Element "tr" [("class", "athing")]
    [ Element "td" [("class", "title")] [span "rank" rank];
      Element "td" [("class", "title")] [anchor "titlelink" href title] ].

(** The subtext cell of a post and the row around it. *)
Definition subtextCell (score user posted comments : string) : node :=
  Element "td" [("class", "subtext")]
    [ span "score" score;
      anchor "hnuser" "user" user;
      Element "span" [("class", "age"); ("title", posted)]
        [anchor "" "item" "1 hour ago"];
      anchor "" "hide" "hide";
      anchor "" "item" comments ].

Definition subtextRow (cell : node) : node := Element "tr" [] [cell].

Definition spacerRow : node := Element "tr" [("class", "spacer")] [].

Definition listing (rows : list node) : node :=
  Element "html" []
    [ Element "body" []
        [ Element "table" [("class", "itemlist")]
            [ Element "tbody" [] rows ] ] ].

End Doc.

(* ================================================================= *)
(** ** The vocabulary of the properties *)

Section Vocabulary.

Context {C : Collaborators}.

(** The two kinds of error the program makes itself. *)
Definition InvalidInput (e : error) : Prop :=
  e = errors_New "page number must be a positive integer" \/
  e = errors_New "page numbers must be positive integers" \/
  e = errors_New "starting page number cannot be larger than ending page number".

Definition UnexpectedFormat : error := errors_New errorMsg.

(** The visible texts of the anchors [getNumComments] scans. *)
Definition anchorTexts (node : Node) : list string :=
  map InnerText (Find node "/a]").

Definition saysDiscuss (text : string) : bool := strings.Contains text "discuss".
Definition saysComment (text : string) : bool := strings.Contains text "comment".

(** The last of the texts that say "comment". *)
Definition lastComment (texts : list string) : option string :=
  List.last (map Some (filter saysComment texts)) None.

(** The rank-marked spans of a title row. *)
Definition rankSpans (node : Node) : list Node :=
  Find node "/td/span[contains(@class, 'rank')]".

(** The score-styled spans of a subtext cell. *)
Definition scoreSpans (node : Node) : list Node :=
  Find node "/span[contains(@class, 'score')]".

(** The rows of the listing table of a document. *)
Definition listingRows (doc : Node) : list Node :=
  Find doc "//table[contains(@class, 'itemlist')]/tbody/tr".

(** The address of a listing page. *)
Definition pageURL (pageNum : Z) : string :=
  hackernewsURL ++ strconv.Itoa pageNum.

(** The extraction of the [j]-th group of three rows: its first row is the
    title row, the subtext cell is looked for in its second row, its third
    row is not read. *)
Definition rowGroup (rows : list Node) (j : nat) : outcome (Post * option error) :=
  row1 <- index rows (3 * Z.of_nat j + 1) ;;
  subtext <- htmlquery_FindOne (Some row1) "/td[contains(@class, 'subtext')]" ;;
  row0 <- index rows (3 * Z.of_nat j) ;;
  getPost (Some row0) subtext.

(** The groups [js] extracted one after the other, stopping at the first
    that fails. *)
Fixpoint extractGroups (rows : list Node) (js : list nat) (posts : list Post)
  : outcome (list Post * option error) :=
  match js with
  | [] => Returned (posts, None)
  | j :: js' =>
      '(post, err) <- rowGroup rows j ;;
      match err with
      | Some e => Returned (posts, Some e)
      | None => extractGroups rows js' (posts ++ [post])
      end
  end.

(** The page made of the groups [0 .. n/3 - 1] of [n] rows. *)
Definition pageOfGroups (rows : list Node) (pageNum : Z) (retrievedTime : Time)
  : outcome (Page * option error) :=
  '(posts, err) <- extractGroups rows (seq 0 (List.length rows / 3)) [] ;;
  match err with
  | Some e => Returned (zeroPage, Some e)
  | None => Returned (mkPage posts pageNum retrievedTime, None)
  end.

(** What a page fetch that gets past the validation does to the state. *)
Definition afterFetch (pageNum : Z) (s : state) : (Node + error) * Time * state :=
  let '(r, w1) := LoadURL (pageURL pageNum) (world s) in
  let '(t, w2) := Now w1 in
  (r, t, mkState w2 (trace s ++ [Fetched (pageURL pageNum); ClockRead])).

(** [scraped i n s pages s']: from the state [s], the [n] pages numbered
    [i], [i + 1], ... are scraped one after the other without error; they
    are [pages] and the state is then [s']. *)
Inductive scraped : Z -> nat -> state -> list Page -> state -> Prop :=
| scraped_none (i : Z) (s : state) : scraped i 0 s [] s
| scraped_next (i : Z) (n : nat) (s s1 s2 : state) (page : Page) (pages : list Page) :
    ScrapePage i s = (Returned (page, None), s1) ->
    scraped (i + 1) n s1 pages s2 ->
    scraped i (S n) s (page :: pages) s2.

(** The page numbers [start], [start + 1], ..., [n] of them. *)
Definition pageNumbers (start : Z) (n : nat) : list Z :=
  map (fun k => start + Z.of_nat k) (seq 0 n).

(** The requests and clock readings of fetching the pages [nums]. *)
Definition visits (nums : list Z) : list event :=
  flat_map (fun i => [Fetched (pageURL i); ClockRead]) nums.

(** The call ended: it returned or it panicked. *)
Definition finished {A} (o : outcome A) : Prop := o <> OutOfFuel.

Fixpoint strictlyIncreasing (l : list Z) : Prop :=
  match l with
  | [] => True
  | x :: rest =>
      match rest with
      | [] => True
      | y :: _ => x < y /\ strictlyIncreasing rest
      end
  end.

(** The number [getRank] reads in the title row of the [j]-th group of
    three rows, when there is such a row and the call returns a number
    without error. *)
Definition rankRead (rows : list Node) (j : nat) : option Z :=
  match nth_error rows (3 * j) with
  | Some row =>
      match getRank (Some row) with
      | Returned (rank, None) => Some rank
      | _ => None
      end
  | None => None
  end.

(** What [getRank] reads in the title rows of the full groups, in the
    order of the rows. *)
Definition ranksRead (rows : list Node) : list (option Z) :=
  map (rankRead rows) (seq 0 (List.length rows / 3)).

End Vocabulary.

(* ================================================================= *)
(** ** Sample documents *)

Module Sample.

Import Doc.

Definition ptrTo (n : node) : ptr (C := collaborators) := Some n.

Definition initial (w : world) : state (C := collaborators) := mkState w [].

(** A subtext cell with the given score text and comment-link text. *)
Definition cell (score comments : string) : node :=
  subtextCell score "pg" "2021-06-01T12:00:00" comments.

(** A subtext cell whose only anchors are the given comment links. *)
Definition cellOfLinks (links : list string) : node :=
  Element "td" [("class", "subtext")] (map (anchor "" "item") links).

(** A title row with the given rank text. *)
Definition row (rank : string) : node :=
  titleRow rank "Show HN: a scraper" "https://example.com/".

(** The three rows of a post with the given rank text. *)
Definition post (rank : string) : list node :=
  [row rank; subtextRow (cell "12 points" "3 comments"); spacerRow].

(** A site of three listing pages of two posts each. *)
Definition threePages : world :=
  mkWorld
    [ ("https://news.ycombinator.com/news?p=1", listing (post "1." ++ post "2."));
      ("https://news.ycombinator.com/news?p=2", listing (post "3." ++ post "4."));
      ("https://news.ycombinator.com/news?p=3", listing (post "5." ++ post "6.")) ]
    1000.

(** A site whose second page is missing. *)
Definition onePage : world :=
  mkWorld
    [ ("https://news.ycombinator.com/news?p=1", listing (post "1." ++ post "2.")) ]
    1000.

(** A page whose ranks go down. *)
Definition unordered : world :=
  mkWorld
    [ ("https://news.ycombinator.com/news?p=1", listing (post "5." ++ post "3.")) ]
    1000.

(** A page whose second post has a rank span without text. *)
Definition emptyRank : world :=
  mkWorld
    [ ("https://news.ycombinator.com/news?p=1", listing (post "1." ++ post "")) ]
    1000.

(** A page whose second post has no score span the program can read. *)
Definition brokenSecond : world :=
  mkWorld
    [ ("https://news.ycombinator.com/news?p=1",
       listing (post "1." ++
                [row "2."; subtextRow (cell "a lot" "3 comments"); spacerRow])) ]
    1000.

(** A page that ends with a title row and a subtext row without spacer. *)
Definition noSpacer : world :=
  mkWorld
    [ ("https://news.ycombinator.com/news?p=1",
       listing (post "1." ++ [row "2."; subtextRow (cell "7 points" "discuss")])) ]
    1000.

(** A page without listing table. *)
Definition noTable : world :=
  mkWorld
    [ ("https://news.ycombinator.com/news?p=1",
       Element "html" [] [Element "body" [] [Text "Sorry."]]) ]
    1000.

End Sample.

(* ================================================================= *)
(** ** The second copy of the program *)

(** The file that follows the README holds the program once more.  Its
    field extractors, [getPost] and the loop over the rows are the text
    modelled above; [ScrapePage] reads the clock before it fetches, and the
    multi-page fetcher is named [ScrapePages]. *)
Module SecondCopy.

Section Program.

Context {C : Collaborators}.

Definition ScrapePage (pageNum : Z) : M (Page * option error) :=
  let page := zeroPage in
  if pageNum <? 1
  then M_ret (page, Some (errors_New "page number must be a positive integer"))
  else
    M_bind time_Now (fun retrievedTime =>
    M_bind (htmlquery_LoadURL (hackernewsURL ++ strconv.Itoa pageNum)) (fun r =>
    match r with
    | inr err => M_ret (page, Some err)
    | inl doc => lift (extractPage doc pageNum retrievedTime)
    end)).

Fixpoint pagesLoop (fuel : nat) (i endPage : Z) (pages : list Page)
  : M (list Page * option error) :=
  if i <=? endPage then
    match fuel with
    | O => lift OutOfFuel
    | S fuel' =>
        M_bind (ScrapePage i) (fun '(page, err) =>
        match err with
        | Some e => M_ret (pages, Some e)
        | None => pagesLoop fuel' (GoInt.incr i) endPage (pages ++ [page])
        end)
    end
  else M_ret (pages, None).

Definition ScrapePages (startPage endPage : Z) : M (list Page * option error) :=
  let pages := [] in
  if (startPage <? 1) || (endPage <? 1)
  then M_ret (pages, Some (errors_New "page numbers must be positive integers"))
  else if startPage >? endPage
  then M_ret (pages, Some (errors_New
         "starting page number cannot be larger than ending page number"))
  else pagesLoop (Z.to_nat (endPage - startPage) + 2) startPage endPage pages.

End Program.

End SecondCopy.

(* ================================================================= *)
(** ** The tests of the repository *)

(** [hnscraper_test.go].  A call of [t.Error] is a report; its arguments
    other than the fixed words are kept.  A test passes when it returns
    without report. *)
Inductive report : Type :=
| AcceptedInvalidPageNumber
| AcceptedInvalidPageRange
| ErrorReturned (err : error)
| InsufficientPosts (numPosts : Z)
| WrongNumberOfPages (numPages : Z).

Section Tests.

Context {C : Collaborators}.

Definition TestScrapePageFail : M (list report) :=
  M_bind (ScrapePage 0) (fun '(_, err) =>
  match err with
  | None => M_ret [AcceptedInvalidPageNumber]
  | Some _ => M_ret []
  end).

Definition TestScrapePageSuccess : M (list report) :=
  M_bind (ScrapePage 1) (fun '(result, err) =>
  match err with
  | Some e => M_ret [ErrorReturned e]
  | None =>
      let numPosts := len (Posts result) in
      if numPosts <? 20 then M_ret [InsufficientPosts numPosts] else M_ret []
  end).

Definition TestScrapeMultPagesFail : M (list report) :=
  M_bind (ScrapeMultPages (-1) 2) (fun '(_, err) =>
  match err with
  | None => M_ret [AcceptedInvalidPageRange]
  | Some _ => M_ret []
  end).

Definition TestScrapeMultPagesSuccess : M (list report) :=
  M_bind (ScrapeMultPages 1 3) (fun '(result, err) =>
  match err with
  | Some e => M_ret [ErrorReturned e]
  | None =>
      let numPages := len result in
      if negb (numPages =? 3) then M_ret [WrongNumberOfPages numPages] else M_ret []
  end).

End Tests.

(* ================================================================= *)
(** ** More vocabulary *)

Section MoreVocabulary.

Context {C : Collaborators}.

(** The call returned: it did not panic. *)
Definition returns {A} (o : outcome A) : Prop := exists a, o = Returned a.

(** The pages [first] put before the pages of a result. *)
Definition prepend (first : list Page) (o : outcome (list Page * option error))
  : outcome (list Page * option error) :=
  match o with
  | Returned (pages, err) => Returned (first ++ pages, err)
  | Panicked p => Panicked p
  | OutOfFuel => OutOfFuel
  end.

(** A result of [ScrapePage] without the time of retrieval. *)
Definition untimed (o : outcome (Page * option error))
  : outcome (list Post * Z * option error) :=
  match o with
  | Returned (page, err) => Returned (Posts page, Num page, err)
  | Panicked p => Panicked p
  | OutOfFuel => OutOfFuel
  end.

(** A result of the multi-page fetchers without the times of retrieval. *)
Definition untimedPages (o : outcome (list Page * option error))
  : outcome (list (list Post * Z) * option error) :=
  match o with
  | Returned (pages, err) => Returned (map (fun page => (Posts page, Num page)) pages, err)
  | Panicked p => Panicked p
  | OutOfFuel => OutOfFuel
  end.

(** The answer to a fetch does not depend on whether the clock was read
    before it or after it, and neither does the world left behind. *)
Definition clockIndependent : Prop :=
  forall (url : string) (w : World),
    fst (LoadURL url (snd (Now w))) = fst (LoadURL url w) /\
    snd (LoadURL url (snd (Now w))) = snd (Now (snd (LoadURL url w))).

(** The anchors [getTitle] looks at, those [getURL] looks at, the user
    links and the age spans. *)
Definition titleAnchors (node : Node) : list Node := Find node "/td/a".

Definition linkAnchors (node : Node) : list Node :=
  Find node "/td/a[contains(@class, 'titlelink')]".

Definition userAnchors (node : Node) : list Node :=
  Find node "/a[contains(@class, 'hnuser')]".

Definition ageSpans (node : Node) : list Node :=
  Find node "/span[contains(@class, 'age')]".

(** The subtext cells found in a row. *)
Definition subtextCells (row : Node) : list Node :=
  Find row "/td[contains(@class, 'subtext')]".

(** No full group of three rows, the groups the loop of [ScrapePage]
    reads, has a rank span without text or lacks its subtext cell.  The
    one or two rows after the last full group are not constrained. *)
Definition wellFormedRows (rows : list Node) : Prop :=
  forall (j : nat) (row0 row1 : Node),
    (j < List.length rows / 3)%nat ->
    nth_error rows (3 * j) = Some row0 ->
    nth_error rows (3 * j + 1) = Some row1 ->
    subtextCells row1 <> [] /\
    forall span, rankSpans row0 = [span] -> InnerText span <> "".

End MoreVocabulary.

(** The characters of a printed integer: a digit or the minus sign. *)
Definition signedDigit (c : ascii) : bool :=
  strconv.isDigit c || Ascii.eqb c "-".

(** [f] holds of every character of [s]. *)
Fixpoint allChars (f : ascii -> bool) (s : string) : bool :=
  match s with
  | EmptyString => true
  | String c s' => f c && allChars f s'
  end.

(** Some string of the table [ws] starts with the character [c]. *)
Definition startsSome (ws : list string) (c : ascii) : bool :=
  existsb (fun w => match w with
                    | String a _ => Ascii.eqb a c
                    | EmptyString => true
                    end) ws.

(* ================================================================= *)
(** ** More sample documents *)

Module MoreSample.

Import Doc.

(** A subtext cell with two user links. *)
Definition twoAuthors : node :=
  Element "td" [("class", "subtext")]
    [ span "score" "12 points";
      anchor "hnuser" "user" "pg";
      anchor "hnuser" "user" "rtm";
      anchor "" "item" "discuss" ].

(** A subtext row without subtext cell. *)
Definition bareRow : node := Element "tr" [] [Element "td" [] []].

(** The comment link as the site writes it, with a no-break space. *)
Definition nbspComments : string :=
  (strings.bytes [194; 160]%nat ++ "comments")%string.

(** A site whose front page has twenty posts. *)
Definition frontPage : world :=
  mkWorld
    [ ("https://news.ycombinator.com/news?p=1",
       listing (List.concat (repeat (Sample.post "1.") 20))) ]
    1000.

Definition cellOfTheSite : node :=
  subtextCell "1234 points" "pg" "2021-06-01T12:00:00" ("42" ++ nbspComments)%string.

(** A page that ends, after its one post, with two rows of no post: a
    title row whose rank span has no text and a row without subtext
    cell. *)
Definition trailingPair : world :=
  mkWorld
    [ ("https://news.ycombinator.com/news?p=1",
       listing (Sample.post "1." ++ [Sample.row ""; bareRow])) ]
    1000.

(** A page whose rank texts are "30", without period, and "5.". *)
Definition misread : world :=
  mkWorld
    [ ("https://news.ycombinator.com/news?p=1",
       listing (Sample.post "30" ++ Sample.post "5.")) ]
    1000.

End MoreSample.

(* ================================================================= *)
(** ** Facts about the library models *)

Module LibFacts.

Local Open Scope string_scope.

Lemma length_app (s t : string) :
  String.length (s ++ t) = (String.length s + String.length t)%nat.
Proof. induction s as [|c s IH]; simpl; [reflexivity | now rewrite IH]. Qed.

Lemma substring_app (s t : string) :
  String.substring 0 (String.length s) (s ++ t) = s.
Proof.
  induction s as [|c s IH]; simpl.
  - now destruct t.
  - now rewrite IH.
Qed.

Lemma isDigit_not_sign (c : ascii) :
  strconv.isDigit c = true ->
  Ascii.eqb c "-" = false /\ Ascii.eqb c "+" = false.
Proof.
  intros H. split.
  - destruct (Ascii.eqb_spec c "-") as [E|]; [subst c; discriminate H | reflexivity].
  - destruct (Ascii.eqb_spec c "+") as [E|]; [subst c; discriminate H | reflexivity].
Qed.

Local Open Scope Z_scope.

Lemma digitVal_digit (c : ascii) :
  strconv.isDigit c = true -> 0 <= strconv.digitVal c <= 9.
Proof.
  unfold strconv.isDigit, strconv.digitVal. intros H.
  apply andb_true_iff in H. destruct H as [H1 H2].
  apply Nat.leb_le in H1, H2. lia.
Qed.

Lemma digitsValue_grows (s : string) :
  forall n, strconv.allDigits s = true -> 0 <= n -> n <= strconv.digitsValue n s.
Proof.
  induction s as [|c s IH]; intros n Hd Hn; [cbn; lia|].
  cbn [strconv.allDigits] in Hd. apply andb_true_iff in Hd. destruct Hd as [Hc Hd].
  cbn [strconv.digitsValue]. pose proof (digitVal_digit c Hc).
  specialize (IH (n * 10 + strconv.digitVal c) Hd ltac:(lia)). lia.
Qed.

Lemma append_nil (s : string) : s ++ "" = s.
Proof. induction s as [|c s IH]; cbn; [reflexivity | now rewrite IH]. Qed.

Lemma cutoff_value : strconv.cutoff = 1844674407370955162.
Proof. reflexivity. Qed.

Lemma maxUint64_value : strconv.maxUint64 = 18446744073709551615.
Proof. reflexivity. Qed.

(** The loop of [ParseUint] over digits: it goes through them when the
    number they denote fits 64 bits, and stops with the range error when
    it does not, whatever follows. *)
Lemma parseUintLoop_digits_then (d t : string) :
  forall n,
    strconv.allDigits d = true -> 0 <= n <= strconv.maxUint64 ->
    strconv.parseUintLoop n (d ++ t) =
    if strconv.maxUint64 <? strconv.digitsValue n d
    then (strconv.maxUint64, Some ErrRange)
    else strconv.parseUintLoop (strconv.digitsValue n d) t.
Proof.
  induction d as [|c d IH]; intros n Hd Hn.
  - cbn [append strconv.digitsValue].
    destruct (Z.ltb_spec strconv.maxUint64 n); [lia | reflexivity].
  - cbn [strconv.allDigits] in Hd. apply andb_true_iff in Hd. destruct Hd as [Hc Hd].
    pose proof (digitVal_digit c Hc) as Hv.
    cbn [append strconv.parseUintLoop strconv.digitsValue]. rewrite Hc. cbv zeta.
    pose proof (digitsValue_grows d (n * 10 + strconv.digitVal c) Hd ltac:(lia)) as Hg.
    rewrite cutoff_value, maxUint64_value in *.
    destruct (Z.leb_spec 1844674407370955162 n).
    + destruct (Z.ltb_spec 18446744073709551615
                  (strconv.digitsValue (n * 10 + strconv.digitVal c) d)); [reflexivity | lia].
    + destruct (Z.ltb_spec 18446744073709551615 (n * 10 + strconv.digitVal c)).
      * destruct (Z.ltb_spec 18446744073709551615
                    (strconv.digitsValue (n * 10 + strconv.digitVal c) d));
          [reflexivity | lia].
      * rewrite <- maxUint64_value. apply IH; [assumption|].
        pose proof maxUint64_value as Hm. lia.
Qed.

Lemma parseUintLoop_digits (d : string) :
  strconv.allDigits d = true ->
  strconv.parseUintLoop 0 d =
  if strconv.maxUint64 <? strconv.digitsValue 0 d
  then (strconv.maxUint64, Some ErrRange)
  else (strconv.digitsValue 0 d, None).
Proof.
  intros Hd. rewrite <- (append_nil d) at 1.
  rewrite parseUintLoop_digits_then; [reflexivity | assumption |].
  rewrite maxUint64_value. lia.
Qed.

(** A number of [m] digits is below the [m]-th power of ten. *)
Lemma digitsValue_below (s : string) :
  forall n,
    strconv.allDigits s = true -> 0 <= n ->
    strconv.digitsValue n s < (n + 1) * 10 ^ Z.of_nat (String.length s).
Proof.
  induction s as [|c s IH]; intros n Hd Hn; [cbn; lia|].
  cbn [strconv.allDigits] in Hd. apply andb_true_iff in Hd. destruct Hd as [Hc Hd].
  pose proof (digitVal_digit c Hc) as Hv.
  cbn [strconv.digitsValue String.length].
  rewrite Nat2Z.inj_succ, Z.pow_succ_r by lia.
  specialize (IH (n * 10 + strconv.digitVal c) Hd ltac:(lia)).
  pose proof (Z.pow_pos_nonneg 10 (Z.of_nat (String.length s)) ltac:(lia) ltac:(lia)).
  nia.
Qed.

Lemma pow10_mono (a b : nat) : (a <= b)%nat -> 10 ^ Z.of_nat a <= 10 ^ Z.of_nat b.
Proof. intros H. apply Z.pow_le_mono_r; lia. Qed.

(** The fast path of [Atoi] and the loop of [ParseUint] agree on strings
    of at most 18 bytes, where nothing overflows. *)
Lemma atoiLoop_parseUintLoop (s : string) :
  forall n,
    0 <= n -> (n + 1) * 10 ^ Z.of_nat (String.length s) <= 10 ^ 18 ->
    match strconv.atoiLoop n s with
    | Some v => strconv.parseUintLoop n s = (v, None) /\ 0 <= v < 10 ^ 18
    | None => strconv.parseUintLoop n s = (0, Some ErrSyntax)
    end.
Proof.
  induction s as [|c s IH]; intros n Hn Hb.
  - cbn in *. split; [reflexivity | lia].
  - cbn [strconv.atoiLoop strconv.parseUintLoop].
    destruct (strconv.isDigit c) eqn:Hc; [|reflexivity].
    pose proof (digitVal_digit c Hc) as Hv.
    cbn [String.length] in Hb. rewrite Nat2Z.inj_succ, Z.pow_succ_r in Hb by lia.
    pose proof (Z.pow_pos_nonneg 10 (Z.of_nat (String.length s)) ltac:(lia) ltac:(lia)) as HP.
    set (P := 10 ^ Z.of_nat (String.length s)) in *.
    change (10 ^ 18) with 1000000000000000000 in *.
    assert (Hn1 : (n + 1) * 10 <= 1000000000000000000) by nia.
    rewrite cutoff_value, maxUint64_value. cbv zeta.
    destruct (Z.leb_spec 1844674407370955162 n); [lia|].
    destruct (Z.ltb_spec 18446744073709551615 (n * 10 + strconv.digitVal c)); [lia|].
    apply IH; [lia|]. fold P. nia.
Qed.

Lemma short_power (s : string) :
  (String.length s < 19)%nat -> (0 + 1) * 10 ^ Z.of_nat (String.length s) <= 10 ^ 18.
Proof.
  intros H. rewrite Z.mul_1_l. apply (pow10_mono _ 18). lia.
Qed.

(** [Atoi] is [ParseInt] with its error renamed: the fast path returns
    what the slow one would. *)
Lemma Atoi_ParseInt (s : string) :
  strconv.Atoi s =
  (fst (strconv.ParseInt s),
   option_map (NumError "Atoi" s) (snd (strconv.ParseInt s))).
Proof.
  unfold strconv.Atoi.
  destruct ((0 <? String.length s)%nat && (String.length s <? 19)%nat) eqn:Hfast;
    [|now destruct (strconv.ParseInt s)].
  apply andb_true_iff in Hfast. destruct Hfast as [_ Hlen]. apply Nat.ltb_lt in Hlen.
  destruct s as [|c r]; [reflexivity|]. cbv zeta. unfold strconv.ParseInt.
  cbn [String.length] in Hlen.
  destruct (Ascii.eqb_spec c "+") as [->|Hplus].
  - change (Ascii.eqb "+" "-") with false. cbn [orb andb].
    destruct r as [|c' r']; [reflexivity|].
    pose proof (atoiLoop_parseUintLoop (String c' r') 0 ltac:(lia)
                  (short_power (String c' r') ltac:(lia))) as H.
    cbn [String.length Nat.ltb Nat.leb]. unfold strconv.ParseUint.
    destruct (strconv.atoiLoop 0 (String c' r')) as [v|].
    + destruct H as [-> Hv]. cbn [negb andb].
      destruct (Z.leb_spec (2 ^ 63) v); [lia | reflexivity].
    + now rewrite H.
  - destruct (Ascii.eqb_spec c "-") as [->|Hminus].
    + cbn [orb andb].
      destruct r as [|c' r']; [reflexivity|].
      pose proof (atoiLoop_parseUintLoop (String c' r') 0 ltac:(lia)
                    (short_power (String c' r') ltac:(lia))) as H.
      cbn [String.length Nat.ltb Nat.leb]. unfold strconv.ParseUint.
      destruct (strconv.atoiLoop 0 (String c' r')) as [v|].
      * destruct H as [-> Hv]. cbn [negb andb].
        destruct (Z.ltb_spec (2 ^ 63) v); [lia | reflexivity].
      * now rewrite H.
    + cbn [orb andb].
      pose proof (atoiLoop_parseUintLoop (String c r) 0 ltac:(lia)
                    (short_power (String c r) ltac:(cbn [String.length]; lia))) as H.
      unfold strconv.ParseUint.
      destruct (strconv.atoiLoop 0 (String c r)) as [v|].
      * destruct H as [-> Hv]. cbn [negb andb].
        destruct (Z.leb_spec (2 ^ 63) v); [lia | reflexivity].
      * now rewrite H.
Qed.

Lemma ParseInt_unsigned (c : ascii) (r : string) :
  Ascii.eqb c "-" = false -> Ascii.eqb c "+" = false ->
  strconv.ParseInt (String c r) =
  let '(un, err) := strconv.parseUintLoop 0 (String c r) in
  match err with
  | Some ErrSyntax => (0, Some ErrSyntax)
  | _ => if 2 ^ 63 <=? un then (2 ^ 63 - 1, Some ErrRange) else (un, None)
  end.
Proof.
  intros Hm Hp. unfold strconv.ParseInt, strconv.ParseUint. rewrite Hm, Hp.
  destruct (strconv.parseUintLoop 0 (String c r)) as [un [[|]|]]; reflexivity.
Qed.

(** A string of digits that fits an [int] parses to the number it
    denotes. *)
Lemma Atoi_digits (s : string) :
  s <> "" ->
  strconv.allDigits s = true ->
  strconv.digitsValue 0 s <= GoInt.maxInt ->
  strconv.Atoi s = (strconv.digitsValue 0 s, None).
Proof.
  intros Hne Hd Hr. destruct s as [|c r]; [congruence|].
  assert (Hc : strconv.isDigit c = true)
    by (simpl in Hd; now apply andb_true_iff in Hd).
  destruct (isDigit_not_sign c Hc) as [Hm Hp].
  rewrite Atoi_ParseInt, (ParseInt_unsigned c r Hm Hp), (parseUintLoop_digits _ Hd).
  rewrite maxUint64_value. unfold GoInt.maxInt in Hr.
  destruct (Z.ltb_spec 18446744073709551615 (strconv.digitsValue 0 (String c r))); [lia|].
  destruct (Z.leb_spec (2 ^ 63) (strconv.digitsValue 0 (String c r))); [lia|].
  reflexivity.
Qed.

(** Too large a number is clamped and reported. *)
Lemma Atoi_digits_range (s : string) :
  s <> "" ->
  strconv.allDigits s = true ->
  GoInt.maxInt < strconv.digitsValue 0 s ->
  strconv.Atoi s = (GoInt.maxInt, Some (NumError "Atoi" s ErrRange)).
Proof.
  intros Hne Hd Hr. destruct s as [|c r]; [congruence|].
  assert (Hc : strconv.isDigit c = true)
    by (simpl in Hd; now apply andb_true_iff in Hd).
  destruct (isDigit_not_sign c Hc) as [Hm Hp].
  rewrite Atoi_ParseInt, (ParseInt_unsigned c r Hm Hp), (parseUintLoop_digits _ Hd).
  rewrite maxUint64_value. unfold GoInt.maxInt in *.
  destruct (Z.ltb_spec 18446744073709551615 (strconv.digitsValue 0 (String c r)));
    [reflexivity|].
  destruct (Z.leb_spec (2 ^ 63) (strconv.digitsValue 0 (String c r))); [reflexivity | lia].
Qed.

(** A minus sign before digits that fit an [int]. *)
Lemma Atoi_minus_digits (d : string) :
  d <> "" ->
  strconv.allDigits d = true ->
  strconv.digitsValue 0 d <= 2 ^ 63 ->
  strconv.Atoi (String "-" d) = (- strconv.digitsValue 0 d, None).
Proof.
  intros Hne Hd Hr. rewrite Atoi_ParseInt. unfold strconv.ParseInt, strconv.ParseUint.
  change (Ascii.eqb "-" "+") with false. change (Ascii.eqb "-" "-") with true. cbv iota.
  destruct d as [|c r]; [congruence|].
  rewrite (parseUintLoop_digits _ Hd), maxUint64_value.
  destruct (Z.ltb_spec 18446744073709551615 (strconv.digitsValue 0 (String c r))); [lia|].
  cbn [negb andb].
  destruct (Z.ltb_spec (2 ^ 63) (strconv.digitsValue 0 (String c r))); [lia | reflexivity].
Qed.

(** A string is the digits it starts with and what follows them. *)
Lemma digits_split (s : string) :
  s = strconv.leadingDigits s ++ strconv.afterDigits s /\
  strconv.allDigits (strconv.leadingDigits s) = true /\
  (strconv.allDigits s = false ->
   exists c r, strconv.afterDigits s = String c r /\ strconv.isDigit c = false).
Proof.
  induction s as [|c s [IH1 [IH2 IH3]]]; [repeat split; discriminate|].
  cbn [strconv.leadingDigits strconv.afterDigits strconv.allDigits].
  destruct (strconv.isDigit c) eqn:Hc; cbn [append strconv.allDigits andb].
  - rewrite Hc. cbn [andb]. split; [now rewrite <- IH1|]. split; assumption.
  - split; [reflexivity|]. split; [reflexivity|]. intros _. now exists c, s.
Qed.

Lemma leadingDigits_length (s : string) :
  (String.length (strconv.leadingDigits s) <= String.length s)%nat.
Proof.
  induction s as [|c s IH]; [cbn; lia|]. cbn [strconv.leadingDigits].
  destruct (strconv.isDigit c); cbn [String.length]; lia.
Qed.

(** The loop of [ParseUint] on the unsigned part of a string that is not
    a number: the syntax error, unless the digits it starts with overflow
    64 bits before the first byte that is no digit. *)
Lemma parseUintLoop_not_digits (body : string) :
  strconv.allDigits body = false ->
  strconv.parseUintLoop 0 body =
  if strconv.maxUint64 <? strconv.digitsValue 0 (strconv.leadingDigits body)
  then (strconv.maxUint64, Some ErrRange)
  else (0, Some ErrSyntax).
Proof.
  intros H. destruct (digits_split body) as [Hs [Hd Hrest]].
  destruct (Hrest H) as [c [r [Hr Hc]]].
  rewrite Hs at 1. rewrite parseUintLoop_digits_then;
    [|assumption | rewrite maxUint64_value; lia].
  rewrite Hr. cbn [strconv.parseUintLoop]. now rewrite Hc.
Qed.

(** [Atoi] on what is not a number: the syntax error and 0, unless the
    digits at the head of its unsigned part overflow 64 bits, where it is
    the range error and the largest or the smallest [int]. *)
Lemma Atoi_not_numeric (s : string) :
  strconv.numeric s = false ->
  strconv.Atoi s =
  if strconv.maxUint64 <? strconv.digitsValue 0 (strconv.leadingDigits (strconv.unsigned s))
  then (if strconv.negative s then GoInt.minInt else GoInt.maxInt,
        Some (NumError "Atoi" s ErrRange))
  else (0, Some (NumError "Atoi" s ErrSyntax)).
Proof.
  unfold strconv.numeric. intros H. rewrite Atoi_ParseInt.
  destruct s as [|c r]; [reflexivity|].
  unfold strconv.ParseInt, strconv.unsigned, strconv.negative in *.
  assert (Hbody : forall body neg,
             negb (String.eqb body "") && strconv.allDigits body = false ->
             (let '(un, err) := strconv.ParseUint body in
              match err with
              | Some ErrSyntax => (0, Some ErrSyntax)
              | _ =>
                  if negb neg && (2 ^ 63 <=? un) then (2 ^ 63 - 1, Some ErrRange)
                  else if neg && (2 ^ 63 <? un) then (- 2 ^ 63, Some ErrRange)
                  else (if neg then - un else un, None)
              end) =
             if strconv.maxUint64 <? strconv.digitsValue 0 (strconv.leadingDigits body)
             then (if neg then GoInt.minInt else GoInt.maxInt, Some ErrRange)
             else (0, Some ErrSyntax)).
  { intros body neg Hb. destruct body as [|c' r']; [reflexivity|].
    cbn [String.eqb negb andb] in Hb. unfold strconv.ParseUint.
    rewrite (parseUintLoop_not_digits _ Hb).
    destruct (strconv.maxUint64 <? _); [|reflexivity].
    destruct neg; reflexivity. }
  destruct (Ascii.eqb_spec c "-") as [->|Hminus].
  - change (Ascii.eqb "-" "+") with false. cbn [orb] in *. cbv iota.
    rewrite (Hbody r true H).
    now destruct (strconv.maxUint64 <? _).
  - destruct (Ascii.eqb_spec c "+") as [->|Hplus]; cbn [orb] in *; cbv iota.
    + rewrite (Hbody r false H). now destruct (strconv.maxUint64 <? _).
    + rewrite (Hbody (String c r) false H). now destruct (strconv.maxUint64 <? _).
Qed.

(** The same for a string of fewer than 20 bytes: nothing can overflow. *)
Lemma Atoi_not_numeric_short (s : string) :
  strconv.numeric s = false ->
  (String.length s < 20)%nat ->
  strconv.Atoi s = (0, Some (NumError "Atoi" s ErrSyntax)).
Proof.
  intros H Hlen. rewrite (Atoi_not_numeric s H).
  destruct (digits_split (strconv.unsigned s)) as [_ [Hd _]].
  pose proof (digitsValue_below _ 0 Hd ltac:(lia)) as Hb.
  pose proof (leadingDigits_length (strconv.unsigned s)) as Hl.
  assert (Hu : (String.length (strconv.unsigned s) <= String.length s)%nat).
  { destruct s as [|c r]; [cbn; lia|]. unfold strconv.unsigned.
    destruct (Ascii.eqb c "-" || Ascii.eqb c "+"); cbn [String.length]; lia. }
  pose proof (pow10_mono (String.length (strconv.leadingDigits (strconv.unsigned s))) 19
                ltac:(lia)) as Hp.
  rewrite maxUint64_value. change (10 ^ Z.of_nat 19) with 10000000000000000000 in Hp.
  destruct (Z.ltb_spec 18446744073709551615
              (strconv.digitsValue 0 (strconv.leadingDigits (strconv.unsigned s))));
    [lia | reflexivity].
Qed.

(** What the loop of [ParseUint] returns fits 64 bits. *)
Lemma parseUintLoop_bounds (s : string) :
  forall n,
    0 <= n <= strconv.maxUint64 ->
    0 <= fst (strconv.parseUintLoop n s) <= strconv.maxUint64.
Proof.
  induction s as [|c s IH]; intros n Hn; [exact Hn|].
  cbn [strconv.parseUintLoop].
  destruct (strconv.isDigit c) eqn:Hc; [|cbn [fst]; rewrite maxUint64_value; lia].
  pose proof (digitVal_digit c Hc) as Hv. cbv zeta.
  destruct (strconv.cutoff <=? n); [cbn [fst]; rewrite maxUint64_value; lia|].
  destruct (Z.ltb_spec strconv.maxUint64 (n * 10 + strconv.digitVal c));
    [cbn [fst]; rewrite maxUint64_value; lia|].
  apply IH. lia.
Qed.

(** What [ParseInt] returns fits an [int]. *)
Lemma ParseInt_inRange (s : string) : GoInt.inRange (fst (strconv.ParseInt s)).
Proof.
  assert (H0 : GoInt.inRange 0) by (unfold GoInt.inRange, GoInt.minInt, GoInt.maxInt; lia).
  unfold strconv.ParseInt. destruct s as [|c r]; [exact H0|].
  set (sb := if Ascii.eqb c "+" then (false, r)
             else if Ascii.eqb c "-" then (true, r) else (false, String c r)).
  destruct sb as [neg body].
  assert (Hb : 0 <= fst (strconv.ParseUint body) <= strconv.maxUint64).
  { unfold strconv.ParseUint. destruct body as [|c' r'];
      [cbn [fst]; rewrite maxUint64_value; lia|].
    apply parseUintLoop_bounds. rewrite maxUint64_value. lia. }
  destruct (strconv.ParseUint body) as [un [[|]|]]; [exact H0 | |];
    cbn [fst] in Hb; cbv zeta;
    unfold GoInt.inRange, GoInt.minInt, GoInt.maxInt;
    destruct neg; cbn [negb andb];
    try (destruct (Z.ltb_spec (2 ^ 63) un); cbn [fst]; lia);
    destruct (Z.leb_spec (2 ^ 63) un); cbn [fst]; lia.
Qed.

Lemma deleteNonDigits_allDigits (s : string) :
  strconv.allDigits (regexp.deleteNonDigits s) = true.
Proof.
  induction s as [|c s IH]; simpl; [reflexivity|].
  destruct (strconv.isDigit c) eqn:E; simpl; [now rewrite E|assumption].
Qed.

End LibFacts.


(* ================================================================= *)
(** ** The field extractors *)

Section Extractors.

Context {C : Collaborators}.

Local Open Scope list_scope.
Local Open Scope string_scope.
Local Open Scope Z_scope.

Lemma len_one {A} (l : list A) :
  (len l =? 1) = true -> exists a, l = [a].
Proof.
  unfold len. intros H. apply Z.eqb_eq in H.
  destruct l as [|a [|b l]]; simpl in H; try lia. now exists a.
Qed.

Lemma len_not_one {A} (l : list A) :
  List.length l <> 1%nat -> (len l =? 1) = false.
Proof. unfold len. intros H. apply Z.eqb_neq. lia. Qed.

Lemma sliceTo_all_but_last (s : string) (c : ascii) :
  sliceTo (s ++ String c "") (strings.len (s ++ String c "") - 1) = Returned s.
Proof.
  unfold sliceTo, strings.len. rewrite LibFacts.length_app. simpl String.length.
  replace (Z.of_nat (String.length s + 1) - 1) with (Z.of_nat (String.length s)) by lia.
  destruct (Z.ltb_spec (Z.of_nat (String.length s)) 0); [lia|].
  destruct (Z.ltb_spec (Z.of_nat (String.length s + 1)) (Z.of_nat (String.length s))); [lia|].
  cbn [orb]. rewrite Nat2Z.id. now rewrite LibFacts.substring_app.
Qed.

(** [getRank] on a row with one rank span whose text is not empty. *)
Lemma getRank_one_span (node span : Node) (s : string) (c : ascii) :
  rankSpans node = [span] ->
  InnerText span = s ++ String c "" ->
  getRank (Some node) = Returned (strconv.Atoi s).
Proof.
  unfold rankSpans. intros Hq Ht. unfold getRank, htmlquery_Find.
  cbn [outcome_bind]. rewrite Hq. cbn -[sliceTo strconv.Atoi].
  rewrite Ht, sliceTo_all_but_last. cbn [outcome_bind].
  now destruct (strconv.Atoi s) as [rank [e|]].
Qed.

Lemma getRank_match_count (node : Node) :
  List.length (rankSpans node) <> 1%nat ->
  getRank (Some node) = Returned (0, Some UnexpectedFormat).
Proof.
  unfold rankSpans. intros H. unfold getRank, htmlquery_Find. cbn [outcome_bind].
  now rewrite (len_not_one _ H).
Qed.

(** An empty rank text: the slice [rankStr[:len(rankStr)-1]] has the
    bound -1. *)
Lemma getRank_empty_text (node span : Node) :
  rankSpans node = [span] ->
  InnerText span = "" ->
  getRank (Some node) = Panicked (SliceBoundsOutOfRange (-1) 0).
Proof.
  unfold rankSpans. intros Hq Ht. unfold getRank, htmlquery_Find.
  cbn [outcome_bind]. rewrite Hq. cbn -[sliceTo strconv.Atoi].
  now rewrite Ht.
Qed.

(** [getPoints] on a cell with one score span. *)
Lemma getPoints_one_span (node span : Node) :
  scoreSpans node = [span] ->
  getPoints (Some node) =
  Returned (strconv.Atoi
              (strings.TrimSpace (strings.ReplaceAll (InnerText span) "points" ""))).
Proof.
  unfold scoreSpans. intros Hq. unfold getPoints, htmlquery_Find.
  cbn [outcome_bind]. rewrite Hq. cbn -[strings.TrimSpace strings.ReplaceAll strconv.Atoi].
  now destruct (strconv.Atoi _) as [points [e|]].
Qed.

(** *** The anchors of [getNumComments] *)

Lemma last_Some_cons {A} (x : A) (l : list A) :
  List.last (map Some (x :: l)) None =
  match List.last (map Some l) None with
  | Some y => Some y
  | None => Some x
  end.
Proof.
  revert x. induction l as [|y l IH]; intros x; [reflexivity|].
  change (List.last (map Some (x :: y :: l)) None)
    with (List.last (map Some (y :: l)) None).
  rewrite (IH y). now destruct (List.last (map Some l) None).
Qed.

Lemma lastComment_cons (t : string) (texts : list string) :
  lastComment (t :: texts) =
  match lastComment texts with
  | Some t' => Some t'
  | None => if saysComment t then Some t else None
  end.
Proof.
  unfold lastComment. cbn [filter]. destruct (saysComment t).
  - apply last_Some_cons.
  - now destruct (List.last (map Some (filter saysComment texts)) None).
Qed.

Lemma lastComment_None (texts : list string) :
  lastComment texts = None <-> existsb saysComment texts = false.
Proof.
  induction texts as [|t texts IH]; [now split|].
  rewrite lastComment_cons. cbn [existsb].
  destruct (saysComment t), (lastComment texts) as [t'|]; cbn [orb]; split;
    intros H; try discriminate H; try reflexivity.
  - apply IH in H. discriminate H.
  - now apply IH.
Qed.

(** The loop of [getNumComments] ends at the first anchor that says
    "discuss"; without one, it leaves the digits of the last anchor that
    says "comment". *)
Lemma commentsLoop_texts (anchors : list Node) (commentsStr : string) :
  commentsLoop anchors commentsStr =
  if existsb saysDiscuss (map InnerText anchors) then inl (0, None)
  else inr match lastComment (map InnerText anchors) with
           | Some t => regexp.deleteNonDigits t
           | None => commentsStr
           end.
Proof.
  revert commentsStr. induction anchors as [|a anchors IH]; intros acc; [reflexivity|].
  cbn [commentsLoop map existsb]. rewrite lastComment_cons.
  unfold saysDiscuss at 1. unfold saysComment at 1.
  destruct (strings.Contains (InnerText a) "discuss"); [reflexivity|].
  cbn [orb].
  destruct (strings.Contains (InnerText a) "comment"); rewrite IH;
    destruct (existsb saysDiscuss (map InnerText anchors)); try reflexivity;
    now destruct (lastComment (map InnerText anchors)).
Qed.

Lemma getNumComments_unfold (node : Node) :
  getNumComments (Some node) =
  if existsb saysDiscuss (anchorTexts node) then Returned (0, None)
  else match lastComment (anchorTexts node) with
       | None => Returned (0, Some UnexpectedFormat)
       | Some t =>
           if String.eqb (regexp.deleteNonDigits t) ""
           then Returned (0, Some UnexpectedFormat)
           else Returned (strconv.Atoi (regexp.deleteNonDigits t))
       end.
Proof.
  unfold getNumComments, htmlquery_Find, anchorTexts. cbn [outcome_bind].
  rewrite commentsLoop_texts.
  destruct (existsb saysDiscuss (map InnerText (Find node "/a]"))); [reflexivity|].
  destruct (lastComment (map InnerText (Find node "/a]"))) as [t|]; [|reflexivity].
  destruct (String.eqb (regexp.deleteNonDigits t) ""); [reflexivity|].
  now destruct (strconv.Atoi (regexp.deleteNonDigits t)) as [num [e|]].
Qed.

(** C1 (as amended).  For every subtext cell: if the text of some anchor
    says "discuss", the comment count is 0 without error; otherwise, if
    some anchor says "comment", the count comes from the LAST such anchor:
    the digits left of its text after every other byte is deleted, read as
    a decimal number, provided a digit is left and the number fits an
    [int] (it is clamped and reported when it does not), and the
    unexpected-format error when no digit is left; and with no anchor
    saying either, the unexpected-format error. *)
Theorem getNumComments_by_anchor_texts (node : Node) :
  (existsb saysDiscuss (anchorTexts node) = true ->
   getNumComments (Some node) = Returned (0, None)) /\
  (existsb saysDiscuss (anchorTexts node) = false ->
   forall t, lastComment (anchorTexts node) = Some t ->
     let digits := regexp.deleteNonDigits t in
     (digits <> "" -> strconv.digitsValue 0 digits <= GoInt.maxInt ->
      getNumComments (Some node) = Returned (strconv.digitsValue 0 digits, None)) /\
     (digits <> "" -> GoInt.maxInt < strconv.digitsValue 0 digits ->
      getNumComments (Some node) =
      Returned (GoInt.maxInt, Some (NumError "Atoi" digits ErrRange))) /\
     (digits = "" ->
      getNumComments (Some node) = Returned (0, Some UnexpectedFormat))) /\
  (existsb saysDiscuss (anchorTexts node) = false ->
   existsb saysComment (anchorTexts node) = false ->
   getNumComments (Some node) = Returned (0, Some UnexpectedFormat)).
Proof.
  rewrite getNumComments_unfold. split; [|split].
  - now intros ->.
  - intros -> t ->. cbn zeta. repeat split.
    + intros Hne Hfit.
      destruct (String.eqb_spec (regexp.deleteNonDigits t) ""); [contradiction|].
      now rewrite LibFacts.Atoi_digits by auto using LibFacts.deleteNonDigits_allDigits.
    + intros Hne Hbig.
      destruct (String.eqb_spec (regexp.deleteNonDigits t) ""); [contradiction|].
      now rewrite LibFacts.Atoi_digits_range
        by auto using LibFacts.deleteNonDigits_allDigits.
    + now intros ->.
  - intros -> Hc. apply lastComment_None in Hc. now rewrite Hc.
Qed.

(** C4 (as amended).  On a title row with exactly one rank-marked span
    whose text is not empty, [getRank] drops the last byte of the text,
    whatever it is, and returns what [Atoi] makes of the rest: the number,
    when the rest is a string of digits that fits an [int]; the largest
    [int] and the range error, when it is a string of digits that does
    not; and, when it is not a number, the syntax error and 0, unless the
    digits before its first byte that is no digit overflow 64 bits, where
    [Atoi] stops there with the range error and the largest [int] (the
    smallest after a minus sign).  A rest of fewer than 20 bytes cannot
    overflow.  With no rank-marked span, or several, it returns the
    unexpected-format error. *)
Theorem getRank_drops_last_byte (node : Node) :
  (List.length (rankSpans node) <> 1%nat ->
   getRank (Some node) = Returned (0, Some UnexpectedFormat)) /\
  (forall span s c,
     rankSpans node = [span] ->
     InnerText span = s ++ String c "" ->
     getRank (Some node) = Returned (strconv.Atoi s) /\
     (s <> "" -> strconv.allDigits s = true ->
      strconv.digitsValue 0 s <= GoInt.maxInt ->
      getRank (Some node) = Returned (strconv.digitsValue 0 s, None)) /\
     (s <> "" -> strconv.allDigits s = true ->
      GoInt.maxInt < strconv.digitsValue 0 s ->
      getRank (Some node) =
      Returned (GoInt.maxInt, Some (NumError "Atoi" s ErrRange))) /\
     (strconv.numeric s = false -> (String.length s < 20)%nat ->
      getRank (Some node) = Returned (0, Some (NumError "Atoi" s ErrSyntax))) /\
     (strconv.numeric s = false ->
      getRank (Some node) =
      Returned
        (if strconv.maxUint64 <?
            strconv.digitsValue 0 (strconv.leadingDigits (strconv.unsigned s))
         then (if strconv.negative s then GoInt.minInt else GoInt.maxInt,
               Some (NumError "Atoi" s ErrRange))
         else (0, Some (NumError "Atoi" s ErrSyntax))))).
Proof.
  split; [apply getRank_match_count|].
  intros span s c Hq Ht. rewrite (getRank_one_span node span s c Hq Ht).
  split; [reflexivity|]. split; [|split; [|split]].
  - intros Hne Hd Hfit. now rewrite LibFacts.Atoi_digits.
  - intros Hne Hd Hbig. now rewrite LibFacts.Atoi_digits_range.
  - intros Hn Hlen. now rewrite LibFacts.Atoi_not_numeric_short.
  - intros Hn. now rewrite LibFacts.Atoi_not_numeric.
Qed.

End Extractors.

(* ================================================================= *)
(** ** The row extractor *)

Section RowExtractor.

Context {C : Collaborators}.

Local Open Scope string_scope.
Local Open Scope list_scope.
Local Open Scope Z_scope.

(** Case analysis on a call that returns a value and an error. *)
Ltac call f :=
  let v := fresh "v" in
  let e := fresh "e" in
  let p := fresh "p" in
  destruct f as [[v [e|]]|p|]; cbn [outcome_bind].

(** A post comes out of [getPost] only when all seven extractors succeed,
    and it is made of what they return. *)
Lemma getPost_success (titleNode subtextNode : ptr) (post : Post) :
  getPost titleNode subtextNode = Returned (post, None) ->
  getTitle titleNode = Returned (Title post, None) /\
  getRank titleNode = Returned (Rank post, None) /\
  getURL titleNode = Returned (URL post, None) /\
  getAuthor subtextNode = Returned (By post, None) /\
  getPoints subtextNode = Returned (Score post, None) /\
  getNumComments subtextNode = Returned (NumComments post, None) /\
  getTimePosted subtextNode = Returned (TimePosted post, None).
Proof.
  unfold getPost.
  call (getTitle titleNode); try discriminate.
  call (getRank titleNode); try discriminate.
  call (getURL titleNode); try discriminate.
  call (getAuthor subtextNode); try discriminate.
  call (getPoints subtextNode); try discriminate.
  call (getNumComments subtextNode); try discriminate.
  call (getTimePosted subtextNode); try discriminate.
  intros H. injection H as <-. cbn. repeat split.
Qed.

(** The extractors are called in the order title, rank, URL, author,
    score, comment count, timestamp; the first error ends the call with the
    zero post, and seven successes make the post. *)
Lemma getPost_first_error (titleNode subtextNode : ptr) :
  (forall v e, getTitle titleNode = Returned (v, Some e) ->
     getPost titleNode subtextNode = Returned (zeroPost, Some e)) /\
  (forall title, getTitle titleNode = Returned (title, None) ->
  (forall v e, getRank titleNode = Returned (v, Some e) ->
     getPost titleNode subtextNode = Returned (zeroPost, Some e)) /\
  (forall rank, getRank titleNode = Returned (rank, None) ->
  (forall v e, getURL titleNode = Returned (v, Some e) ->
     getPost titleNode subtextNode = Returned (zeroPost, Some e)) /\
  (forall url, getURL titleNode = Returned (url, None) ->
  (forall v e, getAuthor subtextNode = Returned (v, Some e) ->
     getPost titleNode subtextNode = Returned (zeroPost, Some e)) /\
  (forall author, getAuthor subtextNode = Returned (author, None) ->
  (forall v e, getPoints subtextNode = Returned (v, Some e) ->
     getPost titleNode subtextNode = Returned (zeroPost, Some e)) /\
  (forall points, getPoints subtextNode = Returned (points, None) ->
  (forall v e, getNumComments subtextNode = Returned (v, Some e) ->
     getPost titleNode subtextNode = Returned (zeroPost, Some e)) /\
  (forall numComments, getNumComments subtextNode = Returned (numComments, None) ->
  (forall v e, getTimePosted subtextNode = Returned (v, Some e) ->
     getPost titleNode subtextNode = Returned (zeroPost, Some e)) /\
  (forall timePosted, getTimePosted subtextNode = Returned (timePosted, None) ->
     getPost titleNode subtextNode =
     Returned ({| Rank := rank; Title := title; Score := points; By := author;
                  URL := url; NumComments := numComments;
                  TimePosted := timePosted |}, None)))))))).
Proof.
  unfold getPost.
  split; [now intros v e -> | intros title ->; cbn [outcome_bind]].
  split; [now intros v e -> | intros rank ->; cbn [outcome_bind]].
  split; [now intros v e -> | intros url ->; cbn [outcome_bind]].
  split; [now intros v e -> | intros author ->; cbn [outcome_bind]].
  split; [now intros v e -> | intros points ->; cbn [outcome_bind]].
  split; [now intros v e -> | intros numComments ->; cbn [outcome_bind]].
  split; [now intros v e -> | now intros timePosted ->].
Qed.

(** *** The loop over the rows *)

Lemma rows_left (n j m : nat) :
  (j + m = n / 3)%nat ->
  (3 * Z.of_nat j <? Z.of_nat n - 2) = match m with O => false | S _ => true end.
Proof.
  intros H.
  pose proof (Nat.div_mod_eq n 3) as Hd.
  pose proof (Nat.mod_upper_bound n 3 ltac:(discriminate)) as Hm.
  destruct m; [apply Z.ltb_ge | apply Z.ltb_lt]; lia.
Qed.

(** The loop of [ScrapePage] extracts the groups of three rows one after
    the other. *)
Lemma rowsLoop_extractGroups (rows : list Node) (m : nat) :
  forall (j fuel : nat) (posts : list Post),
    (m <= fuel)%nat ->
    (j + m = List.length rows / 3)%nat ->
    rowsLoop fuel rows (3 * Z.of_nat j) posts = extractGroups rows (seq j m) posts.
Proof.
  induction m as [|m IH]; intros j fuel posts Hf Hj.
  - destruct fuel; cbn [rowsLoop]; unfold len;
      now rewrite (rows_left _ _ _ Hj).
  - destruct fuel as [|fuel]; [lia|].
    cbn [rowsLoop seq extractGroups]. unfold len at 1.
    rewrite (rows_left _ _ _ Hj). unfold rowGroup.
    destruct (index rows (3 * Z.of_nat j + 1)) as [row1|p|]; cbn [outcome_bind];
      try reflexivity.
    destruct (htmlquery_FindOne (Some row1) "/td[contains(@class, 'subtext')]")
      as [subtext|p|]; cbn [outcome_bind]; try reflexivity.
    destruct (index rows (3 * Z.of_nat j)) as [row0|p|]; cbn [outcome_bind];
      try reflexivity.
    destruct (getPost (Some row0) subtext) as [[post [e|]]|p|]; cbn [outcome_bind];
      try reflexivity.
    replace (3 * Z.of_nat j + 3) with (3 * Z.of_nat (S j)) by lia.
    apply IH; lia.
Qed.

Lemma extractPage_groups (doc : Node) (pageNum : Z) (retrievedTime : Time) :
  extractPage doc pageNum retrievedTime =
  pageOfGroups (listingRows doc) pageNum retrievedTime.
Proof.
  unfold extractPage, pageOfGroups, listingRows, htmlquery_Find.
  cbn [outcome_bind].
  set (rows := Find doc "//table[contains(@class, 'itemlist')]/tbody/tr").
  change 0 with (3 * Z.of_nat 0) at 1.
  rewrite (rowsLoop_extractGroups rows (List.length rows / 3) 0 (List.length rows) []).
  - reflexivity.
  - pose proof (Nat.div_mod_eq (List.length rows) 3). lia.
  - reflexivity.
Qed.

End RowExtractor.

(* ================================================================= *)
(** ** The page fetcher *)

Section PageFetcher.

Context {C : Collaborators}.

Local Open Scope string_scope.
Local Open Scope list_scope.
Local Open Scope Z_scope.

Lemma ScrapePage_invalid (pageNum : Z) (s : state) :
  pageNum < 1 ->
  ScrapePage pageNum s =
  (Returned (zeroPage, Some (errors_New "page number must be a positive integer")), s).
Proof.
  intros H. unfold ScrapePage.
  destruct (Z.ltb_spec pageNum 1); [reflexivity | lia].
Qed.

(** A valid page number: one fetch, one reading of the clock, and then
    the rows of the document, if there is one. *)
Lemma ScrapePage_valid (pageNum : Z) (s : state) :
  1 <= pageNum ->
  ScrapePage pageNum s =
  let '(r, t, s') := afterFetch pageNum s in
  (match r with
   | inr err => Returned (zeroPage, Some err)
   | inl doc => pageOfGroups (listingRows doc) pageNum t
   end, s').
Proof.
  intros H. unfold ScrapePage, afterFetch, pageURL.
  destruct (Z.ltb_spec pageNum 1); [lia|].
  unfold M_bind, htmlquery_LoadURL, time_Now, lift, M_ret.
  destruct (LoadURL (hackernewsURL ++ strconv.Itoa pageNum)%string (world s)) as [r w1].
  cbn [world trace]. destruct (Now w1) as [t w2]. rewrite <- app_assoc. cbn [app].
  destruct r as [doc|err]; [|reflexivity].
  now rewrite extractPage_groups.
Qed.

(** A page comes out of [ScrapePage] only for a valid page number and a
    document that was fetched. *)
Lemma ScrapePage_success (pageNum : Z) (s s' : state) (page : Page) :
  ScrapePage pageNum s = (Returned (page, None), s') ->
  1 <= pageNum /\
  exists doc t,
    afterFetch pageNum s = (inl doc, t, s') /\
    pageOfGroups (listingRows doc) pageNum t = Returned (page, None).
Proof.
  intros H. destruct (Z.lt_ge_cases pageNum 1) as [Hlt|Hge].
  - rewrite (ScrapePage_invalid _ _ Hlt) in H. discriminate H.
  - split; [assumption|]. rewrite (ScrapePage_valid _ _ Hge) in H.
    destruct (afterFetch pageNum s) as [[[doc|err] t] s1].
    + injection H as H1 H2. subst s1. now exists doc, t.
    + discriminate H.
Qed.

Lemma ScrapePage_trace (pageNum : Z) (s s' : state) (o : outcome (Page * option error)) :
  1 <= pageNum ->
  ScrapePage pageNum s = (o, s') ->
  trace s' = trace s ++ [Fetched (pageURL pageNum); ClockRead].
Proof.
  intros Hge H. rewrite (ScrapePage_valid _ _ Hge) in H. unfold afterFetch in H.
  destruct (LoadURL (pageURL pageNum) (world s)) as [r w1].
  destruct (Now w1) as [t w2]. injection H as _ <-. reflexivity.
Qed.

(** *** Groups of rows *)

Lemma extractGroups_success (rows : list Node) (js : list nat) :
  forall posts posts',
    extractGroups rows js posts = Returned (posts', None) ->
    exists ps,
      posts' = posts ++ ps /\
      Forall2 (fun j p => rowGroup rows j = Returned (p, None)) js ps.
Proof.
  induction js as [|j js IH]; intros posts posts' H; cbn [extractGroups] in H.
  - injection H as <-. exists []. split; [now rewrite app_nil_r | constructor].
  - destruct (rowGroup rows j) as [[p [e|]]|q|] eqn:Hg; cbn [outcome_bind] in H;
      try discriminate H.
    destruct (IH _ _ H) as [ps [-> HF]].
    exists (p :: ps). split; [now rewrite <- app_assoc | now constructor].
Qed.

Lemma extractGroups_error_at (rows : list Node) (p : Post) (e : error) (k : nat) :
  forall (j m : nat) (posts : list Post),
    (forall i, (j <= i < j + k)%nat -> exists p', rowGroup rows i = Returned (p', None)) ->
    rowGroup rows (j + k) = Returned (p, Some e) ->
    (k < m)%nat ->
    exists posts', extractGroups rows (seq j m) posts = Returned (posts', Some e).
Proof.
  induction k as [|k IH]; intros j m posts Hok Herr Hm;
    (destruct m as [|m]; [lia|]); cbn [seq extractGroups].
  - rewrite Nat.add_0_r in Herr. rewrite Herr. cbn [outcome_bind]. now exists posts.
  - destruct (Hok j ltac:(lia)) as [p' ->]. cbn [outcome_bind].
    apply IH; [| |lia].
    + intros i Hi. apply Hok. lia.
    + now replace (S j + k)%nat with (j + S k)%nat by lia.
Qed.

Lemma index_app_l {A} (l extra : list A) (i : Z) :
  0 <= i < len l ->
  index (l ++ extra) i = index l i.
Proof.
  intros Hi. unfold index, len in *. rewrite List.length_app.
  destruct (Z.ltb_spec i 0); [lia|].
  destruct (Z.leb_spec (Z.of_nat (List.length l + List.length extra)) i); [lia|].
  destruct (Z.leb_spec (Z.of_nat (List.length l)) i); [lia|].
  cbn [orb]. rewrite nth_error_app1 by lia.
  destruct (nth_error l (Z.to_nat i)) eqn:E; [reflexivity|].
  apply nth_error_None in E. lia.
Qed.

Lemma rowGroup_app_l (whole extra : list Node) (j : nat) :
  (3 * j + 1 < List.length whole)%nat ->
  rowGroup (whole ++ extra) j = rowGroup whole j.
Proof.
  intros H. unfold rowGroup.
  rewrite !index_app_l by (unfold len; lia). reflexivity.
Qed.

Lemma extractGroups_app_l (whole extra : list Node) (js : list nat) :
  forall posts,
    Forall (fun j => (3 * j + 1 < List.length whole)%nat) js ->
    extractGroups (whole ++ extra) js posts = extractGroups whole js posts.
Proof.
  induction js as [|j js IH]; intros posts HF; [reflexivity|].
  inversion HF as [|? ? Hj HF']; subst. cbn [extractGroups].
  rewrite rowGroup_app_l by assumption.
  destruct (rowGroup whole j) as [[p [e|]]|q|]; cbn [outcome_bind]; try reflexivity.
  now apply IH.
Qed.

(** Rows after the last full group of three are not read. *)
Lemma pageOfGroups_app_l (whole extra : list Node) (pageNum : Z) (t : Time) :
  (List.length whole mod 3 = 0)%nat ->
  (List.length extra < 3)%nat ->
  pageOfGroups (whole ++ extra) pageNum t = pageOfGroups whole pageNum t.
Proof.
  intros Hw He. unfold pageOfGroups. rewrite List.length_app.
  pose proof (Nat.div_mod_eq (List.length whole) 3) as Hd.
  assert (Hq : ((List.length whole + List.length extra) / 3 = List.length whole / 3)%nat).
  { symmetry. apply (Nat.div_unique _ 3 _ (List.length extra)); lia. }
  rewrite Hq, extractGroups_app_l; [reflexivity|].
  apply Forall_forall. intros j Hj. apply in_seq in Hj. lia.
Qed.

Lemma Forall2_nth_error {A B} (R : A -> B -> Prop) (l1 : list A) (l2 : list B) :
  Forall2 R l1 l2 ->
  forall i b, nth_error l2 i = Some b ->
    exists a, nth_error l1 i = Some a /\ R a b.
Proof.
  induction 1 as [|a b l1 l2 HR HF IH]; intros i b' Hi.
  - now destruct i.
  - destruct i as [|i]; cbn in *.
    + injection Hi as <-. now exists a.
    + now apply IH.
Qed.

Lemma nth_error_seq_inv (start n i j : nat) :
  nth_error (seq start n) i = Some j -> j = (start + i)%nat.
Proof.
  revert start i. induction n as [|n IH]; intros start i H.
  - now destruct i.
  - destruct i as [|i]; cbn in H.
    + injection H as <-. lia.
    + apply IH in H. lia.
Qed.

Lemma index_Returned {A} (l : list A) (i : Z) (a : A) :
  index l i = Returned a -> nth_error l (Z.to_nat i) = Some a.
Proof.
  unfold index. destruct ((i <? 0) || (len l <=? i)); [discriminate|].
  destruct (nth_error l (Z.to_nat i)); [|discriminate].
  now intros [= ->].
Qed.

(** The rank of a post is the one [getRank] reads in the first row of its
    group. *)
Lemma rowGroup_rank (rows : list Node) (j : nat) (post : Post) :
  rowGroup rows j = Returned (post, None) ->
  exists row,
    nth_error rows (3 * j) = Some row /\
    getRank (Some row) = Returned (Rank post, None).
Proof.
  unfold rowGroup. intros H.
  destruct (index rows (3 * Z.of_nat j + 1)) as [row1|q|]; cbn [outcome_bind] in H;
    try discriminate H.
  destruct (htmlquery_FindOne (Some row1) "/td[contains(@class, 'subtext')]")
    as [subtext|q|]; cbn [outcome_bind] in H; try discriminate H.
  destruct (index rows (3 * Z.of_nat j)) as [row0|q|] eqn:H0; cbn [outcome_bind] in H;
    try discriminate H.
  exists row0. split.
  - apply index_Returned in H0.
    now replace (Z.to_nat (3 * Z.of_nat j)) with (3 * j)%nat in H0 by lia.
  - now apply getPost_success in H.
Qed.

Lemma rankRead_group (rows : list Node) (j : nat) (post : Post) :
  rowGroup rows j = Returned (post, None) ->
  rankRead rows j = Some (Rank post).
Proof.
  intros H. destruct (rowGroup_rank rows j post H) as [row [Hn Hr]].
  unfold rankRead. now rewrite Hn, Hr.
Qed.

Lemma rankRead_groups (rows : list Node) (js : list nat) (ps : list Post) :
  Forall2 (fun j p => rowGroup rows j = Returned (p, None)) js ps ->
  map (rankRead rows) js = map Some (map Rank ps).
Proof.
  induction 1 as [|j p js ps Hj _ IH]; [reflexivity|].
  cbn [map]. now rewrite (rankRead_group rows j p Hj), IH.
Qed.

Lemma map_Some_inj {A} (l1 l2 : list A) : map Some l1 = map Some l2 -> l1 = l2.
Proof.
  revert l2. induction l1 as [|a l1 IH]; intros [|b l2] H; try discriminate H;
    [reflexivity|].
  cbn [map] in H. injection H as -> H. now rewrite (IH l2 H).
Qed.

(** C5.  A page number below 1 makes [ScrapePage] return the
    invalid-input error, and a range with a bound below 1 or with its
    bounds in the wrong order makes [ScrapeMultPages] return one, in both
    cases with no page and in the state the call started in: nothing was
    fetched and the clock was not read. *)
Theorem invalid_input_before_any_fetch (s : state) :
  (forall pageNum, pageNum < 1 ->
     exists e, InvalidInput e /\
       ScrapePage pageNum s = (Returned (zeroPage, Some e), s)) /\
  (forall startPage endPage,
     startPage < 1 \/ endPage < 1 \/ startPage > endPage ->
     exists e, InvalidInput e /\
       ScrapeMultPages startPage endPage s = (Returned ([], Some e), s)).
Proof.
  split.
  - intros pageNum H. eexists. split; [|now apply ScrapePage_invalid].
    now left.
  - intros startPage endPage H. unfold ScrapeMultPages.
    destruct (Z.ltb_spec startPage 1); cbn [orb].
    + eexists. split; [|reflexivity]. right. now left.
    + destruct (Z.ltb_spec endPage 1).
      * eexists. split; [|reflexivity]. right. now left.
      * destruct (Z.gtb_spec startPage endPage); [|lia].
        eexists. split; [|reflexivity]. right. now right.
Qed.

End PageFetcher.

(* ================================================================= *)
(** ** Pages and their rows *)

Section PageProperties.

Context {C : Collaborators}.

Local Open Scope string_scope.
Local Open Scope list_scope.
Local Open Scope Z_scope.

(** C7.  [getPost] calls the seven extractors in the order title, rank,
    URL, author, score, comment count, timestamp; the first error ends it
    with the zero post and that error, and only seven successes make a
    post.  And when the extraction of a group of rows fails after all the
    groups before it succeeded, [ScrapePage] returns that error with the
    zero page: the posts of the earlier groups are not in it. *)
Theorem post_assembly_all_or_nothing :
  (forall titleNode subtextNode : ptr,
     (forall v e, getTitle titleNode = Returned (v, Some e) ->
        getPost titleNode subtextNode = Returned (zeroPost, Some e)) /\
     (forall title, getTitle titleNode = Returned (title, None) ->
     (forall v e, getRank titleNode = Returned (v, Some e) ->
        getPost titleNode subtextNode = Returned (zeroPost, Some e)) /\
     (forall rank, getRank titleNode = Returned (rank, None) ->
     (forall v e, getURL titleNode = Returned (v, Some e) ->
        getPost titleNode subtextNode = Returned (zeroPost, Some e)) /\
     (forall url, getURL titleNode = Returned (url, None) ->
     (forall v e, getAuthor subtextNode = Returned (v, Some e) ->
        getPost titleNode subtextNode = Returned (zeroPost, Some e)) /\
     (forall author, getAuthor subtextNode = Returned (author, None) ->
     (forall v e, getPoints subtextNode = Returned (v, Some e) ->
        getPost titleNode subtextNode = Returned (zeroPost, Some e)) /\
     (forall points, getPoints subtextNode = Returned (points, None) ->
     (forall v e, getNumComments subtextNode = Returned (v, Some e) ->
        getPost titleNode subtextNode = Returned (zeroPost, Some e)) /\
     (forall numComments, getNumComments subtextNode = Returned (numComments, None) ->
     (forall v e, getTimePosted subtextNode = Returned (v, Some e) ->
        getPost titleNode subtextNode = Returned (zeroPost, Some e)) /\
     (forall timePosted, getTimePosted subtextNode = Returned (timePosted, None) ->
        getPost titleNode subtextNode =
        Returned ({| Rank := rank; Title := title; Score := points; By := author;
                     URL := url; NumComments := numComments;
                     TimePosted := timePosted |}, None))))))))) /\
  (forall pageNum s doc t s' (k : nat) p e,
     1 <= pageNum ->
     afterFetch pageNum s = (inl doc, t, s') ->
     (k < List.length (listingRows doc) / 3)%nat ->
     (forall j, (j < k)%nat ->
        exists p', rowGroup (listingRows doc) j = Returned (p', None)) ->
     rowGroup (listingRows doc) k = Returned (p, Some e) ->
     ScrapePage pageNum s = (Returned (zeroPage, Some e), s')).
Proof.
  split; [exact getPost_first_error|].
  intros pageNum s doc t s' k p e Hge Hf Hk Hok Herr.
  rewrite (ScrapePage_valid _ _ Hge), Hf. unfold pageOfGroups.
  destruct (extractGroups_error_at (listingRows doc) p e k 0
              (List.length (listingRows doc) / 3) []) as [posts' ->];
    [intros i Hi; apply Hok; lia | assumption | assumption |].
  reflexivity.
Qed.

(** C8 (as amended).  A page that [ScrapePage] returns without error has
    one post for every full group of three rows, in the order of the rows,
    and the rank of its [j]-th post is the number [getRank] reads in the
    first row of the [j]-th group.  So the ranks of the posts, in order,
    are the numbers [getRank] reads in the title rows, in order, and they
    are strictly increasing exactly when these numbers are: nothing in
    the code compares them. *)
Theorem ScrapePage_ranks_follow_rows (pageNum : Z) (s s' : state) (page : Page) :
  ScrapePage pageNum s = (Returned (page, None), s') ->
  exists doc t,
    afterFetch pageNum s = (inl doc, t, s') /\
    List.length (Posts page) = (List.length (listingRows doc) / 3)%nat /\
    (forall (j : nat) (post : Post),
       nth_error (Posts page) j = Some post ->
       exists row,
         nth_error (listingRows doc) (3 * j) = Some row /\
         getRank (Some row) = Returned (Rank post, None)) /\
    ranksRead (listingRows doc) = map Some (map Rank (Posts page)) /\
    (forall ranks,
       ranksRead (listingRows doc) = map Some ranks ->
       map Rank (Posts page) = ranks /\
       (strictlyIncreasing (map Rank (Posts page)) <-> strictlyIncreasing ranks)).
Proof.
  intros H. apply ScrapePage_success in H. destruct H as [_ [doc [t [Hf Hp]]]].
  exists doc, t. split; [assumption|]. unfold pageOfGroups in Hp.
  destruct (extractGroups (listingRows doc)
              (seq 0 (List.length (listingRows doc) / 3)) [])
    as [[posts [e|]]|q|] eqn:Hg; cbn [outcome_bind] in Hp; try discriminate Hp.
  injection Hp as <-. cbn [Posts].
  apply extractGroups_success in Hg. destruct Hg as [ps [-> HF]]. cbn [app].
  assert (Hread : ranksRead (listingRows doc) = map Some (map Rank ps))
    by (now apply rankRead_groups).
  split; [|split; [|split]].
  - apply Forall2_length in HF. now rewrite length_seq in HF.
  - intros j post Hj.
    destruct (Forall2_nth_error _ _ _ HF j post Hj) as [j' [Hj' Hr]].
    apply nth_error_seq_inv in Hj'. cbn in Hj'. subst j'.
    now apply rowGroup_rank.
  - exact Hread.
  - intros ranks Hranks. rewrite Hread in Hranks.
    apply map_Some_inj in Hranks. subst ranks. split; [reflexivity|]. tauto.
Qed.

(** C10.  When the document is fetched and has [n] listing rows,
    [ScrapePage] extracts the groups that start at the rows 0, 3, 6, ...
    below [n - 2], that is [n / 3] groups; with fewer than three rows,
    among them no listing table at all, it returns a page without posts
    and no error; and up to two rows after the last full group are not
    read: the result is that of the full groups alone. *)
Theorem ScrapePage_reads_full_groups (pageNum : Z) (s s' : state) (doc : Node) (t : Time) :
  1 <= pageNum ->
  afterFetch pageNum s = (inl doc, t, s') ->
  ScrapePage pageNum s = (pageOfGroups (listingRows doc) pageNum t, s') /\
  ((List.length (listingRows doc) < 3)%nat ->
   ScrapePage pageNum s = (Returned (mkPage [] pageNum t, None), s')) /\
  (forall whole extra,
     listingRows doc = whole ++ extra ->
     (List.length whole mod 3 = 0)%nat ->
     (List.length extra < 3)%nat ->
     ScrapePage pageNum s = (pageOfGroups whole pageNum t, s')).
Proof.
  intros Hge Hf. rewrite (ScrapePage_valid _ _ Hge), Hf.
  split; [reflexivity|]. split.
  - intros Hn. unfold pageOfGroups.
    now rewrite (Nat.div_small _ 3 Hn).
  - intros whole extra -> Hw He. now rewrite pageOfGroups_app_l.
Qed.

End PageProperties.

(* ================================================================= *)
(** ** The multi-page fetcher *)

Section MultiPage.

Context {C : Collaborators}.

Local Open Scope string_scope.
Local Open Scope list_scope.
Local Open Scope Z_scope.

Lemma wrap_small (z : Z) : GoInt.inRange z -> GoInt.wrap z = z.
Proof.
  unfold GoInt.inRange, GoInt.minInt, GoInt.maxInt, GoInt.wrap. intros H.
  rewrite Z.mod_small; lia.
Qed.

Lemma wrap_past_max : GoInt.wrap (GoInt.maxInt + 1) = GoInt.minInt.
Proof. reflexivity. Qed.

Lemma pageNumbers_S (i : Z) (n : nat) :
  pageNumbers i (S n) = i :: pageNumbers (i + 1) n.
Proof.
  unfold pageNumbers. cbn [seq map]. rewrite <- seq_shift, map_map.
  f_equal; [lia|]. apply map_ext. intros k. lia.
Qed.

Lemma pageNumbers_snoc (i : Z) (n : nat) :
  pageNumbers i (S n) = pageNumbers i n ++ [i + Z.of_nat n].
Proof. unfold pageNumbers. now rewrite seq_S, map_app. Qed.

Lemma visits_app (l1 l2 : list Z) : visits (l1 ++ l2) = visits l1 ++ visits l2.
Proof. unfold visits. apply flat_map_app. Qed.

(** Pages scraped in a row carry their numbers, and each cost one fetch
    and one reading of the clock. *)
Lemma scraped_facts (i : Z) (n : nat) (s s' : state) (pages : list Page) :
  scraped i n s pages s' ->
  List.length pages = n /\
  map Num pages = pageNumbers i n /\
  trace s' = trace s ++ visits (pageNumbers i n).
Proof.
  induction 1 as [i s | i n s s1 s2 page pages H Hrest [IH1 [IH2 IH3]]].
  - repeat split. cbn. now rewrite app_nil_r.
  - pose proof (ScrapePage_trace _ _ _ _ (proj1 (ScrapePage_success _ _ _ _ H)) H) as Ht.
    apply ScrapePage_success in H. destruct H as [Hge [doc [t [_ Hp]]]].
    rewrite pageNumbers_S. cbn [List.length map visits flat_map].
    repeat split.
    + now rewrite IH1.
    + rewrite IH2. f_equal. unfold pageOfGroups in Hp.
      destruct (extractGroups (listingRows doc)
                  (seq 0 (List.length (listingRows doc) / 3)) [])
        as [[posts [e|]]|q|]; cbn [outcome_bind] in Hp; try discriminate Hp.
      now injection Hp as <-.
    + rewrite IH3, Ht. now rewrite <- app_assoc.
Qed.

Lemma pagesLoop_step (fuel : nat) (i endPage : Z) (pages : list Page) (s : state) :
  i <= endPage ->
  pagesLoop (S fuel) i endPage pages s =
  match ScrapePage i s with
  | (Returned (page, None), s1) =>
      pagesLoop fuel (GoInt.incr i) endPage (pages ++ [page]) s1
  | (Returned (_, Some e), s1) => (Returned (pages, Some e), s1)
  | (Panicked p, s1) => (Panicked p, s1)
  | (OutOfFuel, s1) => (OutOfFuel, s1)
  end.
Proof.
  intros H. cbn [pagesLoop]. destruct (Z.leb_spec i endPage); [|lia].
  unfold M_bind. destruct (ScrapePage i s) as [[[page [e|]]|p|] s1]; reflexivity.
Qed.

Lemma pagesLoop_done (fuel : nat) (i endPage : Z) (pages : list Page) (s : state) :
  endPage < i ->
  pagesLoop fuel i endPage pages s = (Returned (pages, None), s).
Proof.
  intros H. destruct fuel; cbn [pagesLoop];
    (destruct (Z.leb_spec i endPage); [lia | reflexivity]).
Qed.

(** The loop of [ScrapeMultPages] over pages that are scraped without
    error. *)
Lemma pagesLoop_scraped (i : Z) (n : nat) (s s' : state) (pages : list Page) :
  scraped i n s pages s' ->
  forall (endPage : Z) (acc : list Page) (fuel : nat),
    n <> 0%nat ->
    i + Z.of_nat n <= endPage + 1 ->
    endPage <= GoInt.maxInt ->
    pagesLoop (n + fuel) i endPage acc s =
    pagesLoop fuel (GoInt.wrap (i + Z.of_nat n)) endPage (acc ++ pages) s'.
Proof.
  induction 1 as [i s | i n s s1 s2 page pages H Hrest IH];
    intros endPage acc fuel Hn Hi He; [congruence|].
  pose proof (proj1 (ScrapePage_success _ _ _ _ H)) as Hge.
  cbn [Nat.add]. rewrite pagesLoop_step by lia. rewrite H.
  destruct n as [|n].
  - inversion Hrest; subst. reflexivity.
  - unfold GoInt.incr. rewrite wrap_small
      by (unfold GoInt.inRange, GoInt.minInt in *; lia).
    rewrite (IH endPage (acc ++ [page]) fuel) by lia.
    rewrite <- app_assoc. cbn [app]. do 2 f_equal. lia.
Qed.

(** C6.  In a valid range, when the pages [startPage .. k - 1] are scraped
    without error and the scraping of page [k] returns an error,
    [ScrapeMultPages] returns the pages [startPage .. k - 1], in this
    order, together with that very error, and it has fetched the pages
    [startPage .. k] and no other. *)
Theorem ScrapeMultPages_stops_at_first_error
    (startPage endPage k : Z) (s s1 s2 : state)
    (pages : list Page) (page : Page) (e : error) :
  1 <= startPage -> startPage <= k -> k <= endPage -> endPage <= GoInt.maxInt ->
  scraped startPage (Z.to_nat (k - startPage)) s pages s1 ->
  ScrapePage k s1 = (Returned (page, Some e), s2) ->
  ScrapeMultPages startPage endPage s = (Returned (pages, Some e), s2) /\
  map Num pages = pageNumbers startPage (Z.to_nat (k - startPage)) /\
  trace s2 =
    trace s ++ visits (pageNumbers startPage (Z.to_nat (k - startPage)) ++ [k]).
Proof.
  intros H1 H2 H3 H4 Hs Hk.
  destruct (scraped_facts _ _ _ _ _ Hs) as [_ [Hnum Htr]].
  split; [|split; [assumption|]].
  - unfold ScrapeMultPages.
    destruct (Z.ltb_spec startPage 1); [lia|].
    destruct (Z.ltb_spec endPage 1); [lia|]. cbn [orb].
    destruct (Z.gtb_spec startPage endPage); [lia|].
    replace (Z.to_nat (endPage - startPage) + 2)%nat
      with (Z.to_nat (k - startPage) + S (S (Z.to_nat (endPage - k))))%nat by lia.
    destruct (Z.to_nat (k - startPage)) as [|n] eqn:En.
    + assert (k = startPage) by lia. subst k.
      inversion Hs; subst. cbn [Nat.add]. rewrite pagesLoop_step by lia. now rewrite Hk.
    + rewrite (pagesLoop_scraped _ _ _ _ _ Hs) by lia.
      replace (startPage + Z.of_nat (S n)) with k by lia.
      rewrite wrap_small by (unfold GoInt.inRange, GoInt.minInt; lia).
      rewrite pagesLoop_step by lia. now rewrite Hk.
  - rewrite (ScrapePage_trace k _ _ _ ltac:(lia) Hk), Htr, visits_app.
    now rewrite <- app_assoc.
Qed.

(** C9.  In a valid range whose pages are all scraped without error,
    [ScrapeMultPages] returns these pages: [endPage - startPage + 1] of
    them, numbered [startPage], [startPage + 1], ..., [endPage] in this
    order, fetched one at a time in this order, and no error (but for
    [endPage] the largest [int], where the page counter wraps around and
    the invalid-input error comes with the pages).  And the page that
    [ScrapePage] returns without error carries the number it was asked
    for. *)
Theorem ScrapeMultPages_pages_in_order
    (startPage endPage : Z) (s s1 : state) (pages : list Page) :
  1 <= startPage -> startPage <= endPage -> endPage <= GoInt.maxInt ->
  scraped startPage (Z.to_nat (endPage - startPage + 1)) s pages s1 ->
  ScrapeMultPages startPage endPage s =
    (Returned (pages,
               if endPage =? GoInt.maxInt
               then Some (errors_New "page number must be a positive integer")
               else None), s1) /\
  len pages = endPage - startPage + 1 /\
  map Num pages = pageNumbers startPage (Z.to_nat (endPage - startPage + 1)) /\
  trace s1 =
    trace s ++ visits (pageNumbers startPage (Z.to_nat (endPage - startPage + 1))) /\
  (forall pageNum s s' page,
     ScrapePage pageNum s = (Returned (page, None), s') -> Num page = pageNum).
Proof.
  intros H1 H2 H3 Hs.
  destruct (scraped_facts _ _ _ _ _ Hs) as [Hlen [Hnum Htr]].
  split; [|split; [unfold len; lia|split; [assumption|split; [assumption|]]]].
  - unfold ScrapeMultPages.
    destruct (Z.ltb_spec startPage 1); [lia|].
    destruct (Z.ltb_spec endPage 1); [lia|]. cbn [orb].
    destruct (Z.gtb_spec startPage endPage); [lia|].
    replace (Z.to_nat (endPage - startPage) + 2)%nat
      with (Z.to_nat (endPage - startPage + 1) + 1)%nat by lia.
    rewrite (pagesLoop_scraped _ _ _ _ _ Hs) by lia.
    replace (startPage + Z.of_nat (Z.to_nat (endPage - startPage + 1)))
      with (endPage + 1) by lia.
    cbn [app]. destruct (Z.eqb_spec endPage GoInt.maxInt) as [->|Hne].
    + rewrite wrap_past_max, pagesLoop_step by (unfold GoInt.minInt, GoInt.maxInt; lia).
      now rewrite ScrapePage_invalid by (unfold GoInt.minInt; lia).
    + rewrite wrap_small by (unfold GoInt.inRange, GoInt.minInt; lia).
      apply pagesLoop_done. lia.
  - intros pageNum s0 s' page H. apply ScrapePage_success in H.
    destruct H as [_ [doc [t [_ Hp]]]]. unfold pageOfGroups in Hp.
    destruct (extractGroups (listingRows doc)
                (seq 0 (List.length (listingRows doc) / 3)) [])
      as [[posts [e|]]|q|]; cbn [outcome_bind] in Hp; try discriminate Hp.
    now injection Hp as <-.
Qed.

End MultiPage.

(* ================================================================= *)
(** ** The loop bounds of the model suffice *)

Section Termination.

Context {C : Collaborators}.

Local Open Scope string_scope.
Local Open Scope list_scope.
Local Open Scope Z_scope.

Lemma finished_bind {A B} (c : outcome A) (k : A -> outcome B) :
  finished c -> (forall a, finished (k a)) -> finished (outcome_bind c k).
Proof.
  unfold finished. intros Hc Hk.
  destruct c as [a|p|]; cbn; [apply Hk | discriminate | now elim Hc].
Qed.

Lemma finished_Find (top : ptr) (expr : string) : finished (htmlquery_Find top expr).
Proof. destruct top; discriminate. Qed.

Lemma finished_index {A} (l : list A) (i : Z) : finished (index l i).
Proof.
  unfold index. destruct ((i <? 0) || (len l <=? i)); [discriminate|].
  destruct (nth_error l (Z.to_nat i)); discriminate.
Qed.

Lemma finished_sliceTo (s : string) (high : Z) : finished (sliceTo s high).
Proof. unfold sliceTo. destruct ((high <? 0) || (strings.len s <? high)); discriminate. Qed.

Ltac finish :=
  repeat first
    [ apply finished_Find | apply finished_index | apply finished_sliceTo
    | discriminate
    | apply finished_bind; [|intros ?]
    | match goal with
      | |- finished (if ?b then _ else _) => destruct b
      | |- finished (match ?x with (_, _) => _ end) => destruct x
      | |- finished (match ?x with Some _ => _ | None => _ end) => destruct x
      | |- finished (match ?x with inl _ => _ | inr _ => _ end) => destruct x
      | |- finished (let '(_, _) := ?x in _) => destruct x
      end ].

Lemma finished_getTitle (node : ptr) : finished (getTitle node).
Proof. unfold getTitle. finish. Qed.

Lemma finished_getRank (node : ptr) : finished (getRank node).
Proof. unfold getRank. finish. Qed.

Lemma finished_getURL (node : ptr) : finished (getURL node).
Proof. unfold getURL. finish. Qed.

Lemma finished_getAuthor (node : ptr) : finished (getAuthor node).
Proof. unfold getAuthor. finish. Qed.

Lemma finished_getPoints (node : ptr) : finished (getPoints node).
Proof. unfold getPoints. finish. Qed.

Lemma finished_getNumComments (node : ptr) : finished (getNumComments node).
Proof. unfold getNumComments. finish. Qed.

Lemma finished_getTimePosted (node : ptr) : finished (getTimePosted node).
Proof. unfold getTimePosted. finish. Qed.

Lemma finished_getPost (titleNode subtextNode : ptr) :
  finished (getPost titleNode subtextNode).
Proof.
  unfold getPost.
  apply finished_bind; [apply finished_getTitle | intros [? [?|]]; [discriminate|]].
  apply finished_bind; [apply finished_getRank | intros [? [?|]]; [discriminate|]].
  apply finished_bind; [apply finished_getURL | intros [? [?|]]; [discriminate|]].
  apply finished_bind; [apply finished_getAuthor | intros [? [?|]]; [discriminate|]].
  apply finished_bind; [apply finished_getPoints | intros [? [?|]]; [discriminate|]].
  apply finished_bind; [apply finished_getNumComments | intros [? [?|]]; [discriminate|]].
  apply finished_bind; [apply finished_getTimePosted | intros [? [?|]]; discriminate].
Qed.

Lemma finished_extractGroups (rows : list Node) (js : list nat) :
  forall posts, finished (extractGroups rows js posts).
Proof.
  induction js as [|j js IH]; intros posts; cbn [extractGroups]; [discriminate|].
  apply finished_bind.
  - unfold rowGroup.
    apply finished_bind; [apply finished_index | intros row1].
    apply finished_bind; [unfold htmlquery_FindOne; finish | intros subtext].
    apply finished_bind; [apply finished_index | intros row0].
    apply finished_getPost.
  - intros [post [e|]]; [discriminate | apply IH].
Qed.

Lemma finished_ScrapePage (pageNum : Z) (s : state) :
  finished (fst (ScrapePage pageNum s)).
Proof.
  destruct (Z.lt_ge_cases pageNum 1) as [Hlt|Hge].
  - rewrite ScrapePage_invalid by assumption. discriminate.
  - rewrite ScrapePage_valid by assumption.
    destruct (afterFetch pageNum s) as [[[doc|err] t] s']; cbn [fst]; [|discriminate].
    unfold pageOfGroups. apply finished_bind; [apply finished_extractGroups|].
    intros [posts [e|]]; discriminate.
Qed.

Lemma finished_pagesLoop (endPage : Z) (fuel : nat) :
  forall (i : Z) (pages : list Page) (s : state),
    endPage <= GoInt.maxInt ->
    (i < 1 -> (1 <= fuel)%nat) ->
    (1 <= i -> endPage - i + 2 <= Z.of_nat fuel) ->
    finished (fst (pagesLoop fuel i endPage pages s)).
Proof.
  induction fuel as [|fuel IH]; intros i pages s He Hlow Hhigh.
  - rewrite pagesLoop_done by lia. discriminate.
  - destruct (Z.lt_ge_cases endPage i) as [Hgt|Hle].
    + rewrite pagesLoop_done by lia. discriminate.
    + rewrite pagesLoop_step by lia.
      pose proof (finished_ScrapePage i s) as Hf.
      destruct (ScrapePage i s) as [[[page [e|]]|p|] s1] eqn:Hs; cbn [fst] in *;
        try discriminate; [|now elim Hf].
      apply ScrapePage_success in Hs. destruct Hs as [Hge _].
      unfold GoInt.incr.
      destruct (Z.eq_dec i GoInt.maxInt) as [->|Hne].
      * rewrite wrap_past_max. apply IH; unfold GoInt.minInt; lia.
      * rewrite wrap_small by (unfold GoInt.inRange, GoInt.minInt; lia).
        apply IH; lia.
Qed.

(** X20.  Neither loop ever stops for want of fuel: each call of the two
    public operations returns or panics, also for a range that ends at the
    largest [int], where the page counter wraps around. *)
Theorem public_operations_finish (s : state) :
  (forall pageNum, finished (fst (ScrapePage pageNum s))) /\
  (forall startPage endPage,
     GoInt.inRange startPage -> GoInt.inRange endPage ->
     finished (fst (ScrapeMultPages startPage endPage s))).
Proof.
  split; [intros; apply finished_ScrapePage|].
  intros startPage endPage [_ Hs] [_ He]. unfold ScrapeMultPages.
  destruct ((startPage <? 1) || (endPage <? 1)) eqn:E1; [discriminate|].
  destruct (startPage >? endPage) eqn:E2; [discriminate|].
  apply orb_false_elim in E1. destruct E1 as [E1 E3].
  apply Z.ltb_ge in E1, E3.
  apply finished_pagesLoop; lia.
Qed.

End Termination.

(* ================================================================= *)
(** ** The properties on the sample documents *)

Section Samples.

Import Sample.

Local Open Scope string_scope.
Local Open Scope list_scope.
Local Open Scope Z_scope.

Local Abbreviation DC := Doc.collaborators.

(** The comment counts of the specification's examples. *)
Lemma getNumComments_by_anchor_texts_witness :
  getNumComments (ptrTo (cell "7 points" "discuss")) = Returned (0, None) /\
  getNumComments (ptrTo (cell "7 points" "42 comments")) = Returned (42, None) /\
  getNumComments (ptrTo (cell "7 points" "1 comment")) = Returned (1, None) /\
  getNumComments (ptrTo (cellOfLinks ["hide"; "past"])) =
    Returned (0, Some UnexpectedFormat) /\
  getNumComments (ptrTo (cellOfLinks ["comments"])) =
    Returned (0, Some UnexpectedFormat).
Proof.
  split; [|split; [|split; [|split]]].
  - apply (proj1 (getNumComments_by_anchor_texts (C := DC) (cell "7 points" "discuss"))).
    reflexivity.
  - apply (proj1 (proj2 (getNumComments_by_anchor_texts (C := DC)
                           (cell "7 points" "42 comments")))
             eq_refl "42 comments" eq_refl).
    + discriminate.
    + vm_compute. discriminate.
  - apply (proj1 (proj2 (getNumComments_by_anchor_texts (C := DC)
                           (cell "7 points" "1 comment")))
             eq_refl "1 comment" eq_refl).
    + discriminate.
    + vm_compute. discriminate.
  - apply (proj2 (proj2 (getNumComments_by_anchor_texts (C := DC)
                           (cellOfLinks ["hide"; "past"]))));
      reflexivity.
  - apply (proj1 (proj2 (getNumComments_by_anchor_texts (C := DC)
                           (cellOfLinks ["comments"])))
             eq_refl "comments" eq_refl).
    reflexivity.
Defined.

(** C1 as stated fails: with the links "3 comments" and "add comment",
    none saying "discuss", the claim promises the number read in a link
    that says "comment"; the last link has no digit and the call returns
    the unexpected-format error. *)
Lemma getNumComments_comment_link_without_number :
  let node := cellOfLinks ["3 comments"; "add comment"] in
  existsb saysDiscuss (anchorTexts (C := DC) node) = false /\
  In "3 comments" (anchorTexts (C := DC) node) /\
  saysComment "3 comments" = true /\
  getNumComments (ptrTo node) = Returned (0, Some UnexpectedFormat) /\
  ~ (exists t,
       In t (anchorTexts (C := DC) node) /\ saysComment t = true /\
       getNumComments (ptrTo node) =
       Returned (strconv.digitsValue 0 (regexp.deleteNonDigits t), None)).
Proof.
  cbn zeta. split; [reflexivity|]. split; [now left|].
  split; [reflexivity|]. split; [reflexivity|].
  intros [t [_ [_ H]]]. discriminate H.
Qed.

(** C2: the score "1234 points" is read as 1234, but "1 point" is not
    read as 1: only "points" is taken out of the text, and [Atoi] rejects
    what is left of the singular. *)
Theorem getPoints_singular_point_rejected :
  getPoints (ptrTo (cell "1234 points" "discuss")) = Returned (1234, None) /\
  getPoints (ptrTo (cell "1 point" "discuss")) =
    Returned (0, Some (NumError "Atoi" "1 point" ErrSyntax)).
Proof. split; reflexivity. Qed.

(** C3: a rank span without text makes [getRank] panic, and the panic
    goes up through [getPost], [ScrapePage] and [ScrapeMultPages]; none of
    them returns an error value. *)
Theorem empty_rank_text_panics :
  getRank (ptrTo (row "")) = Panicked (SliceBoundsOutOfRange (-1) 0) /\
  getPost (ptrTo (row "")) (ptrTo (cell "12 points" "3 comments")) =
    Panicked (SliceBoundsOutOfRange (-1) 0) /\
  fst (ScrapePage 1 (initial emptyRank)) = Panicked (SliceBoundsOutOfRange (-1) 0) /\
  fst (ScrapeMultPages 1 1 (initial emptyRank)) =
    Panicked (SliceBoundsOutOfRange (-1) 0).
Proof. repeat split; reflexivity. Qed.

(** The rank of the specification's example: "7." is 7.  A rest that is
    no number gives the syntax error, and the range error when its digits
    overflow before the byte that is no digit. *)
Lemma getRank_drops_last_byte_witness :
  getRank (ptrTo (row "7.")) = Returned (7, None) /\
  getRank (ptrTo (row "x.")) = Returned (0, Some (NumError "Atoi" "x" ErrSyntax)) /\
  getRank (ptrTo (row "99999999999999999999x.")) =
    Returned (GoInt.maxInt,
              Some (NumError "Atoi" "99999999999999999999x" ErrRange)) /\
  getRank (ptrTo (row "99999999999999999999.")) =
    Returned (GoInt.maxInt,
              Some (NumError "Atoi" "99999999999999999999" ErrRange)) /\
  getRank (ptrTo (Doc.Element "tr" [] [])) = Returned (0, Some UnexpectedFormat).
Proof.
  split; [|split; [|split; [|split]]].
  - apply (proj1 (proj2 (proj2 (getRank_drops_last_byte (C := DC) (row "7."))
                           (Doc.span "rank" "7.") "7" "."%char eq_refl eq_refl))).
    + discriminate.
    + reflexivity.
    + vm_compute. discriminate.
  - apply (proj1 (proj2 (proj2 (proj2
             (proj2 (getRank_drops_last_byte (C := DC) (row "x."))
                (Doc.span "rank" "x.") "x" "."%char eq_refl eq_refl))))).
    + reflexivity.
    + cbn. lia.
  - apply (proj2 (proj2 (proj2 (proj2
             (proj2 (getRank_drops_last_byte (C := DC) (row "99999999999999999999x."))
                (Doc.span "rank" "99999999999999999999x.")
                "99999999999999999999x" "."%char eq_refl eq_refl))))).
    reflexivity.
  - apply (proj1 (proj2 (proj2
             (proj2 (getRank_drops_last_byte (C := DC) (row "99999999999999999999."))
                (Doc.span "rank" "99999999999999999999.")
                "99999999999999999999" "."%char eq_refl eq_refl)))).
    + discriminate.
    + reflexivity.
    + vm_compute. reflexivity.
  - apply (proj1 (getRank_drops_last_byte (C := DC) (Doc.Element "tr" [] []))).
    vm_compute. discriminate.
Defined.

(** C4 as stated fails: the rank text "42" has no period at its end, and
    the call returns 4 without error. *)
Lemma getRank_without_period_misread :
  Doc.innerText (Doc.span "rank" "42") = "42" /\
  rankSpans (C := DC) (row "42") = [Doc.span "rank" "42"] /\
  getRank (ptrTo (row "42")) = Returned (4, None) /\
  ~ (forall rank,
       getRank (ptrTo (row "42")) = Returned (rank, None) ->
       exists digits, "42" = (digits ++ ".")%string /\
                     strconv.Atoi digits = (rank, None)).
Proof.
  split; [reflexivity|]. split; [reflexivity|]. split; [reflexivity|].
  intros H. destruct (H 4 eq_refl) as [digits [Hd _]].
  destruct digits as [|a [|b [|c digits]]]; discriminate Hd.
Qed.

(** The invalid calls of the repository's tests, and an inverted range. *)
Lemma invalid_input_before_any_fetch_witness :
  (exists e, InvalidInput e /\
     ScrapePage 0 (initial threePages) =
     (Returned (zeroPage, Some e), initial threePages)) /\
  (exists e, InvalidInput e /\
     ScrapeMultPages (-1) 2 (initial threePages) =
     (Returned ([], Some e), initial threePages)) /\
  (exists e, InvalidInput e /\
     ScrapeMultPages 3 1 (initial threePages) =
     (Returned ([], Some e), initial threePages)).
Proof.
  split; [|split].
  - apply (proj1 (invalid_input_before_any_fetch (C := DC) (initial threePages)) 0).
    lia.
  - apply (proj2 (invalid_input_before_any_fetch (C := DC) (initial threePages)) (-1) 2).
    left. lia.
  - apply (proj2 (invalid_input_before_any_fetch (C := DC) (initial threePages)) 3 1).
    right. right. lia.
Defined.

(** The second of three pages is missing: the first page comes back with
    the error of the fetch, and the third page is not asked for. *)
Lemma ScrapeMultPages_stops_at_first_error_witness :
  exists pages s2,
    ScrapeMultPages 1 3 (initial onePage) =
      (Returned (pages, Some (ExternalError "Not Found")), s2) /\
    map Num pages = pageNumbers 1 (Z.to_nat (2 - 1)) /\
    trace s2 =
      trace (initial onePage) ++ visits (pageNumbers 1 (Z.to_nat (2 - 1)) ++ [2]).
Proof.
  eexists. eexists.
  eapply (ScrapeMultPages_stops_at_first_error (C := DC) 1 3 2 (initial onePage));
    [lia | lia | lia | vm_compute; discriminate | | ].
  - eapply scraped_next; [reflexivity | apply scraped_none].
  - reflexivity.
Defined.

(** A rank that is not a number ends [getPost] with the zero post, and a
    second post whose score cannot be read ends [ScrapePage] with the zero
    page, the first post lost. *)
Lemma post_assembly_all_or_nothing_witness :
  getPost (ptrTo (row "x.")) (ptrTo (cell "12 points" "discuss")) =
    Returned (zeroPost, Some (NumError "Atoi" "x" ErrSyntax)) /\
  exists s',
    ScrapePage 1 (initial brokenSecond) =
    (Returned (zeroPage, Some (NumError "Atoi" "a lot" ErrSyntax)), s').
Proof.
  split.
  - apply (proj1 (proj2 (proj1 (post_assembly_all_or_nothing (C := DC))
                           (ptrTo (row "x.")) (ptrTo (cell "12 points" "discuss")))
                   "Show HN: a scraper" eq_refl) 0).
    reflexivity.
  - eexists.
    eapply (proj2 (post_assembly_all_or_nothing (C := DC)) 1 (initial brokenSecond)
              _ _ _ 1%nat).
    + lia.
    + reflexivity.
    + vm_compute. lia.
    + intros j Hj. destruct j as [|j]; [|lia]. eexists. reflexivity.
    + reflexivity.
Defined.

(** C8 as stated fails: a page whose rows carry the ranks 5 and 3 is
    scraped without error, and the ranks of its posts are 5 and 3. *)
Lemma ScrapePage_ranks_not_increasing :
  exists page s',
    ScrapePage 1 (initial unordered) = (Returned (page, None), s') /\
    map Rank (Posts page) = [5; 3] /\
    ~ strictlyIncreasing (map Rank (Posts page)).
Proof.
  eexists. eexists. split; [reflexivity|]. split; [reflexivity|].
  vm_compute. intros [H _]. discriminate H.
Qed.

(** The ranks of that page are the numbers read in its title rows, 5
    and 3, in this order. *)
Lemma ScrapePage_ranks_follow_rows_witness :
  exists page s',
    ScrapePage 1 (initial unordered) = (Returned (page, None), s') /\
    exists doc t,
      afterFetch 1 (initial unordered) = (inl doc, t, s') /\
      List.length (Posts page) = (List.length (listingRows doc) / 3)%nat /\
      (forall (j : nat) (post : Post),
         nth_error (Posts page) j = Some post ->
         exists row,
           nth_error (listingRows doc) (3 * j) = Some row /\
           getRank (Some row) = Returned (Rank post, None)) /\
      ranksRead (listingRows doc) = map Some (map Rank (Posts page)) /\
      (forall ranks,
         ranksRead (listingRows doc) = map Some ranks ->
         map Rank (Posts page) = ranks /\
         (strictlyIncreasing (map Rank (Posts page)) <-> strictlyIncreasing ranks)).
Proof.
  eexists. eexists. split; [reflexivity|].
  apply (ScrapePage_ranks_follow_rows (C := DC) 1 (initial unordered)).
  reflexivity.
Defined.

(** The ranks are what [getRank] reads, not what the page shows: the
    rank texts "30" and "5." give the ranks 3 and 5. *)
Lemma ScrapePage_ranks_of_misread_texts :
  exists page s',
    ScrapePage 1 (initial MoreSample.misread) = (Returned (page, None), s') /\
    map Rank (Posts page) = [3; 5] /\
    strictlyIncreasing (map Rank (Posts page)).
Proof.
  eexists. eexists. split; [reflexivity|]. split; [reflexivity|].
  vm_compute. split; [reflexivity | exact I].
Qed.

(** The successful call of the repository's tests: three pages. *)
Lemma ScrapeMultPages_pages_in_order_witness :
  exists pages s1,
    ScrapeMultPages 1 3 (initial threePages) = (Returned (pages, None), s1) /\
    len pages = 3 /\
    map Num pages = [1; 2; 3] /\
    trace s1 =
      [ Fetched "https://news.ycombinator.com/news?p=1"; ClockRead;
        Fetched "https://news.ycombinator.com/news?p=2"; ClockRead;
        Fetched "https://news.ycombinator.com/news?p=3"; ClockRead ].
Proof.
  assert (Hs : exists pages s1,
             scraped 1 (Z.to_nat (3 - 1 + 1)) (initial threePages) pages s1).
  { eexists. eexists.
    eapply scraped_next; [reflexivity|].
    eapply scraped_next; [reflexivity|].
    eapply scraped_next; [reflexivity|]. apply scraped_none. }
  destruct Hs as [pages [s1 Hs]].
  destruct (ScrapeMultPages_pages_in_order (C := DC) 1 3 (initial threePages) s1 pages)
    as [H1 [H2 [H3 [H4 _]]]]; [lia | lia | vm_compute; discriminate | exact Hs |].
  exists pages, s1.
  split; [exact H1|]. split; [exact H2|]. split; [exact H3 | exact H4].
Defined.

(** A page without listing table, and a page whose last post has no
    spacer row. *)
Lemma ScrapePage_reads_full_groups_witness :
  (exists t s',
     ScrapePage 1 (initial noTable) = (Returned (mkPage (C := DC) [] 1 t, None), s')) /\
  (exists t s',
     ScrapePage 1 (initial noSpacer) = (pageOfGroups (C := DC) (post "1.") 1 t, s')).
Proof.
  split.
  - eexists. eexists.
    eapply (fun doc t s' H =>
              proj1 (proj2 (ScrapePage_reads_full_groups (C := DC)
                              1 (initial noTable) s' doc t ltac:(lia) H))).
    + reflexivity.
    + vm_compute. lia.
  - eexists. eexists.
    eapply (fun doc t s' H =>
              proj2 (proj2 (ScrapePage_reads_full_groups (C := DC)
                              1 (initial noSpacer) s' doc t ltac:(lia) H))
                (post "1.")
                [row "2."; Doc.subtextRow (cell "7 points" "discuss")]).
    + reflexivity.
    + reflexivity.
    + reflexivity.
    + vm_compute. lia.
Defined.

(** What the page without spacer row gives: its first post alone. *)
Example noSpacer_first_post_only :
  exists s',
    ScrapePage 1 (initial noSpacer) =
    (Returned
       (mkPage (C := DC)
          [ mkPost (C := DC) 1 "Show HN: a scraper" 12 "pg" "https://example.com/"
              3 63758145600 ]
          1 1000, None), s').
Proof. eexists. reflexivity. Qed.

End Samples.

(* ================================================================= *)
(** ** Printed integers *)

Module DecimalFacts.

Import Decimal.

Local Open Scope string_scope.
Local Open Scope Z_scope.

Lemma allDigits_uint (d : uint) :
  strconv.allDigits (NilEmpty.string_of_uint d) = true.
Proof. induction d; cbn; auto. Qed.

Lemma uint_nonempty (d : uint) :
  d <> Nil -> NilEmpty.string_of_uint d <> "".
Proof. destruct d; cbn; congruence. Qed.

Lemma digitsValue_of_uint_acc (d : uint) :
  forall acc : positive,
    strconv.digitsValue (Z.pos acc) (NilEmpty.string_of_uint d) =
    Z.pos (Pos.of_uint_acc d acc).
Proof.
  induction d as [|d IH|d IH|d IH|d IH|d IH|d IH|d IH|d IH|d IH|d IH];
    intros acc; [reflexivity|..];
    cbn [NilEmpty.string_of_uint strconv.digitsValue Pos.of_uint_acc];
    rewrite <- IH; f_equal;
    match goal with
    | |- context [strconv.digitVal ?c] =>
        let v := eval vm_compute in (strconv.digitVal c) in
        change (strconv.digitVal c) with v
    end; lia.
Qed.

Lemma digitsValue_of_uint (d : uint) :
  strconv.digitsValue 0 (NilEmpty.string_of_uint d) = Z.of_N (Pos.of_uint d).
Proof.
  induction d as [|d IH|d IH|d IH|d IH|d IH|d IH|d IH|d IH|d IH|d IH];
    [reflexivity | exact IH | ..];
    cbn [NilEmpty.string_of_uint strconv.digitsValue Pos.of_uint Z.of_N];
    rewrite <- digitsValue_of_uint_acc; reflexivity.
Qed.

Lemma Itoa_pos (p : positive) :
  strconv.Itoa (Z.pos p) = NilEmpty.string_of_uint (Pos.to_uint p).
Proof.
  unfold strconv.Itoa. cbn [Z.to_int NilZero.string_of_int].
  pose proof (DecimalPos.Unsigned.to_uint_nonnil p) as H.
  unfold NilZero.string_of_uint. now destruct (Pos.to_uint p).
Qed.

Lemma Itoa_neg (p : positive) :
  strconv.Itoa (Z.neg p) = String "-" (NilEmpty.string_of_uint (Pos.to_uint p)).
Proof.
  unfold strconv.Itoa. cbn [Z.to_int NilZero.string_of_int].
  pose proof (DecimalPos.Unsigned.to_uint_nonnil p) as H.
  unfold NilZero.string_of_uint. now destruct (Pos.to_uint p).
Qed.

Lemma digitsValue_to_uint (p : positive) :
  strconv.digitsValue 0 (NilEmpty.string_of_uint (Pos.to_uint p)) = Z.pos p.
Proof. now rewrite digitsValue_of_uint, DecimalPos.Unsigned.of_to. Qed.

(** [Atoi] reads back what [Itoa] prints. *)
Lemma Atoi_Itoa (n : Z) :
  GoInt.inRange n -> strconv.Atoi (strconv.Itoa n) = (n, None).
Proof.
  intros [Hlo Hhi]. destruct n as [|p|p].
  - reflexivity.
  - rewrite Itoa_pos.
    rewrite LibFacts.Atoi_digits; rewrite ?digitsValue_to_uint;
      auto using allDigits_uint, uint_nonempty, DecimalPos.Unsigned.to_uint_nonnil.
  - rewrite Itoa_neg.
    rewrite LibFacts.Atoi_minus_digits; rewrite ?digitsValue_to_uint;
      auto using allDigits_uint, uint_nonempty, DecimalPos.Unsigned.to_uint_nonnil.
    unfold GoInt.minInt in Hlo. lia.
Qed.

Lemma allChars_digits (s : string) :
  strconv.allDigits s = true -> allChars signedDigit s = true.
Proof.
  induction s as [|c s IH]; [reflexivity|]. intros H.
  change (strconv.isDigit c && strconv.allDigits s = true) in H.
  change (signedDigit c && allChars signedDigit s = true).
  apply andb_true_iff in H. destruct H as [Hc Hs].
  apply andb_true_iff. split; [|now apply IH].
  unfold signedDigit. now rewrite Hc.
Qed.

(** A printed integer is not empty and is made of digits and the minus
    sign. *)
Lemma Itoa_chars (n : Z) :
  strconv.Itoa n <> "" /\ allChars signedDigit (strconv.Itoa n) = true.
Proof.
  destruct n as [|p|p].
  - split; [discriminate | reflexivity].
  - rewrite Itoa_pos. split.
    + apply uint_nonempty, DecimalPos.Unsigned.to_uint_nonnil.
    + apply allChars_digits, allDigits_uint.
  - rewrite Itoa_neg. split; [discriminate|].
    cbn [allChars]. rewrite allChars_digits by apply allDigits_uint. reflexivity.
Qed.

(** A non-negative integer is printed with digits only. *)
Lemma Itoa_digits (n : Z) :
  0 <= n -> strconv.allDigits (strconv.Itoa n) = true.
Proof.
  destruct n as [|p|p]; [reflexivity | | lia].
  intros _. rewrite Itoa_pos. apply allDigits_uint.
Qed.

Lemma int_of_Itoa (n : Z) :
  NilZero.int_of_string (strconv.Itoa n) = Some (Z.to_int n).
Proof.
  unfold strconv.Itoa. apply NilZero.isi; destruct n as [|p|p]; cbn [Z.to_int];
    try discriminate; intros [= H];
    now apply (DecimalPos.Unsigned.to_uint_nonnil p).
Qed.

Lemma Itoa_inj (n m : Z) : strconv.Itoa n = strconv.Itoa m -> n = m.
Proof.
  intros H. apply DecimalZ.to_int_inj.
  apply (f_equal NilZero.int_of_string) in H.
  rewrite !int_of_Itoa in H. now injection H.
Qed.

End DecimalFacts.

(* ================================================================= *)
(** ** Trimming and replacing around a printed integer *)

Module StringFacts.

Local Open Scope string_scope.
Local Open Scope Z_scope.

Lemma app_empty_r (s : string) : s ++ "" = s.
Proof. induction s as [|c s IH]; cbn; [reflexivity | now rewrite IH]. Qed.

Lemma app_assoc (s t u : string) : (s ++ t) ++ u = s ++ (t ++ u).
Proof. induction s as [|c s IH]; cbn; [reflexivity | now rewrite IH]. Qed.

Lemma rev_app (s t : string) : strings.rev (s ++ t) = strings.rev t ++ strings.rev s.
Proof.
  induction s as [|c s IH]; cbn.
  - now rewrite app_empty_r.
  - now rewrite IH, app_assoc.
Qed.

Lemma rev_involutive (s : string) : strings.rev (strings.rev s) = s.
Proof.
  induction s as [|c s IH]; cbn; [reflexivity|].
  now rewrite rev_app, IH.
Qed.

Lemma allChars_app (f : ascii -> bool) (s t : string) :
  allChars f (s ++ t) = allChars f s && allChars f t.
Proof.
  induction s as [|c s IH]; cbn; [reflexivity|].
  now rewrite IH, andb_assoc.
Qed.

Lemma allChars_rev (f : ascii -> bool) (s : string) :
  allChars f (strings.rev s) = allChars f s.
Proof.
  induction s as [|c s IH]; cbn; [reflexivity|].
  rewrite allChars_app, IH. cbn. now rewrite andb_true_r, andb_comm.
Qed.

Lemma rev_nonempty (s : string) : s <> "" -> strings.rev s <> "".
Proof.
  intros H E. apply H. rewrite <- (rev_involutive s), E. reflexivity.
Qed.

Lemma prefix_head (a c : ascii) (w r : string) :
  Ascii.eqb a c = false -> String.prefix (String a w) (String c r) = false.
Proof.
  intros H. cbn [String.prefix].
  destruct (ascii_dec a c) as [->|]; [|reflexivity].
  now rewrite Ascii.eqb_refl in H.
Qed.

(** No white space at the head of a string whose first character starts
    none of the table's entries. *)
Lemma leading_None (ws : list string) (c : ascii) (r : string) :
  startsSome ws c = false -> strings.leading ws (String c r) = None.
Proof.
  unfold strings.leading, startsSome.
  induction ws as [|w ws IH]; cbn [existsb find]; [reflexivity|].
  intros H. apply orb_false_iff in H. destruct H as [Hw Hws].
  destruct w as [|a w]; [discriminate Hw|].
  unfold strings.HasPrefix at 1. rewrite (prefix_head a c w r Hw). now apply IH.
Qed.

Lemma trimLeading_None (ws : list string) (fuel : nat) (c : ascii) (r : string) :
  startsSome ws c = false ->
  strings.trimLeading ws fuel (String c r) = String c r.
Proof.
  intros H. destruct fuel; cbn [strings.trimLeading]; [reflexivity|].
  now rewrite leading_None.
Qed.

(** A digit or a minus sign is no byte at either end of a white space. *)
Lemma signedDigit_no_space (c : ascii) :
  signedDigit c = true ->
  startsSome strings.whiteSpace c = false /\
  startsSome (map strings.rev strings.whiteSpace) c = false.
Proof.
  destruct c as [[] [] [] [] [] [] [] []]; intros H;
    try discriminate H; split; reflexivity.
Qed.

Lemma signedDigit_not_p (c : ascii) :
  signedDigit c = true -> Ascii.eqb "p" c = false.
Proof.
  intros H. destruct (Ascii.eqb_spec "p"%char c) as [<-|]; [discriminate H | reflexivity].
Qed.

(** A printed integer followed by one blank is trimmed to itself. *)
Lemma TrimSpace_blank_after (s : string) :
  s <> "" -> allChars signedDigit s = true ->
  strings.TrimSpace (s ++ " ") = s.
Proof.
  intros Hne Hs. unfold strings.TrimSpace.
  assert (Hl : strings.TrimLeft (s ++ " ") = s ++ " ").
  { destruct s as [|c r]; [congruence|]. unfold strings.TrimLeft.
    cbn [append]. apply trimLeading_None.
    cbn [allChars] in Hs. apply andb_true_iff in Hs.
    now apply signedDigit_no_space. }
  rewrite Hl. unfold strings.TrimRight. rewrite rev_app.
  change (strings.rev " ") with " ". cbn [append].
  destruct s as [|c r] eqn:E; [congruence|]. rewrite <- E in *.
  replace (String.length (s ++ " ")) with (S (S (String.length r)))
    by (subst s; cbn [append String.length]; rewrite LibFacts.length_app;
        cbn [String.length]; lia).
  pose proof (rev_nonempty s Hne) as Hr.
  pose proof (allChars_rev signedDigit s) as Ha. rewrite Hs in Ha.
  destruct (strings.rev s) as [|c' r'] eqn:Er; [congruence|].
  cbn [allChars] in Ha. apply andb_true_iff in Ha.
  cbn [strings.trimLeading].
  change (strings.leading (map strings.rev strings.whiteSpace)
            (String " " (String c' r'))) with (Some 1%nat).
  cbn [strings.drop].
  rewrite leading_None by now apply signedDigit_no_space.
  now rewrite <- Er, rev_involutive.
Qed.

(** The word "points" after a printed integer and a blank is taken out. *)
Lemma ReplaceAll_points_after (s : string) :
  allChars signedDigit s = true ->
  strings.ReplaceAll (s ++ " points") "points" "" = s ++ " ".
Proof.
  unfold strings.ReplaceAll. induction s as [|c s IH]; [reflexivity|].
  cbn [allChars]. intros H. apply andb_true_iff in H. destruct H as [Hc Hs].
  cbn [append strings.replaceFrom]. unfold strings.HasPrefix at 1.
  rewrite (prefix_head "p" c "oints" (s ++ " points") (signedDigit_not_p c Hc)).
  now rewrite IH.
Qed.

(** Digits at the head of a text do not change whether it contains a word
    that starts with another character. *)
Lemma Contains_after_digits (d tail word : string) (a : ascii) :
  strconv.allDigits d = true ->
  strconv.isDigit a = false ->
  strings.Contains (d ++ tail) (String a word) = strings.Contains tail (String a word).
Proof.
  intros Hd Ha. induction d as [|c d IH]; [reflexivity|].
  cbn [strconv.allDigits] in Hd. apply andb_true_iff in Hd. destruct Hd as [Hc Hd].
  cbn [append strings.Contains]. unfold strings.HasPrefix at 1.
  rewrite prefix_head, IH by
    (assumption || (destruct (Ascii.eqb_spec a c) as [->|]; [congruence | reflexivity])).
  reflexivity.
Qed.

Lemma deleteNonDigits_digits (d tail : string) :
  strconv.allDigits d = true ->
  regexp.deleteNonDigits (d ++ tail) = d ++ regexp.deleteNonDigits tail.
Proof.
  induction d as [|c d IH]; [reflexivity|].
  cbn [strconv.allDigits append regexp.deleteNonDigits]. intros H.
  apply andb_true_iff in H. destruct H as [-> Hd]. now rewrite IH.
Qed.

End StringFacts.

(* ================================================================= *)
(** ** More on the field extractors *)

Section ExtractorsMore.

Context {C : Collaborators}.

Local Open Scope list_scope.
Local Open Scope string_scope.
Local Open Scope Z_scope.

Lemma len_one_iff {A} (l : list A) :
  (len l =? 1) = true <-> exists a, l = [a].
Proof.
  split; [apply len_one|]. intros [a ->]. reflexivity.
Qed.

Lemma not_single {A} (l : list A) :
  List.length l <> 1%nat <-> ~ exists a, l = [a].
Proof.
  split.
  - intros H [a ->]. now apply H.
  - intros H E. apply H. destruct l as [|a [|b l]]; try discriminate E. now exists a.
Qed.

Lemma exactly_one_cases {A B} (l : list A) (f : A -> B) (zero v : B)
    (err : option error) :
  (if negb (len l =? 1) then Returned (zero, Some (errors_New errorMsg))
   else q0 <- index l 0 ;; Returned (f q0, None)) = Returned (v, err) <->
  (exists a, l = [a] /\ v = f a /\ err = None) \/
  (List.length l <> 1%nat /\ v = zero /\ err = Some UnexpectedFormat).
Proof.
  destruct (len l =? 1) eqn:E; cbn [negb].
  - apply len_one in E. destruct E as [a ->]. cbn. split.
    + intros [= <- <-]. left. now exists a.
    + intros [[a' [Ha [-> ->]]]|[Hlen _]]; [now injection Ha as <- | now elim Hlen].
  - split.
    + intros [= <- <-]. right. split; [|now split].
      intros Hlen. unfold len in E. rewrite Hlen in E. discriminate E.
    + intros [[a [-> _]]|[_ [-> ->]]]; [discriminate E | reflexivity].
Qed.

(** X1.  On a title row, [getTitle] returns without error exactly when
    the row has one anchor under its cells, and the title is then the
    visible text of this anchor; in every other case it returns the empty
    title with the unexpected-format error, and no other error ever.
    [getURL] does the same with the [href] attribute of the anchors styled
    as title links. *)
Theorem getTitle_getURL_exactly_one (node : Node) :
  (forall title err,
     getTitle (Some node) = Returned (title, err) <->
     (exists a, titleAnchors node = [a] /\ title = InnerText a /\ err = None) \/
     (List.length (titleAnchors node) <> 1%nat /\ title = "" /\
      err = Some UnexpectedFormat)) /\
  (forall url err,
     getURL (Some node) = Returned (url, err) <->
     (exists a, linkAnchors node = [a] /\ url = SelectAttr a "href" /\ err = None) \/
     (List.length (linkAnchors node) <> 1%nat /\ url = "" /\
      err = Some UnexpectedFormat)).
Proof.
  split.
  - intros title err. unfold titleAnchors, getTitle, htmlquery_Find.
    cbn [outcome_bind]. apply exactly_one_cases.
  - intros url err. unfold linkAnchors, getURL, htmlquery_Find.
    cbn [outcome_bind].
    apply (exactly_one_cases _ (fun a => SelectAttr a "href")).
Qed.

(** X2.  [getAuthor] never returns an error: with exactly one user link
    the author is its visible text, and with none, or with several, the
    author is empty. *)
Theorem getAuthor_never_fails (node : Node) :
  (forall a, userAnchors node = [a] ->
     getAuthor (Some node) = Returned (InnerText a, None)) /\
  (List.length (userAnchors node) <> 1%nat ->
     getAuthor (Some node) = Returned ("", None)) /\
  (exists author, getAuthor (Some node) = Returned (author, None)).
Proof.
  unfold userAnchors, getAuthor, htmlquery_Find. cbn [outcome_bind].
  split; [now intros a ->|]. split.
  - intros H. now rewrite (len_not_one _ H).
  - destruct (len (Find node "/a[contains(@class, 'hnuser')]") =? 1) eqn:E.
    + apply len_one in E. destruct E as [a ->]. now eexists.
    + now eexists.
Qed.

Lemma sliceTo_nonempty (s : string) :
  s <> "" -> returns (sliceTo s (strings.len s - 1)).
Proof.
  intros H. unfold sliceTo, strings.len. destruct s as [|c r]; [congruence|].
  cbn [String.length].
  destruct (Z.ltb_spec (Z.of_nat (S (String.length r)) - 1) 0); [lia|].
  destruct (Z.ltb_spec (Z.of_nat (S (String.length r)))
              (Z.of_nat (S (String.length r)) - 1)); [lia|].
  now eexists.
Qed.

Lemma getRank_returns (node : Node) :
  (forall span, rankSpans node = [span] -> InnerText span <> "") ->
  returns (getRank (Some node)).
Proof.
  intros H. unfold getRank, htmlquery_Find. cbn [outcome_bind].
  fold (rankSpans node).
  destruct (len (rankSpans node) =? 1) eqn:E; cbn [negb]; [|now eexists].
  apply len_one in E. destruct E as [span E]. rewrite E.
  cbn -[sliceTo strconv.Atoi].
  destruct (sliceTo_nonempty _ (H span E)) as [digits ->]. cbn [outcome_bind].
  destruct (strconv.Atoi digits) as [rank [e|]]; now eexists.
Qed.

(** X3.  On a title row, [getRank] panics in one case only: the row has
    exactly one rank span and its visible text is empty; the panic is the
    slice bound -1.  In every other case it returns. *)
Theorem getRank_panics_only_on_empty_text (node : Node) :
  (forall p, getRank (Some node) = Panicked p <->
     p = SliceBoundsOutOfRange (-1) 0 /\
     exists span, rankSpans node = [span] /\ InnerText span = "") /\
  ((forall span, rankSpans node = [span] -> InnerText span <> "") ->
   returns (getRank (Some node))).
Proof.
  split; [|apply getRank_returns]. intros p. split.
  - intros Hp.
    assert (Hex : exists span, rankSpans node = [span] /\ InnerText span = "").
    { destruct (len (rankSpans node) =? 1) eqn:E.
      - apply len_one in E. destruct E as [span E]. exists span. split; [assumption|].
        destruct (InnerText span) as [|c r] eqn:Et; [reflexivity|].
        exfalso. destruct (getRank_returns node) as [a Ha].
        + intros span' E'. rewrite E in E'. injection E' as <-. now rewrite Et.
        + rewrite Ha in Hp. discriminate Hp.
      - exfalso. unfold getRank, htmlquery_Find in Hp. cbn [outcome_bind] in Hp.
        fold (rankSpans node) in Hp. rewrite E in Hp. discriminate Hp. }
    split; [|assumption]. destruct Hex as [span [E Et]].
    rewrite (getRank_empty_text node span E Et) in Hp. now injection Hp as <-.
  - intros [-> [span [E Et]]]. now apply (getRank_empty_text node span).
Qed.

(** X4.  [getRank] reads back every integer the site can print: when the
    text of the one rank span is the decimal form of an [int] followed by
    one more byte, whatever it is, the rank is this integer, negative ones
    included. *)
Theorem getRank_reads_printed_int (node span : Node) (n : Z) (c : ascii) :
  rankSpans node = [span] ->
  InnerText span = strconv.Itoa n ++ String c "" ->
  GoInt.inRange n ->
  getRank (Some node) = Returned (n, None).
Proof.
  intros Hq Ht Hn. rewrite (getRank_one_span node span _ c Hq Ht).
  now rewrite DecimalFacts.Atoi_Itoa.
Qed.

(** X5.  [getPoints] reads back every plural score: when the text of the
    one score span is the decimal form of an [int] followed by " points",
    the score is this integer. *)
Theorem getPoints_reads_printed_plural (node span : Node) (n : Z) :
  scoreSpans node = [span] ->
  InnerText span = strconv.Itoa n ++ " points" ->
  GoInt.inRange n ->
  getPoints (Some node) = Returned (n, None).
Proof.
  intros Hq Ht Hn. rewrite (getPoints_one_span node span Hq), Ht.
  destruct (DecimalFacts.Itoa_chars n) as [Hne Hc].
  rewrite StringFacts.ReplaceAll_points_after by assumption.
  rewrite StringFacts.TrimSpace_blank_after by assumption.
  now rewrite DecimalFacts.Atoi_Itoa.
Qed.

Lemma lastComment_snoc (texts : list string) (t : string) :
  saysComment t = true -> lastComment (texts ++ [t])%list = Some t.
Proof.
  intros H. induction texts as [|x texts IH].
  - unfold lastComment. cbn. now rewrite H.
  - cbn [app]. now rewrite lastComment_cons, IH.
Qed.

(** X6.  [getNumComments] reads back every count the site can print:
    when no link says "discuss" and the last link is the decimal form of
    an [int] from 0 on, followed by text that says "comment" and holds no
    digit, the count is this integer. *)
Theorem getNumComments_reads_printed_count
    (node : Node) (others : list string) (n : Z) (tail : string) :
  anchorTexts node = (others ++ [(strconv.Itoa n ++ tail)%string])%list ->
  existsb saysDiscuss others = false ->
  saysDiscuss tail = false ->
  saysComment tail = true ->
  regexp.deleteNonDigits tail = "" ->
  0 <= n <= GoInt.maxInt ->
  getNumComments (Some node) = Returned (n, None).
Proof.
  intros Ha Ho Hd Hc Hdel Hn.
  pose proof (DecimalFacts.Itoa_digits n (proj1 Hn)) as Hdig.
  assert (Hs : forall word a, strconv.isDigit a = false ->
             strings.Contains (strconv.Itoa n ++ tail) (String a word) =
             strings.Contains tail (String a word))
    by (intros; now apply StringFacts.Contains_after_digits).
  rewrite getNumComments_unfold, Ha, existsb_app. cbn [existsb].
  unfold saysDiscuss at 2. rewrite Hs by reflexivity. fold (saysDiscuss tail).
  rewrite Ho, Hd. cbn [orb].
  rewrite lastComment_snoc
    by (unfold saysComment; rewrite Hs by reflexivity; exact Hc).
  rewrite StringFacts.deleteNonDigits_digits, Hdel, StringFacts.app_empty_r
    by assumption.
  destruct (String.eqb_spec (strconv.Itoa n) "") as [E|_].
  - now destruct (DecimalFacts.Itoa_chars n).
  - rewrite DecimalFacts.Atoi_Itoa; [reflexivity|].
    unfold GoInt.inRange, GoInt.minInt. lia.
Qed.

End ExtractorsMore.

(* ================================================================= *)
(** ** The numbers of a post *)

Section Numbers.

Context {C : Collaborators}.

Local Open Scope list_scope.
Local Open Scope string_scope.
Local Open Scope Z_scope.

Lemma digitVal_bounds (c : ascii) :
  strconv.isDigit c = true -> 0 <= strconv.digitVal c <= 9.
Proof.
  unfold strconv.isDigit, strconv.digitVal. intros H.
  apply andb_true_iff in H. destruct H as [H1 H2].
  apply Nat.leb_le in H1, H2. lia.
Qed.

Lemma digitsValue_nonneg (s : string) :
  forall acc, strconv.allDigits s = true -> 0 <= acc ->
    0 <= strconv.digitsValue acc s.
Proof.
  induction s as [|c s IH]; intros acc Hd Ha; [assumption|].
  cbn [strconv.allDigits] in Hd. apply andb_true_iff in Hd. destruct Hd as [Hc Hd].
  cbn [strconv.digitsValue]. apply IH; [assumption|].
  pose proof (digitVal_bounds c Hc). lia.
Qed.

(** What [Atoi] returns fits an [int], error or not. *)
Lemma Atoi_inRange (s : string) : GoInt.inRange (fst (strconv.Atoi s)).
Proof. rewrite LibFacts.Atoi_ParseInt. apply LibFacts.ParseInt_inRange. Qed.

(** Of a string of digits [Atoi] makes no negative number. *)
Lemma Atoi_digits_nonneg (s : string) :
  strconv.allDigits s = true -> 0 <= fst (strconv.Atoi s).
Proof.
  intros Hd. destruct s as [|c r]; [cbn; lia|].
  pose proof (digitsValue_nonneg (String c r) 0 Hd ltac:(lia)) as Hv.
  destruct (Z.le_gt_cases (strconv.digitsValue 0 (String c r)) GoInt.maxInt) as [Hfit|Hbig].
  - rewrite LibFacts.Atoi_digits by (assumption || discriminate). assumption.
  - rewrite LibFacts.Atoi_digits_range by (assumption || discriminate).
    cbn [fst]. unfold GoInt.maxInt. lia.
Qed.

Lemma getRank_inRange (node : ptr) (n : Z) (e : option error) :
  getRank node = Returned (n, e) -> GoInt.inRange n.
Proof.
  assert (H0 : GoInt.inRange 0) by (unfold GoInt.inRange, GoInt.minInt, GoInt.maxInt; lia).
  unfold getRank. destruct node as [node|]; [|discriminate]. cbn [htmlquery_Find outcome_bind].
  destruct (negb (len (Find node "/td/span[contains(@class, 'rank')]") =? 1));
    [now intros [= <- _]|].
  destruct (index _ 0) as [q0|p|]; cbn [outcome_bind]; try discriminate.
  destruct (sliceTo _ _) as [digits|p|]; cbn [outcome_bind]; try discriminate.
  pose proof (Atoi_inRange digits) as Hr.
  destruct (strconv.Atoi digits) as [rank [e'|]]; now intros [= <- _].
Qed.

Lemma getPoints_inRange (node : ptr) (n : Z) (e : option error) :
  getPoints node = Returned (n, e) -> GoInt.inRange n.
Proof.
  assert (H0 : GoInt.inRange 0) by (unfold GoInt.inRange, GoInt.minInt, GoInt.maxInt; lia).
  unfold getPoints. destruct node as [node|]; [|discriminate]. cbn [htmlquery_Find outcome_bind].
  destruct (negb (len (Find node "/span[contains(@class, 'score')]") =? 1));
    [now intros [= <- _]|].
  destruct (index _ 0) as [q0|p|]; cbn [outcome_bind]; try discriminate.
  cbv zeta.
  pose proof (Atoi_inRange
                (strings.TrimSpace (strings.ReplaceAll (InnerText q0) "points" ""))) as Hr.
  destruct (strconv.Atoi _) as [points [e'|]]; now intros [= <- _].
Qed.

Lemma getNumComments_bounds (node : ptr) (n : Z) (e : option error) :
  getNumComments node = Returned (n, e) -> 0 <= n <= GoInt.maxInt.
Proof.
  assert (H0 : 0 <= 0 <= GoInt.maxInt) by (unfold GoInt.maxInt; lia).
  destruct node as [node|]; [|discriminate]. rewrite getNumComments_unfold.
  destruct (existsb saysDiscuss (anchorTexts node)); [now intros [= <- _]|].
  destruct (lastComment (anchorTexts node)) as [t|]; [|now intros [= <- _]].
  destruct (String.eqb (regexp.deleteNonDigits t) ""); [now intros [= <- _]|].
  pose proof (Atoi_inRange (regexp.deleteNonDigits t)) as [_ Hhi].
  pose proof (Atoi_digits_nonneg _ (LibFacts.deleteNonDigits_allDigits t)) as Hlo.
  destruct (strconv.Atoi (regexp.deleteNonDigits t)) as [num e'].
  now intros [= <- _].
Qed.

Lemma rowGroup_getPost (rows : list Node) (j : nat) (post : Post) :
  rowGroup rows j = Returned (post, None) ->
  exists titleNode subtextNode, getPost titleNode subtextNode = Returned (post, None).
Proof.
  unfold rowGroup. intros H.
  destruct (index rows (3 * Z.of_nat j + 1)) as [row1|q|]; cbn [outcome_bind] in H;
    try discriminate H.
  destruct (htmlquery_FindOne (Some row1) "/td[contains(@class, 'subtext')]")
    as [subtext|q|]; cbn [outcome_bind] in H; try discriminate H.
  destruct (index rows (3 * Z.of_nat j)) as [row0|q|]; cbn [outcome_bind] in H;
    try discriminate H.
  now exists (Some row0), subtext.
Qed.

(** X7.  In every post of a page that [ScrapePage] returns without error
    the comment count is between 0 and the largest [int], and the rank and
    the score are within the range of [int]. *)
Theorem ScrapePage_numbers_in_range (pageNum : Z) (s s' : state) (page : Page) :
  ScrapePage pageNum s = (Returned (page, None), s') ->
  Forall (fun post =>
            0 <= NumComments post <= GoInt.maxInt /\
            GoInt.inRange (Rank post) /\ GoInt.inRange (Score post))
         (Posts page).
Proof.
  intros H. apply ScrapePage_success in H. destruct H as [_ [doc [t [_ Hp]]]].
  unfold pageOfGroups in Hp.
  destruct (extractGroups (listingRows doc)
              (seq 0 (List.length (listingRows doc) / 3)) [])
    as [[posts [e|]]|q|] eqn:Hg; cbn [outcome_bind] in Hp; try discriminate Hp.
  injection Hp as <-. cbn [Posts].
  apply extractGroups_success in Hg. destruct Hg as [ps [-> HF]]. cbn [app].
  induction HF as [|j post js ps Hj HF IH]; constructor; [|exact IH].
  apply rowGroup_getPost in Hj. destruct Hj as [titleNode [subtextNode Hj]].
  apply getPost_success in Hj.
  destruct Hj as [_ [Hrank [_ [_ [Hscore [Hnum _]]]]]].
  split; [exact (getNumComments_bounds _ _ _ Hnum)|].
  split; [exact (getRank_inRange _ _ _ Hrank) | exact (getPoints_inRange _ _ _ Hscore)].
Qed.

End Numbers.

(* ================================================================= *)
(** ** More on the page fetcher *)

Section PageFetcherMore.

Context {C : Collaborators}.

Local Open Scope string_scope.
Local Open Scope list_scope.
Local Open Scope Z_scope.

(** X8.  Whatever [ScrapePage] returns, and also when it panics, it has
    asked for exactly one document, the one at the address of the page,
    and has then read the clock once, when the page number is 1 or more;
    and it has left the state untouched when the page number is below 1. *)
Theorem ScrapePage_one_fetch_one_clock (pageNum : Z) (s : state) :
  trace (snd (ScrapePage pageNum s)) =
    trace s ++ (if pageNum <? 1 then [] else [Fetched (pageURL pageNum); ClockRead]) /\
  world (snd (ScrapePage pageNum s)) =
    (if pageNum <? 1 then world s
     else snd (Now (snd (LoadURL (pageURL pageNum) (world s))))).
Proof.
  destruct (Z.ltb_spec pageNum 1) as [Hlt|Hge].
  - rewrite ScrapePage_invalid by assumption. cbn [snd]. now rewrite app_nil_r.
  - rewrite ScrapePage_valid by assumption. unfold afterFetch.
    destruct (LoadURL (pageURL pageNum) (world s)) as [r w1]. cbn [snd].
    destruct (Now w1) as [t w2]. now split.
Qed.

(** X9.  When the fetch fails, [ScrapePage] returns the error of the
    fetch as it is, with the zero page; the clock has been read all the
    same. *)
Theorem ScrapePage_fetch_error_verbatim
    (pageNum : Z) (s : state) (err : error) (w1 : World) :
  1 <= pageNum ->
  LoadURL (pageURL pageNum) (world s) = (inr err, w1) ->
  ScrapePage pageNum s =
  (Returned (zeroPage, Some err),
   mkState (snd (Now w1)) (trace s ++ [Fetched (pageURL pageNum); ClockRead])).
Proof.
  intros Hge Hl. rewrite ScrapePage_valid by assumption. unfold afterFetch.
  rewrite Hl. now destruct (Now w1) as [t w2].
Qed.

(** X10.  The page that [ScrapePage] returns without error carries the
    page number it was asked for and, as time of retrieval, the reading of
    the clock taken in the world the fetch left behind. *)
Theorem ScrapePage_stamps_after_fetch (pageNum : Z) (s s' : state) (page : Page) :
  ScrapePage pageNum s = (Returned (page, None), s') ->
  Num page = pageNum /\
  Retrieved page = fst (Now (snd (LoadURL (pageURL pageNum) (world s)))).
Proof.
  intros H. apply ScrapePage_success in H. destruct H as [_ [doc [t [Hf Hp]]]].
  unfold afterFetch in Hf.
  destruct (LoadURL (pageURL pageNum) (world s)) as [r w1]. cbn [snd].
  destruct (Now w1) as [t' w2]. injection Hf as _ <- _. cbn [fst].
  unfold pageOfGroups in Hp.
  destruct (extractGroups (listingRows doc)
              (seq 0 (List.length (listingRows doc) / 3)) [])
    as [[posts [e|]]|q|]; cbn [outcome_bind] in Hp; try discriminate Hp.
  injection Hp as <-. now split.
Qed.

Lemma string_app_inv_head (pre a b : string) :
  (pre ++ a)%string = (pre ++ b)%string -> a = b.
Proof.
  induction pre as [|c pre IH]; cbn; [trivial|].
  intros H. injection H as H. now apply IH.
Qed.

(** X11.  Different page numbers have different addresses, so that a
    range never asks twice for one document. *)
Theorem pageURL_injective (n m : Z) : n <> m -> pageURL n <> pageURL m.
Proof.
  unfold pageURL. intros Hne H. apply Hne.
  now apply DecimalFacts.Itoa_inj, (string_app_inv_head hackernewsURL).
Qed.

End PageFetcherMore.

(* ================================================================= *)
(** ** More on the multi-page fetcher *)

Section MultiPageMore.

Context {C : Collaborators}.

Local Open Scope string_scope.
Local Open Scope list_scope.
Local Open Scope Z_scope.

Lemma visits_one (i : Z) : visits (pageNumbers i 1) = [Fetched (pageURL i); ClockRead].
Proof. now rewrite pageNumbers_S. Qed.

Lemma visits_S (i : Z) (k : nat) :
  visits (pageNumbers i (S k)) =
  [Fetched (pageURL i); ClockRead] ++ visits (pageNumbers (i + 1) k).
Proof. now rewrite pageNumbers_S. Qed.

(** One run of the loop of [ScrapeMultPages], whatever its outcome: [k]
    pages were asked for, the first [new] of them were scraped without
    error. *)
Lemma pagesLoop_run (endPage : Z) (fuel : nat) :
  forall (i : Z) (acc : list Page) (s s' : state) (o : outcome (list Page * option error)),
    1 <= i -> i <= endPage + 1 -> endPage <= GoInt.maxInt ->
    pagesLoop fuel i endPage acc s = (o, s') ->
    exists (k : nat) (new : list Page) (s1 : state),
      i + Z.of_nat k <= endPage + 1 /\
      trace s' = trace s ++ visits (pageNumbers i k) /\
      scraped i (List.length new) s new s1 /\
      (List.length new <= k)%nat /\
      match o with
      | Returned (pages, err) =>
          pages = acc ++ new /\
          (err = None ->
           s1 = s' /\ i + Z.of_nat (List.length new) = endPage + 1 /\
           (i <= endPage -> endPage < GoInt.maxInt))
      | _ => True
      end.
Proof.
  induction fuel as [|fuel IH]; intros i acc s s' o Hi Hie He H.
  - destruct (Z.lt_ge_cases endPage i) as [Hgt|Hle].
    + rewrite pagesLoop_done in H by assumption. injection H as <- <-.
      exists 0%nat, [], s. cbn [List.length]. rewrite !app_nil_r.
      split; [lia|]. split; [reflexivity|]. split; [constructor|]. split; [lia|].
      split; [reflexivity|]. intros _. repeat split; lia.
    + cbn [pagesLoop] in H. destruct (Z.leb_spec i endPage); [|lia].
      injection H as <- <-. exists 0%nat, [], s. cbn [List.length].
      rewrite app_nil_r.
      split; [lia|]. split; [reflexivity|]. split; [constructor|]. split; [lia|].
      exact I.
  - destruct (Z.lt_ge_cases endPage i) as [Hgt|Hle].
    + rewrite pagesLoop_done in H by assumption. injection H as <- <-.
      exists 0%nat, [], s. cbn [List.length]. rewrite !app_nil_r.
      split; [lia|]. split; [reflexivity|]. split; [constructor|]. split; [lia|].
      split; [reflexivity|]. intros _. repeat split; lia.
    + rewrite pagesLoop_step in H by assumption.
      pose proof (ScrapePage_trace i s) as Ht.
      destruct (ScrapePage i s) as [[[page [e|]]|p|] s1] eqn:Hs;
        specialize (Ht _ _ Hi eq_refl).
      * injection H as <- <-. exists 1%nat, [], s. cbn [List.length].
        rewrite visits_one, app_nil_r.
        split; [lia|]. split; [exact Ht|]. split; [constructor|]. split; [lia|].
        split; [reflexivity | discriminate].
      * destruct (Z.eq_dec i GoInt.maxInt) as [Hmax|Hne].
        -- unfold GoInt.incr in H. rewrite Hmax, wrap_past_max in H.
           destruct fuel as [|fuel].
           ++ cbn [pagesLoop] in H.
              destruct (Z.leb_spec GoInt.minInt endPage);
                [|unfold GoInt.minInt in *; lia].
              injection H as <- <-. exists 1%nat, [], s. cbn [List.length].
              rewrite visits_one.
              split; [lia|]. split; [exact Ht|]. split; [constructor|].
              split; [lia | exact I].
           ++ rewrite pagesLoop_step in H by (unfold GoInt.minInt in *; lia).
              rewrite ScrapePage_invalid in H by (unfold GoInt.minInt; lia).
              injection H as <- <-. exists 1%nat, [page], s1. cbn [List.length].
              rewrite visits_one.
              split; [lia|]. split; [exact Ht|].
              split; [eapply scraped_next; [exact Hs | constructor]|].
              split; [lia|]. split; [reflexivity | discriminate].
        -- unfold GoInt.incr in H.
           rewrite wrap_small in H by (unfold GoInt.inRange, GoInt.minInt; lia).
           destruct (IH (i + 1) (acc ++ [page]) s1 s' o ltac:(lia) ltac:(lia) He H)
             as [k [new [s2 [Hk [Htr [Hsc [Hlen Ho]]]]]]].
           exists (S k), (page :: new), s2. cbn [List.length].
           rewrite visits_S, Htr, Ht, <- !app_assoc.
           split; [lia|]. split; [reflexivity|].
           split; [eapply scraped_next; eassumption|]. split; [lia|].
           destruct o as [[pages err]|p|]; try exact I.
           destruct Ho as [-> Hnone]. rewrite <- app_assoc. split; [reflexivity|].
           intros Herr. destruct (Hnone Herr) as [-> [Hn Hend]].
           repeat split; lia.
      * injection H as <- <-. exists 1%nat, [], s. cbn [List.length].
        rewrite visits_one.
        split; [lia|]. split; [exact Ht|]. split; [constructor|].
        split; [lia | exact I].
      * injection H as <- <-. exists 1%nat, [], s. cbn [List.length].
        rewrite visits_one.
        split; [lia|]. split; [exact Ht|]. split; [constructor|].
        split; [lia | exact I].
Qed.

Lemma ScrapeMultPages_valid (startPage endPage : Z) (s : state) :
  1 <= startPage -> startPage <= endPage ->
  ScrapeMultPages startPage endPage s =
  pagesLoop (Z.to_nat (endPage - startPage) + 2) startPage endPage [] s.
Proof.
  intros H1 H2. unfold ScrapeMultPages.
  destruct (Z.ltb_spec startPage 1); [lia|].
  destruct (Z.ltb_spec endPage 1); [lia|]. cbn [orb].
  destruct (Z.gtb_spec startPage endPage); [lia | reflexivity].
Qed.

Lemma ScrapeMultPages_invalid (startPage endPage : Z) (s : state) :
  startPage < 1 \/ endPage < 1 \/ startPage > endPage ->
  exists e, ScrapeMultPages startPage endPage s = (Returned ([], Some e), s).
Proof.
  intros H. unfold ScrapeMultPages.
  destruct (Z.ltb_spec startPage 1); cbn [orb]; [now eexists|].
  destruct (Z.ltb_spec endPage 1); [now eexists|].
  destruct (Z.gtb_spec startPage endPage); [now eexists | lia].
Qed.

(** X12.  Whatever [ScrapeMultPages] returns, and also when it panics,
    the documents it has asked for are those of the pages [startPage],
    [startPage + 1], ... up to some page of the range, each asked for
    once and followed by one reading of the clock, in this order: no page
    outside the range, none twice, none skipped. *)
Theorem ScrapeMultPages_fetches_in_order (startPage endPage : Z) (s : state) :
  endPage <= GoInt.maxInt ->
  exists k : nat,
    trace (snd (ScrapeMultPages startPage endPage s)) =
      trace s ++ visits (pageNumbers startPage k) /\
    (k <> 0%nat -> 1 <= startPage /\ startPage + Z.of_nat k <= endPage + 1).
Proof.
  intros He.
  destruct (Z.lt_ge_cases startPage 1) as [H1|H1];
    [|destruct (Z.lt_ge_cases endPage startPage) as [H2|H2]].
  - destruct (ScrapeMultPages_invalid startPage endPage s) as [e ->]; [lia|].
    exists 0%nat. cbn. rewrite app_nil_r. split; [reflexivity | congruence].
  - destruct (ScrapeMultPages_invalid startPage endPage s) as [e ->]; [lia|].
    exists 0%nat. cbn. rewrite app_nil_r. split; [reflexivity | congruence].
  - rewrite ScrapeMultPages_valid by assumption.
    destruct (pagesLoop _ startPage endPage [] s) as [o s'] eqn:H.
    destruct (pagesLoop_run endPage _ startPage [] s s' o H1 ltac:(lia) He H)
      as [k [new [s1 [Hk [Htr _]]]]].
    exists k. cbn [snd]. split; [assumption | lia].
Qed.

Lemma ScrapeMultPages_returned
    (startPage endPage : Z) (s s' : state) (pages : list Page) (err : option error) :
  endPage <= GoInt.maxInt ->
  ScrapeMultPages startPage endPage s = (Returned (pages, err), s') ->
  map Num pages = pageNumbers startPage (List.length pages) /\
  (err = None ->
   1 <= startPage /\ startPage <= endPage /\ endPage < GoInt.maxInt /\
   len pages = endPage - startPage + 1 /\
   scraped startPage (List.length pages) s pages s').
Proof.
  intros He H.
  destruct (Z.lt_ge_cases startPage 1) as [H1|H1];
    [|destruct (Z.lt_ge_cases endPage startPage) as [H2|H2]].
  - destruct (ScrapeMultPages_invalid startPage endPage s) as [e E]; [lia|].
    rewrite E in H. injection H as <- <- <-. split; [reflexivity | discriminate].
  - destruct (ScrapeMultPages_invalid startPage endPage s) as [e E]; [lia|].
    rewrite E in H. injection H as <- <- <-. split; [reflexivity | discriminate].
  - rewrite ScrapeMultPages_valid in H by assumption.
    destruct (pagesLoop_run endPage _ startPage [] s s' _ H1 ltac:(lia) He H)
      as [k [new [s1 [Hk [Htr [Hsc [Hlen [-> Hnone]]]]]]]].
    cbn [app]. split; [apply (scraped_facts _ _ _ _ _ Hsc)|].
    intros Herr. destruct (Hnone Herr) as [-> [Hn Hend]].
    unfold len. repeat split; try lia. assumption.
Qed.

(** X13.  The pages that [ScrapeMultPages] returns, with or without an
    error, are numbered [startPage], [startPage + 1], ... without gap; and
    when it returns no error the range was valid, it ended below the
    largest [int], and every page of it is there. *)
Theorem ScrapeMultPages_pages_are_consecutive
    (startPage endPage : Z) (s s' : state) (pages : list Page) (err : option error) :
  endPage <= GoInt.maxInt ->
  ScrapeMultPages startPage endPage s = (Returned (pages, err), s') ->
  map Num pages = pageNumbers startPage (List.length pages) /\
  (err = None ->
   1 <= startPage /\ startPage <= endPage /\ endPage < GoInt.maxInt /\
   len pages = endPage - startPage + 1 /\
   scraped startPage (List.length pages) s pages s').
Proof. apply ScrapeMultPages_returned. Qed.

(** X14.  A range of one page, below the largest [int], is [ScrapePage]
    on that page: its page alone when it succeeds, its error and no page
    when it fails, its panic when it panics. *)
Theorem ScrapeMultPages_single_page (pageNum : Z) (s : state) :
  1 <= pageNum -> pageNum < GoInt.maxInt ->
  ScrapeMultPages pageNum pageNum s =
  match ScrapePage pageNum s with
  | (Returned (page, None), s1) => (Returned ([page], None), s1)
  | (Returned (_, Some e), s1) => (Returned ([], Some e), s1)
  | (Panicked p, s1) => (Panicked p, s1)
  | (OutOfFuel, s1) => (OutOfFuel, s1)
  end.
Proof.
  intros H1 H2. rewrite ScrapeMultPages_valid by lia.
  replace (Z.to_nat (pageNum - pageNum) + 2)%nat with 2%nat by lia.
  rewrite pagesLoop_step by lia.
  destruct (ScrapePage pageNum s) as [[[page [e|]]|p|] s1]; try reflexivity.
  apply pagesLoop_done. unfold GoInt.incr.
  rewrite wrap_small by (unfold GoInt.inRange, GoInt.minInt; lia). lia.
Qed.

Lemma pagesLoop_acc (endPage : Z) (fuel : nat) :
  forall (i : Z) (acc pages : list Page) (s : state),
    pagesLoop fuel i endPage (acc ++ pages) s =
    (prepend acc (fst (pagesLoop fuel i endPage pages s)),
     snd (pagesLoop fuel i endPage pages s)).
Proof.
  induction fuel as [|fuel IH]; intros i acc pages s.
  - cbn [pagesLoop]. now destruct (i <=? endPage).
  - destruct (Z.lt_ge_cases endPage i) as [Hgt|Hle].
    + now rewrite !pagesLoop_done by assumption.
    + rewrite !pagesLoop_step by assumption.
      destruct (ScrapePage i s) as [[[page [e|]]|p|] s1]; try reflexivity.
      rewrite <- app_assoc. apply IH.
Qed.

(** X15.  Ranges compose: when the pages [a .. b] are scraped without
    error, scraping [a .. c] for a later [c] is scraping [b + 1 .. c]
    from the state reached, with the pages of [a .. b] put before its
    pages; its error or its panic is that of the second range. *)
Theorem ScrapeMultPages_ranges_compose
    (a b c : Z) (s s1 : state) (first : list Page) :
  b < c -> c <= GoInt.maxInt ->
  ScrapeMultPages a b s = (Returned (first, None), s1) ->
  ScrapeMultPages a c s =
  (prepend first (fst (ScrapeMultPages (b + 1) c s1)),
   snd (ScrapeMultPages (b + 1) c s1)).
Proof.
  intros Hbc Hc H.
  assert (Hb : b <= GoInt.maxInt) by lia.
  destruct (ScrapeMultPages_returned a b s s1 first None Hb H) as [_ Hnone].
  destruct (Hnone eq_refl) as [Ha [Hab [_ [Hlen Hsc]]]]. unfold len in Hlen.
  rewrite !ScrapeMultPages_valid by lia.
  replace (Z.to_nat (c - a) + 2)%nat
    with (List.length first + (Z.to_nat (c - (b + 1)) + 2))%nat by lia.
  rewrite (pagesLoop_scraped _ _ _ _ _ Hsc) by lia.
  replace (a + Z.of_nat (List.length first)) with (b + 1) by lia.
  rewrite wrap_small by (unfold GoInt.inRange, GoInt.minInt; lia).
  cbn [app]. rewrite <- (app_nil_r first) at 1. apply pagesLoop_acc.
Qed.

End MultiPageMore.

(* ================================================================= *)
(** ** When nothing panics *)

Section Safety.

Context {C : Collaborators}.

Local Open Scope list_scope.
Local Open Scope string_scope.
Local Open Scope Z_scope.

Lemma returns_bind {A B} (c : outcome A) (k : A -> outcome B) :
  returns c -> (forall a, returns (k a)) -> returns (outcome_bind c k).
Proof. intros [a ->] Hk. apply Hk. Qed.

Lemma returns_Returned {A} (a : A) : returns (Returned a).
Proof. now exists a. Qed.

(** On a node, the extractors but [getRank] return in every case. *)
Ltac one_match :=
  match goal with
  | |- context [len ?l =? 1] =>
      let E := fresh "E" in
      let a := fresh "a" in
      destruct (len l =? 1) eqn:E; cbn [negb];
      [apply len_one in E; destruct E as [a E]; rewrite E;
       cbn [index len List.length Z.of_nat Z.ltb Z.leb Z.compare orb nth_error
            Z.to_nat outcome_bind]
      | try apply returns_Returned]
  end.

Lemma getTitle_returns (node : Node) : returns (getTitle (Some node)).
Proof.
  unfold getTitle, htmlquery_Find. cbn [outcome_bind]. one_match.
  apply returns_Returned.
Qed.

Lemma getURL_returns (node : Node) : returns (getURL (Some node)).
Proof.
  unfold getURL, htmlquery_Find. cbn [outcome_bind]. one_match.
  apply returns_Returned.
Qed.

Lemma getAuthor_returns (node : Node) : returns (getAuthor (Some node)).
Proof.
  unfold getAuthor, htmlquery_Find. cbn [outcome_bind]. one_match.
  apply returns_Returned.
Qed.

Lemma getPoints_returns (node : Node) : returns (getPoints (Some node)).
Proof.
  unfold getPoints, htmlquery_Find. cbn [outcome_bind]. one_match.
  cbv zeta. destruct (strconv.Atoi _) as [points [e|]]; apply returns_Returned.
Qed.

Lemma getNumComments_returns (node : Node) : returns (getNumComments (Some node)).
Proof.
  rewrite getNumComments_unfold.
  destruct (existsb saysDiscuss (anchorTexts node)); [apply returns_Returned|].
  destruct (lastComment (anchorTexts node)) as [t|]; [|apply returns_Returned].
  destruct (String.eqb (regexp.deleteNonDigits t) ""); apply returns_Returned.
Qed.

Lemma getTimePosted_returns (node : Node) : returns (getTimePosted (Some node)).
Proof.
  unfold getTimePosted, htmlquery_Find. cbn [outcome_bind]. one_match.
  cbv zeta. destruct (Parse _ _) as [posted [e|]]; apply returns_Returned.
Qed.

Lemma getPost_returns (row cell : Node) :
  (forall span, rankSpans row = [span] -> InnerText span <> "") ->
  returns (getPost (Some row) (Some cell)).
Proof.
  intros H. unfold getPost.
  apply returns_bind; [apply getTitle_returns|].
  intros [? [?|]]; [apply returns_Returned|].
  apply returns_bind; [now apply getRank_returns|].
  intros [? [?|]]; [apply returns_Returned|].
  apply returns_bind; [apply getURL_returns|].
  intros [? [?|]]; [apply returns_Returned|].
  apply returns_bind; [apply getAuthor_returns|].
  intros [? [?|]]; [apply returns_Returned|].
  apply returns_bind; [apply getPoints_returns|].
  intros [? [?|]]; [apply returns_Returned|].
  apply returns_bind; [apply getNumComments_returns|].
  intros [? [?|]]; [apply returns_Returned|].
  apply returns_bind; [apply getTimePosted_returns|].
  intros [? [?|]]; apply returns_Returned.
Qed.

Lemma index_in_bounds {A} (l : list A) (i : nat) :
  (i < List.length l)%nat ->
  exists a, nth_error l i = Some a /\ index l (Z.of_nat i) = Returned a.
Proof.
  intros H. unfold index, len.
  destruct (Z.ltb_spec (Z.of_nat i) 0); [lia|].
  destruct (Z.leb_spec (Z.of_nat (List.length l)) (Z.of_nat i)); [lia|].
  cbn [orb]. rewrite Nat2Z.id.
  destruct (nth_error l i) as [a|] eqn:E; [now exists a|].
  apply nth_error_None in E. lia.
Qed.

Lemma rowGroup_returns (rows : list Node) (j : nat) :
  wellFormedRows rows ->
  (j < List.length rows / 3)%nat ->
  returns (rowGroup rows j).
Proof.
  intros Hw Hj.
  pose proof (Nat.div_mod_eq (List.length rows) 3) as Hd.
  destruct (index_in_bounds rows (3 * j + 1) ltac:(lia)) as [row1 [Hn1 Hi1]].
  destruct (index_in_bounds rows (3 * j) ltac:(lia)) as [row0 [Hn0 Hi0]].
  destruct (Hw j row0 row1 Hj Hn0 Hn1) as [Hcell Hrank].
  unfold rowGroup.
  replace (3 * Z.of_nat j + 1) with (Z.of_nat (3 * j + 1)) by lia.
  replace (3 * Z.of_nat j) with (Z.of_nat (3 * j)) by lia.
  rewrite Hi1, Hi0. unfold htmlquery_FindOne, htmlquery_Find. cbn [outcome_bind].
  fold (subtextCells row1).
  destruct (subtextCells row1) as [|cell cells]; [congruence|]. cbn [hd_error].
  now apply getPost_returns.
Qed.

Lemma extractGroups_returns (rows : list Node) (js : list nat) :
  wellFormedRows rows ->
  Forall (fun j => (j < List.length rows / 3)%nat) js ->
  forall posts, returns (extractGroups rows js posts).
Proof.
  intros Hw HF. induction HF as [|j js Hj HF IH]; intros posts;
    cbn [extractGroups]; [apply returns_Returned|].
  apply returns_bind; [now apply rowGroup_returns|].
  intros [post [e|]]; [apply returns_Returned | apply IH].
Qed.

(** X16.  [ScrapePage] returns, with a page or with an error, whenever
    the document it gets has no full group of three rows, the groups its
    loop reads, with a rank span without text or without subtext cell in
    its second row; so do the calls that get no document. *)
Theorem ScrapePage_returns_on_well_formed_rows (pageNum : Z) (s : state) :
  (forall doc w1,
     LoadURL (pageURL pageNum) (world s) = (inl doc, w1) ->
     wellFormedRows (listingRows doc)) ->
  returns (fst (ScrapePage pageNum s)).
Proof.
  intros H. destruct (Z.lt_ge_cases pageNum 1) as [Hlt|Hge].
  - rewrite ScrapePage_invalid by assumption. apply returns_Returned.
  - rewrite ScrapePage_valid by assumption. unfold afterFetch.
    destruct (LoadURL (pageURL pageNum) (world s)) as [[doc|err] w1] eqn:Hl;
      destruct (Now w1) as [t w2]; cbn [fst]; [|apply returns_Returned].
    unfold pageOfGroups. apply returns_bind.
    + apply extractGroups_returns; [now apply (H doc w1)|].
      apply Forall_forall. intros j Hj. apply in_seq in Hj. lia.
    + intros [posts [e|]]; apply returns_Returned.
Qed.

End Safety.

(* ================================================================= *)
(** ** The second copy against the first *)

Section Copies.

Context {C : Collaborators}.

Local Open Scope string_scope.
Local Open Scope list_scope.
Local Open Scope Z_scope.

Lemma SecondCopy_ScrapePage_invalid (pageNum : Z) (s : state) :
  pageNum < 1 ->
  SecondCopy.ScrapePage pageNum s =
  (Returned (zeroPage, Some (errors_New "page number must be a positive integer")), s).
Proof.
  intros H. unfold SecondCopy.ScrapePage.
  destruct (Z.ltb_spec pageNum 1); [reflexivity | lia].
Qed.

Lemma SecondCopy_ScrapePage_valid (pageNum : Z) (s : state) :
  1 <= pageNum ->
  SecondCopy.ScrapePage pageNum s =
  (match fst (LoadURL (pageURL pageNum) (snd (Now (world s)))) with
   | inr err => Returned (zeroPage, Some err)
   | inl doc => extractPage doc pageNum (fst (Now (world s)))
   end,
   mkState (snd (LoadURL (pageURL pageNum) (snd (Now (world s)))))
           (trace s ++ [ClockRead; Fetched (pageURL pageNum)])).
Proof.
  intros H. unfold SecondCopy.ScrapePage, pageURL.
  destruct (Z.ltb_spec pageNum 1); [lia|].
  unfold M_bind, htmlquery_LoadURL, time_Now, lift, M_ret.
  destruct (Now (world s)) as [t w1]. cbn [world trace fst snd].
  destruct (LoadURL (hackernewsURL ++ strconv.Itoa pageNum)%string w1) as [r w2].
  cbn [fst snd]. rewrite <- app_assoc. cbn [app].
  now destruct r.
Qed.

Lemma ScrapePage_valid_by_world (pageNum : Z) (s : state) :
  1 <= pageNum ->
  ScrapePage pageNum s =
  (match fst (LoadURL (pageURL pageNum) (world s)) with
   | inr err => Returned (zeroPage, Some err)
   | inl doc =>
       extractPage doc pageNum (fst (Now (snd (LoadURL (pageURL pageNum) (world s)))))
   end,
   mkState (snd (Now (snd (LoadURL (pageURL pageNum) (world s)))))
           (trace s ++ [Fetched (pageURL pageNum); ClockRead])).
Proof.
  intros H. rewrite ScrapePage_valid by assumption. unfold afterFetch.
  destruct (LoadURL (pageURL pageNum) (world s)) as [r w1]. cbn [fst snd].
  destruct (Now w1) as [t w2]. cbn [fst snd].
  destruct r; [now rewrite extractPage_groups | reflexivity].
Qed.

Lemma untimed_extractPage (doc : Node) (pageNum : Z) (t t' : Time) :
  untimed (extractPage doc pageNum t) = untimed (extractPage doc pageNum t').
Proof.
  unfold extractPage. cbn [htmlquery_Find outcome_bind].
  destruct (rowsLoop _ _ 0 []) as [[posts [e|]]|p|]; reflexivity.
Qed.

(** X17.  In the second copy the page that [ScrapePage] returns without
    error carries, as time of retrieval, the reading of the clock taken
    before the fetch, and the clock is read before the document is asked
    for. *)
Theorem SecondCopy_stamps_before_fetch (pageNum : Z) (s s' : state) (page : Page) :
  SecondCopy.ScrapePage pageNum s = (Returned (page, None), s') ->
  Num page = pageNum /\
  Retrieved page = fst (Now (world s)) /\
  trace s' = trace s ++ [ClockRead; Fetched (pageURL pageNum)].
Proof.
  intros H. destruct (Z.lt_ge_cases pageNum 1) as [Hlt|Hge].
  - rewrite SecondCopy_ScrapePage_invalid in H by assumption. discriminate H.
  - rewrite SecondCopy_ScrapePage_valid in H by assumption.
    injection H as H <-. cbn [trace].
    destruct (fst (LoadURL (pageURL pageNum) (snd (Now (world s))))) as [doc|err];
      [|discriminate H].
    rewrite extractPage_groups in H. unfold pageOfGroups in H.
    destruct (extractGroups (listingRows doc)
                (seq 0 (List.length (listingRows doc) / 3)) [])
      as [[posts [e|]]|q|]; cbn [outcome_bind] in H; try discriminate H.
    injection H as <-. now repeat split.
Qed.

Lemma copies_agree_on_a_page (pageNum : Z) (s1 s2 : state) :
  clockIndependent ->
  world s1 = world s2 ->
  untimed (fst (SecondCopy.ScrapePage pageNum s1)) = untimed (fst (ScrapePage pageNum s2)) /\
  world (snd (SecondCopy.ScrapePage pageNum s1)) = world (snd (ScrapePage pageNum s2)).
Proof.
  intros Hci Hw. destruct (Z.lt_ge_cases pageNum 1) as [Hlt|Hge].
  - rewrite SecondCopy_ScrapePage_invalid, ScrapePage_invalid by assumption.
    now split.
  - rewrite SecondCopy_ScrapePage_valid, ScrapePage_valid_by_world by assumption.
    cbn [fst snd world]. rewrite Hw.
    destruct (Hci (pageURL pageNum) (world s2)) as [-> ->].
    split; [|reflexivity].
    destruct (fst (LoadURL (pageURL pageNum) (world s2))) as [doc|err];
      [apply untimed_extractPage | reflexivity].
Qed.

(** X18.  When the answer to a fetch does not depend on whether the clock
    was read before it, the two copies of [ScrapePage] agree: the same
    posts, page number, error or panic, and the same world afterwards;
    only the time of retrieval may differ. *)
Theorem copies_agree_on_ScrapePage (pageNum : Z) (s : state) :
  clockIndependent ->
  untimed (fst (SecondCopy.ScrapePage pageNum s)) = untimed (fst (ScrapePage pageNum s)) /\
  world (snd (SecondCopy.ScrapePage pageNum s)) = world (snd (ScrapePage pageNum s)).
Proof. intros H. now apply copies_agree_on_a_page. Qed.

Lemma copies_agree_on_the_loop (endPage : Z) (fuel : nat) :
  clockIndependent ->
  forall (i : Z) (acc1 acc2 : list Page) (s1 s2 : state),
    world s1 = world s2 ->
    map (fun page => (Posts page, Num page)) acc1 =
    map (fun page => (Posts page, Num page)) acc2 ->
    untimedPages (fst (SecondCopy.pagesLoop fuel i endPage acc1 s1)) =
    untimedPages (fst (pagesLoop fuel i endPage acc2 s2)) /\
    world (snd (SecondCopy.pagesLoop fuel i endPage acc1 s1)) =
    world (snd (pagesLoop fuel i endPage acc2 s2)).
Proof.
  intros Hci. induction fuel as [|fuel IH]; intros i acc1 acc2 s1 s2 Hw Hacc.
  - cbn [SecondCopy.pagesLoop pagesLoop].
    destruct (i <=? endPage); cbn; [now split | now rewrite Hacc].
  - cbn [SecondCopy.pagesLoop pagesLoop].
    destruct (i <=? endPage); [|cbn; now rewrite Hacc].
    unfold M_bind.
    destruct (copies_agree_on_a_page i s1 s2 Hci Hw) as [Ho Hw'].
    destruct (SecondCopy.ScrapePage i s1) as [o1 t1].
    destruct (ScrapePage i s2) as [o2 t2]. cbn [fst snd] in Ho, Hw'.
    destruct o1 as [[page1 [e1|]]|p1|], o2 as [[page2 [e2|]]|p2|];
      cbn [untimed] in Ho; try discriminate Ho.
    + injection Ho as _ _ <-. cbn. now rewrite Hacc.
    + injection Ho as Hp Hn. apply IH; [assumption|].
      rewrite !map_app, Hacc. cbn [map]. now rewrite Hp, Hn.
    + injection Ho as <-. now split.
    + now split.
Qed.

(** X19.  Under the same condition the two multi-page fetchers agree:
    [ScrapePages] of the second copy and [ScrapeMultPages] return pages
    with the same posts and numbers, the same error or panic, and leave
    the same world. *)
Theorem copies_agree_on_ranges (startPage endPage : Z) (s : state) :
  clockIndependent ->
  untimedPages (fst (SecondCopy.ScrapePages startPage endPage s)) =
  untimedPages (fst (ScrapeMultPages startPage endPage s)) /\
  world (snd (SecondCopy.ScrapePages startPage endPage s)) =
  world (snd (ScrapeMultPages startPage endPage s)).
Proof.
  intros Hci. unfold SecondCopy.ScrapePages, ScrapeMultPages.
  destruct ((startPage <? 1) || (endPage <? 1)); [now split|].
  destruct (startPage >? endPage); [now split|].
  now apply copies_agree_on_the_loop.
Qed.

End Copies.

(* ================================================================= *)
(** ** What the tests can report *)

Section TestFacts.

Context {C : Collaborators}.

Local Open Scope string_scope.
Local Open Scope list_scope.
Local Open Scope Z_scope.

(** X21.  [TestScrapeMultPagesSuccess] never reports a wrong number of
    pages: when [ScrapeMultPages 1 3] returns no error it returns three
    pages, so the test ends without report, or with the error returned as
    its only report, or by the panic of the call. *)
Theorem TestScrapeMultPagesSuccess_reports (s : state) (reports : list report)
    (s' : state) :
  TestScrapeMultPagesSuccess s = (Returned reports, s') ->
  (reports = [] /\
   exists pages, ScrapeMultPages 1 3 s = (Returned (pages, None), s') /\ len pages = 3) \/
  (exists pages e,
     reports = [ErrorReturned e] /\
     ScrapeMultPages 1 3 s = (Returned (pages, Some e), s')).
Proof.
  unfold TestScrapeMultPagesSuccess, M_bind, M_ret. intros H.
  destruct (ScrapeMultPages 1 3 s) as [[[pages [e|]]|p|] s1] eqn:Hs;
    try discriminate H.
  - injection H as <- <-. right. now exists pages, e.
  - assert (Hlen : len pages = 3).
    { destruct (ScrapeMultPages_returned 1 3 s s1 pages None
                  ltac:(unfold GoInt.maxInt; lia) Hs) as [_ Hnone].
      destruct (Hnone eq_refl) as [_ [_ [_ [Hl _]]]]. lia. }
    rewrite Hlen in H. cbn in H. injection H as <- <-.
    left. split; [reflexivity|]. now exists pages.
Qed.

(** X22.  [TestScrapePageSuccess] passes only when the document of page
    1 is fetched and has at least sixty listing rows: twenty full groups
    of three. *)
Theorem TestScrapePageSuccess_needs_sixty_rows (s s' : state) :
  TestScrapePageSuccess s = (Returned [], s') ->
  exists doc,
    fst (LoadURL (pageURL 1) (world s)) = inl doc /\
    60 <= len (listingRows doc).
Proof.
  unfold TestScrapePageSuccess, M_bind, M_ret. intros H.
  destruct (ScrapePage 1 s) as [[[page [e|]]|p|] s1] eqn:Hs; try discriminate H.
  cbv zeta in H. destruct (Z.ltb_spec (len (Posts page)) 20) as [|Hn];
    [discriminate H|].
  apply ScrapePage_success in Hs. destruct Hs as [_ [doc [t [Hf Hp]]]].
  exists doc. split.
  - unfold afterFetch in Hf.
    destruct (LoadURL (pageURL 1) (world s)) as [r w1].
    destruct (Now w1) as [t' w2]. now injection Hf as -> _ _.
  - unfold pageOfGroups in Hp.
    destruct (extractGroups (listingRows doc)
                (seq 0 (List.length (listingRows doc) / 3)) [])
      as [[posts [e|]]|q|] eqn:Hg; cbn [outcome_bind] in Hp; try discriminate Hp.
    injection Hp as <-. cbn [Posts] in Hn.
    apply extractGroups_success in Hg. destruct Hg as [ps [-> HF]].
    cbn [app] in Hn. apply Forall2_length in HF. rewrite length_seq in HF.
    unfold len in *.
    pose proof (Nat.div_mod_eq (List.length (listingRows doc)) 3). lia.
Qed.

End TestFacts.

(* ================================================================= *)
(** ** The further properties on the sample documents *)

Section MoreSamples.

Import Sample.
Import MoreSample.

Local Open Scope string_scope.
Local Open Scope list_scope.
Local Open Scope Z_scope.

Local Abbreviation DC := Doc.collaborators.

Lemma getTitle_getURL_exactly_one_witness :
  getTitle (ptrTo (row "1.")) = Returned ("Show HN: a scraper", None) /\
  getURL (ptrTo (Doc.Element "tr" [] [])) = Returned ("", Some UnexpectedFormat).
Proof.
  split.
  - apply (proj1 (getTitle_getURL_exactly_one (C := DC) (row "1."))).
    left. exists (Doc.anchor "titlelink" "https://example.com/" "Show HN: a scraper").
    split; [reflexivity|]. split; reflexivity.
  - apply (proj2 (getTitle_getURL_exactly_one (C := DC) (Doc.Element "tr" [] []))).
    right. split; [vm_compute; discriminate|]. split; reflexivity.
Defined.

Lemma getAuthor_never_fails_witness :
  getAuthor (ptrTo (cell "7 points" "discuss")) = Returned ("pg", None) /\
  getAuthor (ptrTo twoAuthors) = Returned ("", None).
Proof.
  split.
  - apply (proj1 (getAuthor_never_fails (C := DC) (cell "7 points" "discuss"))
             (Doc.anchor "hnuser" "user" "pg")).
    reflexivity.
  - apply (proj1 (proj2 (getAuthor_never_fails (C := DC) twoAuthors))).
    vm_compute. discriminate.
Defined.

Lemma getRank_panics_only_on_empty_text_witness :
  getRank (ptrTo (row "")) = Panicked (SliceBoundsOutOfRange (-1) 0) /\
  returns (getRank (ptrTo (row "7."))).
Proof.
  split.
  - apply (proj2 (proj1 (getRank_panics_only_on_empty_text (C := DC) (row "")) _)).
    split; [reflexivity|]. exists (Doc.span "rank" ""). split; reflexivity.
  - apply (proj2 (getRank_panics_only_on_empty_text (C := DC) (row "7."))).
    intros span H. injection H as <-. discriminate.
Defined.

Lemma getRank_reads_printed_int_witness :
  getRank (ptrTo (row "-7.")) = Returned (-7, None).
Proof.
  apply (getRank_reads_printed_int (C := DC) (row "-7.") (Doc.span "rank" "-7.")
           (-7) "."%char).
  - reflexivity.
  - reflexivity.
  - unfold GoInt.inRange, GoInt.minInt, GoInt.maxInt. lia.
Defined.

Lemma getPoints_reads_printed_plural_witness :
  getPoints (ptrTo (cell "1234 points" "discuss")) = Returned (1234, None).
Proof.
  apply (getPoints_reads_printed_plural (C := DC) (cell "1234 points" "discuss")
           (Doc.span "score" "1234 points") 1234).
  - reflexivity.
  - reflexivity.
  - unfold GoInt.inRange, GoInt.minInt, GoInt.maxInt. lia.
Defined.

Lemma getNumComments_reads_printed_count_witness :
  getNumComments (ptrTo cellOfTheSite) = Returned (42, None).
Proof.
  apply (getNumComments_reads_printed_count (C := DC) cellOfTheSite
           ["pg"; "hide"] 42 nbspComments).
  - reflexivity.
  - reflexivity.
  - reflexivity.
  - reflexivity.
  - reflexivity.
  - unfold GoInt.maxInt. lia.
Defined.

Lemma ScrapePage_numbers_in_range_witness :
  exists page s',
    ScrapePage 1 (initial threePages) = (Returned (page, None), s') /\
    Forall (fun post =>
              0 <= NumComments post <= GoInt.maxInt /\
              GoInt.inRange (Rank post) /\ GoInt.inRange (Score post))
           (Posts page).
Proof.
  eexists. eexists. split; [reflexivity|].
  eapply (ScrapePage_numbers_in_range (C := DC) 1 (initial threePages)).
  reflexivity.
Defined.

Lemma ScrapePage_fetch_error_verbatim_witness :
  exists s',
    ScrapePage 2 (initial onePage) =
    (Returned (zeroPage, Some (ExternalError "Not Found")), s').
Proof.
  eexists.
  apply (ScrapePage_fetch_error_verbatim (C := DC) 2 (initial onePage)
           (ExternalError "Not Found") onePage).
  - lia.
  - reflexivity.
Defined.

Lemma ScrapePage_stamps_after_fetch_witness :
  exists page s',
    ScrapePage 1 (initial threePages) = (Returned (page, None), s') /\
    Num page = 1 /\ Retrieved page = 1000.
Proof.
  eexists. eexists. split; [reflexivity|].
  eapply (ScrapePage_stamps_after_fetch (C := DC) 1 (initial threePages)).
  reflexivity.
Defined.

Lemma pageURL_injective_witness : pageURL 1 <> pageURL 2.
Proof. apply pageURL_injective. lia. Defined.

Lemma ScrapeMultPages_fetches_in_order_witness :
  exists k : nat,
    trace (snd (ScrapeMultPages 1 3 (initial onePage))) =
      trace (initial onePage) ++ visits (pageNumbers 1 k) /\
    (k <> 0%nat -> 1 <= 1 /\ 1 + Z.of_nat k <= 3 + 1).
Proof.
  apply (ScrapeMultPages_fetches_in_order (C := DC) 1 3 (initial onePage)).
  unfold GoInt.maxInt. lia.
Defined.

Lemma ScrapeMultPages_pages_are_consecutive_witness :
  exists pages err s',
    ScrapeMultPages 1 3 (initial onePage) = (Returned (pages, err), s') /\
    map Num pages = pageNumbers 1 (List.length pages).
Proof.
  eexists. eexists. eexists. split; [reflexivity|].
  eapply (ScrapeMultPages_pages_are_consecutive (C := DC) 1 3 (initial onePage)).
  - unfold GoInt.maxInt. lia.
  - reflexivity.
Defined.

Lemma ScrapeMultPages_single_page_witness :
  ScrapeMultPages 2 2 (initial threePages) =
  match ScrapePage 2 (initial threePages) with
  | (Returned (page, None), s1) => (Returned ([page], None), s1)
  | (Returned (_, Some e), s1) => (Returned ([], Some e), s1)
  | (Panicked p, s1) => (Panicked p, s1)
  | (OutOfFuel, s1) => (OutOfFuel, s1)
  end.
Proof.
  apply (ScrapeMultPages_single_page (C := DC) 2 (initial threePages)).
  - lia.
  - unfold GoInt.maxInt. lia.
Defined.

Lemma ScrapeMultPages_ranges_compose_witness :
  exists first s1,
    ScrapeMultPages 1 1 (initial threePages) = (Returned (first, None), s1) /\
    ScrapeMultPages 1 3 (initial threePages) =
    (prepend first (fst (ScrapeMultPages (1 + 1) 3 s1)),
     snd (ScrapeMultPages (1 + 1) 3 s1)).
Proof.
  eexists. eexists. split; [reflexivity|].
  apply (ScrapeMultPages_ranges_compose (C := DC) 1 1 3 (initial threePages)).
  - lia.
  - unfold GoInt.maxInt. lia.
  - reflexivity.
Defined.

Lemma public_operations_finish_witness :
  finished (fst (ScrapeMultPages 1 3 (initial threePages))).
Proof.
  apply (proj2 (public_operations_finish (C := DC) (initial threePages)) 1 3);
    unfold GoInt.inRange, GoInt.minInt, GoInt.maxInt; lia.
Defined.

(** The pages of the sample site, and a page that ends with two rows the
    loop does not read: a title row without rank text and a row without
    subtext cell. *)
Lemma ScrapePage_returns_on_well_formed_rows_witness :
  returns (fst (ScrapePage 1 (initial threePages))) /\
  returns (fst (ScrapePage 1 (initial MoreSample.trailingPair))).
Proof.
  split.
  - apply (ScrapePage_returns_on_well_formed_rows (C := DC) 1 (initial threePages)).
    intros doc w1 H. injection H as <- _.
    intros j row0 row1 Hj H0 H1.
    destruct j as [|[|j]]; [| |vm_compute in Hj; lia];
      injection H0 as <-; injection H1 as <-;
      (split; [discriminate | intros span Hs; injection Hs as <-; discriminate]).
  - apply (ScrapePage_returns_on_well_formed_rows (C := DC) 1
             (initial MoreSample.trailingPair)).
    intros doc w1 H. injection H as <- _.
    intros j row0 row1 Hj H0 H1.
    destruct j as [|j]; [|vm_compute in Hj; lia].
    injection H0 as <-; injection H1 as <-.
    split; [discriminate | intros span Hs; injection Hs as <-; discriminate].
Defined.

Lemma SecondCopy_stamps_before_fetch_witness :
  exists page s',
    SecondCopy.ScrapePage 1 (initial threePages) = (Returned (page, None), s') /\
    Num page = 1 /\ Retrieved page = 1000 /\
    trace s' = [ClockRead; Fetched "https://news.ycombinator.com/news?p=1"].
Proof.
  eexists. eexists. split; [reflexivity|].
  eapply (SecondCopy_stamps_before_fetch (C := DC) 1 (initial threePages)).
  reflexivity.
Defined.

Lemma clockIndependent_sample : clockIndependent (C := DC).
Proof. intros url w. split; reflexivity. Defined.

Lemma copies_agree_on_ScrapePage_witness :
  untimed (fst (SecondCopy.ScrapePage 1 (initial threePages))) =
  untimed (fst (ScrapePage 1 (initial threePages))) /\
  world (snd (SecondCopy.ScrapePage 1 (initial threePages))) =
  world (snd (ScrapePage 1 (initial threePages))).
Proof.
  apply (copies_agree_on_ScrapePage (C := DC) 1 (initial threePages)).
  exact clockIndependent_sample.
Defined.

Lemma copies_agree_on_ranges_witness :
  untimedPages (fst (SecondCopy.ScrapePages 1 3 (initial threePages))) =
  untimedPages (fst (ScrapeMultPages 1 3 (initial threePages))) /\
  world (snd (SecondCopy.ScrapePages 1 3 (initial threePages))) =
  world (snd (ScrapeMultPages 1 3 (initial threePages))).
Proof.
  apply (copies_agree_on_ranges (C := DC) 1 3 (initial threePages)).
  exact clockIndependent_sample.
Defined.

Lemma TestScrapeMultPagesSuccess_reports_witness :
  let reports := [ErrorReturned (ExternalError "Not Found")] in
  let s' := snd (ScrapeMultPages 1 3 (initial onePage)) in
  TestScrapeMultPagesSuccess (initial onePage) = (Returned reports, s') /\
  ((reports = [] /\
    exists pages,
      ScrapeMultPages 1 3 (initial onePage) = (Returned (pages, None), s') /\
      len pages = 3) \/
   (exists pages e,
      reports = [ErrorReturned e] /\
      ScrapeMultPages 1 3 (initial onePage) = (Returned (pages, Some e), s'))).
Proof.
  cbv zeta. split; [reflexivity|].
  apply (TestScrapeMultPagesSuccess_reports (C := DC) (initial onePage)).
  reflexivity.
Defined.

Lemma TestScrapePageSuccess_needs_sixty_rows_witness :
  exists s',
    TestScrapePageSuccess (initial frontPage) = (Returned [], s') /\
    exists doc,
      fst (LoadURL (pageURL 1) (world (initial frontPage))) = inl doc /\
      60 <= len (listingRows doc).
Proof.
  eexists. split; [reflexivity|].
  eapply (TestScrapePageSuccess_needs_sixty_rows (C := DC) (initial frontPage)).
  reflexivity.
Defined.

End MoreSamples.
